(** * Brand-rebuild tracker: derivation engine, filter layer and mutations

    A shallow embedding of the logic of the dashboard application
    (App.tsx, OwnerView.tsx, GanttView.tsx, DashboardView.tsx,
    CountdownTracker.tsx) and the properties of its specification.

    Conventions of the embedding.
    - JavaScript objects used as dictionaries are finite maps ([gmap]),
      [Set<string>] is [gset string], arrays are lists.
    - A [Date] is its time value in milliseconds, [None] standing for the
      Invalid Date whose time value is NaN; every comparison with NaN is
      false.
    - A subtask weight is the decimal fraction of the program text ([Q]).
      The weighted progress is given twice: [progress] adds the weights
      exactly, [progress64] adds their doubles as the engine does; on the
      table of the program the two agree for every completion map
      ([progress64_on_table]).
    - Built-ins of the host (date parsing, [trim], [toLowerCase],
      [toLocaleDateString], [JSON.parse]) are an interface, [Host]; the
      general theorems hold for every host, the worked examples run on the
      concrete host [es_host]. *)

From Stdlib Require Import QArith Qround.
From Stdlib Require PrimFloat FloatOps SpecFloat Uint63.
From stdpp Require Import gmap strings list fin_maps pretty sorting.

Open Scope Z_scope.
Set Warnings "-register-all".

(* ===================================================================== *)
(** * Part I: the program                                                 *)
(* ===================================================================== *)

(** ** Host built-ins *)

(** The value [JSON.parse] yields. A string is its sequence of code units;
    a number keeps its lexeme; an object lists its members as written. *)
Inductive json :=
  | JNull
  | JBool (b : bool)
  | JNum (lexeme : string)
  | JStr (units : list N)
  | JArr (items : list json)
  | JObj (members : list (list N * json)).

(** The code units of a string literal of the program text. *)
Fixpoint units (s : string) : list N :=
  match s with
  | EmptyString => []
  | String c rest => Ascii.N_of_ascii c :: units rest
  end.

Class Host := {
  (** [JSON.parse(s)]; [None] when it throws a SyntaxError *)
  JSON_parse : string -> option json;
  (** time value of [new Date(s)]; [None] is the Invalid Date (NaN) *)
  Date_time : string -> option Z;
  (** [s.trim()] *)
  trim : string -> string;
  (** [s.toLowerCase()] *)
  toLowerCase : string -> string;
  (** [new Date(s).toLocaleDateString()] *)
  toLocaleDateString : string -> string;
}.

(** Relational operators on two [Date] objects compare their time values;
    with NaN on either side the answer is [false]. *)
Definition date_lt (a b : option Z) : bool :=
  match a, b with Some x, Some y => x <? y | _, _ => false end.
Definition date_le (a b : option Z) : bool :=
  match a, b with Some x, Some y => x <=? y | _, _ => false end.
Definition date_gt (a b : option Z) : bool := date_lt b a.
Definition date_ge (a b : option Z) : bool := date_le b a.

(** [Math.round]: the nearest integer, ties towards plus infinity. *)
Definition Math_round (x : Q) : Z := Qfloor (x + (1 # 2))%Q.

(** Milliseconds in a day, [1000 * 60 * 60 * 24]. *)
Definition msPerDay : Z := 1000 * 60 * 60 * 24.

(** ** Data model *)

Record Task := {
  t_id : string;
  t_label : string;
  t_start : string;
  t_end : string;
  t_owner : string;
  t_category : option string;
}.

Record TaskOverride := {
  o_start : option string;
  o_end : option string;
  o_owner : option string;
  o_label : option string;
}.

Record Subtask := {
  s_id : string;
  s_label : string;
  s_weight : Q;
  s_description : string;
}.

(** A chart row: the task spread together with [offset] and [length]. *)
Record Row := {
  r_task : Task;
  r_offset : option Z;
  r_length : option Z;
}.

Inductive Status := Completed | NotStarted | Overdue | InProgress.

Section Engine.
Context `{Host}.

(** [const toDate = (s) => new Date(s)] *)
Definition toDate (s : string) : option Z := Date_time s.

(** [daysBetween(a, b)]: rounded number of days from [a] to [b], NaN when
    either date is invalid. *)
Definition daysBetween (a b : string) : option Z :=
  match toDate b, toDate a with
  | Some tb, Some ta => Some (Math_round (inject_Z (tb - ta) / inject_Z msPerDay))
  | _, _ => None
  end.

(** [buildRows(tasks)], with [KICKOFF] as the origin of the chart.
    [Math.max] with a NaN argument is NaN. *)
Definition buildRow (kickoff : string) (t : Task) : Row :=
  {| r_task := t;
     r_offset := Z.max 0 <$> daysBetween kickoff (t_start t);
     r_length := Z.max 1 <$> daysBetween (t_start t) (t_end t) |}.

Definition buildRows (kickoff : string) (tasks : list Task) : list Row :=
  map (buildRow kickoff) tasks.

(** *** Effective task list ([allTasks] in App.tsx) *)

(** [a || b] on an optional string: [undefined] and the empty string are
    falsy. *)
Definition str_or (a : option string) (b : string) : string :=
  match a with
  | Some s => if decide (s = "") then b else s
  | None => b
  end.

Definition applyOverride (taskOverrides : gmap string TaskOverride)
    (task : Task) : Task :=
  match taskOverrides !! t_id task with
  | Some override =>
      {| t_id := t_id task;
         t_label := str_or (o_label override) (t_label task);
         t_start := str_or (o_start override) (t_start task);
         t_end := str_or (o_end override) (t_end task);
         t_owner := str_or (o_owner override) (t_owner task);
         t_category := t_category task |}
  | None => task
  end.

Definition tasksWithOverrides (allProjectTasks : list Task)
    (taskOverrides : gmap string TaskOverride) (customTasks : list Task)
    (deletedTaskIds : gset string) : list Task :=
  let combinedTasks := allProjectTasks ++ customTasks in
  map (applyOverride taskOverrides)
      (filter (fun task => t_id task ∉ deletedTaskIds) combinedTasks).

Definition allTasks (kickoff : string) (allProjectTasks : list Task)
    (taskOverrides : gmap string TaskOverride) (customTasks : list Task)
    (deletedTaskIds : gset string) : list Row :=
  buildRows kickoff
    (tasksWithOverrides allProjectTasks taskOverrides customTasks deletedTaskIds).

(** *** Weighted progress ([progress] in App.tsx) *)

(** The inner loop: [totalProgress += subtask.weight * 100] for every
    subtask whose flag in [completed] is truthy, here with the decimal
    weights added exactly. [totalProgress64] below is the same loop on
    the doubles the engine adds. *)
Definition totalProgress (subtasks : list Subtask)
    (completed : gmap string bool) : Q :=
  fold_left
    (fun total subtask =>
       if default false (completed !! s_id subtask)
       then (total + s_weight subtask * 100)%Q
       else total)
    subtasks 0%Q.

(** First loop, over [Object.keys(subtaskDefinitions)]. *)
Definition progressOfDefinitions
    (subtaskDefinitions : gmap string (list Subtask))
    (subtaskProgress : gmap string (gmap string bool)) : gmap string Z :=
  map_imap
    (fun taskId subtasks =>
       let completed := default ∅ (subtaskProgress !! taskId) in
       Some (Math_round (totalProgress subtasks completed)))
    subtaskDefinitions.

(** [!result[task.id]]: a missing entry and the number 0 are falsy. *)
Definition falsy_number (v : option Z) : bool :=
  match v with
  | Some n => n =? 0
  | None => true
  end.

(** Second loop, over the effective tasks, mutating [result] in turn. *)
Definition fillMissing (result : gmap string Z) (tasks : list Row)
    : gmap string Z :=
  fold_left
    (fun result task =>
       if falsy_number (result !! t_id (r_task task))
       then <[t_id (r_task task) := 0]> result
       else result)
    tasks result.

Definition progress (subtaskDefinitions : gmap string (list Subtask))
    (subtaskProgress : gmap string (gmap string bool))
    (allTasks : list Row) : gmap string Z :=
  fillMissing (progressOfDefinitions subtaskDefinitions subtaskProgress)
              allTasks.

(** [progress[task.id] || 0] *)
Definition taskProgressOf (progress : gmap string Z) (task : Task) : Z :=
  default 0 (progress !! t_id task).

(** *** Status derivation *)

(** [getTaskStatus] of OwnerView.tsx (ProgressManager.tsx has the same
    chain of tests); the badge is identified by its status. *)
Definition getTaskStatus (progress : gmap string Z) (currentDate : string)
    (task : Task) : Status :=
  let taskProgress := taskProgressOf progress task in
  let today := toDate currentDate in
  let start := toDate (t_start task) in
  let end_ := toDate (t_end task) in
  if taskProgress =? 100 then Completed
  else if date_lt today start then NotStarted
  else if date_gt today end_ then Overdue
  else InProgress.

Definition statusLabel (s : Status) : string :=
  match s with
  | Completed => "Completed"
  | NotStarted => "Not Started"
  | Overdue => "Overdue"
  | InProgress => "In Progress"
  end.

(** The counters of [stats] in DashboardView.tsx. *)
Record Stats := {
  notStarted : nat;
  inProgress : nat;
  completed : nat;
  overdue : nat;
  total : nat;
}.

(** The bucket the [forEach] body of [stats] increments for one task;
    [None] when no branch of the chain fires. *)
Definition statsBucket (progress : gmap string Z) (currentDate : string)
    (task : Task) : option Status :=
  let today := toDate currentDate in
  let taskProgress := taskProgressOf progress task in
  let start := toDate (t_start task) in
  let end_ := toDate (t_end task) in
  if taskProgress =? 100 then Some Completed
  else if date_lt today start then Some NotStarted
  else if date_ge today start && date_le today end_ then Some InProgress
  else if date_gt today end_ && (taskProgress <? 100) then Some Overdue
  else None.

Definition bump (st : Stats) (b : option Status) : Stats :=
  match b with
  | Some Completed =>
      {| notStarted := notStarted st; inProgress := inProgress st;
         completed := S (completed st); overdue := overdue st;
         total := total st |}
  | Some NotStarted =>
      {| notStarted := S (notStarted st); inProgress := inProgress st;
         completed := completed st; overdue := overdue st;
         total := total st |}
  | Some InProgress =>
      {| notStarted := notStarted st; inProgress := S (inProgress st);
         completed := completed st; overdue := overdue st;
         total := total st |}
  | Some Overdue =>
      {| notStarted := notStarted st; inProgress := inProgress st;
         completed := completed st; overdue := S (overdue st);
         total := total st |}
  | None => st
  end.

Definition stats (tasks : list Task) (progress : gmap string Z)
    (currentDate : string) : Stats :=
  fold_left
    (fun st task => bump st (statsBucket progress currentDate task))
    tasks
    {| notStarted := 0; inProgress := 0; completed := 0; overdue := 0;
       total := length tasks |}.

(** The status part of [tasksWithCountdown] in CountdownTracker.tsx. *)
Inductive CountdownStatus := CdUpcoming | CdInProgress | CdCompleted | CdOverdue.

Definition nan_gt0 (d : option Z) : bool :=
  match d with Some n => 0 <? n | None => false end.
Definition nan_ge0 (d : option Z) : bool :=
  match d with Some n => 0 <=? n | None => false end.

Definition countdownStatus (progress : gmap string Z) (currentDate : string)
    (task : Task) : CountdownStatus * option Z :=
  let daysUntilStart := daysBetween currentDate (t_start task) in
  let daysUntilEnd := daysBetween currentDate (t_end task) in
  let taskProgress := taskProgressOf progress task in
  if taskProgress =? 100 then (CdCompleted, Some 0)
  else if nan_gt0 daysUntilStart then (CdUpcoming, daysUntilStart)
  else if nan_ge0 daysUntilEnd then (CdInProgress, daysUntilEnd)
  else (CdOverdue, Z.abs <$> daysUntilEnd).

(** *** Filter layer ([filteredTasks] in App.tsx) *)

(** [hay.includes(needle)] *)
Fixpoint includes (hay needle : string) : bool :=
  String.prefix needle hay
  || match hay with
     | EmptyString => false
     | String _ rest => includes rest needle
     end.

Definition matchesSearch (searchTerm : string) (task : Task) : bool :=
  bool_decide (searchTerm = "")
  || includes (toLowerCase (t_label task)) (toLowerCase searchTerm)
  || includes (toLowerCase (t_owner task)) (toLowerCase searchTerm).

Definition matchesOwner (ownerFilter : string) (task : Task) : bool :=
  bool_decide (ownerFilter = "all")
  || bool_decide (t_owner task = ownerFilter).

Definition matchesStatus (statusFilter : string) (progress : gmap string Z)
    (currentDate : string) (task : Task) : bool :=
  if bool_decide (statusFilter = "all") then true
  else
    let taskProgress := taskProgressOf progress task in
    let today := toDate currentDate in
    let start := toDate (t_start task) in
    let end_ := toDate (t_end task) in
    if bool_decide (statusFilter = "completed") then taskProgress =? 100
    else if bool_decide (statusFilter = "in-progress") then
      date_ge today start && date_le today end_ && (taskProgress <? 100)
    else if bool_decide (statusFilter = "not-started") then
      date_lt today start
    else if bool_decide (statusFilter = "overdue") then
      date_gt today end_ && (taskProgress <? 100)
    else true.

Definition keepTask (searchTerm ownerFilter statusFilter : string)
    (progress : gmap string Z) (currentDate : string) (task : Task) : bool :=
  matchesSearch searchTerm task
  && matchesOwner ownerFilter task
  && matchesStatus statusFilter progress currentDate task.

Definition filteredTasks (allTasks : list Row)
    (searchTerm ownerFilter statusFilter : string)
    (progress : gmap string Z) (currentDate : string) : list Row :=
  filter
    (fun row => keepTask searchTerm ownerFilter statusFilter progress
                  currentDate (r_task row) = true)
    allTasks.

(** *** Application state and its mutations (App.tsx) *)

Record AppState := {
  taskOverrides : gmap string TaskOverride;
  customTasks : list Task;
  deletedTaskIds : gset string;
  subtaskProgress : gmap string (gmap string bool);
}.

(** The [taskData] argument of [onCreateTask]. *)
Record TaskData := {
  d_label : string;
  d_start : string;
  d_end : string;
  d_owner : string;
  d_category : option string;
}.

(** [handleCreateTask] of App.tsx. The id is
    [custom_${Date.now()}_${Math.random()...}]; the clock and the random
    source are outside the model, so the generated id is an argument. *)
Definition handleCreateTask (newId : string) (taskData : TaskData)
    (st : AppState) : AppState :=
  let newTask :=
    {| t_id := newId; t_label := d_label taskData;
       t_start := d_start taskData; t_end := d_end taskData;
       t_owner := d_owner taskData; t_category := d_category taskData |} in
  {| taskOverrides := taskOverrides st;
     customTasks := customTasks st ++ [newTask];
     deletedTaskIds := deletedTaskIds st;
     subtaskProgress := subtaskProgress st |}.

(** [handleDeleteTask] of App.tsx. *)
Definition handleDeleteTask (taskId : string) (st : AppState) : AppState :=
  {| taskOverrides := delete taskId (taskOverrides st);
     customTasks := customTasks st;
     deletedTaskIds := deletedTaskIds st ∪ {[taskId]};
     subtaskProgress := delete taskId (subtaskProgress st) |}.

(** [{ ...prev[taskId], ...updates }]: a key of [updates] wins. *)
Definition mergeOverride (prev : option TaskOverride) (updates : TaskOverride)
    : TaskOverride :=
  let old := default {| o_start := None; o_end := None; o_owner := None;
                        o_label := None |} prev in
  {| o_start := from_option Some (o_start old) (o_start updates);
     o_end := from_option Some (o_end old) (o_end updates);
     o_owner := from_option Some (o_owner old) (o_owner updates);
     o_label := from_option Some (o_label old) (o_label updates) |}.

(** The [onUpdateTask] callback handed to GanttView. *)
Definition onUpdateTask (taskId : string) (updates : TaskOverride)
    (st : AppState) : AppState :=
  {| taskOverrides :=
       <[taskId := mergeOverride (taskOverrides st !! taskId) updates]>
         (taskOverrides st);
     customTasks := customTasks st;
     deletedTaskIds := deletedTaskIds st;
     subtaskProgress := subtaskProgress st |}.

(** The [onResetTimelines] callback: [setTaskOverrides({})]. *)
Definition onResetTimelines (st : AppState) : AppState :=
  {| taskOverrides := ∅;
     customTasks := customTasks st;
     deletedTaskIds := deletedTaskIds st;
     subtaskProgress := subtaskProgress st |}.

(** The effective task list of a state. *)
Definition allTasksOf (kickoff : string) (allProjectTasks : list Task)
    (st : AppState) : list Row :=
  allTasks kickoff allProjectTasks (taskOverrides st) (customTasks st)
           (deletedTaskIds st).

(** *** Persisted state read at start-up (App.tsx) *)








(** *** The creation dialog of GanttView.tsx *)

Inductive Toast :=
  | ToastError (message : string)
  | ToastSuccess (message : string) (description : string).

Record GanttForm := {
  newTaskLabel : string;
  newTaskStart : string;
  newTaskEnd : string;
  newTaskOwner : string;
  newTaskCategory : string;
  isCreateDialogOpen : bool;
}.

(** Everything the dialog's handler can touch: the stores of the
    application (through [onCreateTask]), the form and the notices. *)
Record World := {
  w_app : AppState;
  w_form : GanttForm;
  w_toasts : list Toast;
}.

(** The double-quote character of the notice's template literal. *)
Definition dquote : string := String (Ascii.ascii_of_nat 34) EmptyString.

(** [categoryLabels] of App.tsx. *)
Definition categoryLabels : gmap string string :=
  list_to_map [("website", "Website"); ("tradeshow", "Tradeshow");
               ("templates", "Templates"); ("visual-assets", "Visual Assets")].

(** [handleCreateTask] of GanttView.tsx. [onCreateTask] is the optional
    prop; [kickoff] is the prop the form is reset to. *)
Definition gantt_handleCreateTask (kickoff : string)
    (onCreateTask : option (TaskData -> AppState -> AppState))
    (w : World) : World :=
  let f := w_form w in
  if bool_decide (trim (newTaskLabel f) = "") then
    {| w_app := w_app w; w_form := f;
       w_toasts := w_toasts w ++ [ToastError "Please enter a task name"] |}
  else
    match onCreateTask with
    | None => w
    | Some create =>
        let categoryValue :=
          if bool_decide (newTaskCategory f = "none") then None
          else Some (newTaskCategory f) in
        let taskData :=
          {| d_label := newTaskLabel f; d_start := newTaskStart f;
             d_end := newTaskEnd f; d_owner := newTaskOwner f;
             d_category := categoryValue |} in
        let categoryInfo :=
          match categoryValue with
          | Some c =>
              if bool_decide (c = "") then ""
              else " | " +:+ default "undefined" (categoryLabels !! c)
          | None => ""
          end in
        {| w_app := create taskData (w_app w);
           w_form :=
             {| newTaskLabel := ""; newTaskStart := kickoff;
                newTaskEnd := kickoff; newTaskOwner := "Leadership";
                newTaskCategory := "none"; isCreateDialogOpen := false |};
           w_toasts :=
             w_toasts w ++
             [ToastSuccess
                ("Created task " +:+ dquote +:+ newTaskLabel f +:+ dquote)
                ("Owner: " +:+ newTaskOwner f +:+ categoryInfo +:+ " | "
                   +:+ toLocaleDateString (newTaskStart f) +:+ " - "
                   +:+ toLocaleDateString (newTaskEnd f))] |}
    end.

End Engine.

(* ===================================================================== *)
(** ** A concrete host                                                    *)
(* ===================================================================== *)

(** [es_host] follows the ECMAScript definitions on strings whose code
    units are below 256, which is what a Rocq [string] holds. Dates are
    read in the date-only form [YYYY-MM-DD] (the form of the catalog and of
    a date input), as midnight UTC; any other text, the empty string
    included, is an Invalid Date. [toLocaleDateString] is that of a host
    set to the sv-SE locale in the UTC zone, which prints [YYYY-MM-DD]. *)
Module ES.

Open Scope N_scope.

Definition is_digit (c : N) : bool := (48 <=? c) && (c <=? 57).

Definition digit (c : N) : option Z :=
  if is_digit c then Some (Z.of_N c - 48)%Z else None.

(** *** Dates *)

Definition isLeap (y : Z) : bool :=
  ((y mod 4 =? 0) && (negb (y mod 100 =? 0) || (y mod 400 =? 0)))%Z.

Definition daysInMonth (y m : Z) : Z :=
  (if m =? 2 then (if isLeap y then 29 else 28)
   else if (m =? 4) || (m =? 6) || (m =? 9) || (m =? 11) then 30
   else 31)%Z.

(** Days from 1970-01-01 to the civil date [y-m-d] (proleptic Gregorian). *)
Definition daysFromCivil (y m d : Z) : Z :=
  (let y' := if m <=? 2 then y - 1 else y in
   let era := y' / 400 in
   let yoe := y' - era * 400 in
   let mp := if m <=? 2 then m + 9 else m - 3 in
   let doy := (153 * mp + 2) / 5 + d - 1 in
   let doe := yoe * 365 + yoe / 4 - yoe / 100 + doy in
   era * 146097 + doe - 719468)%Z.

Definition number4 (a b c d : N) : option Z :=
  match digit a, digit b, digit c, digit d with
  | Some a, Some b, Some c, Some d => Some (1000 * a + 100 * b + 10 * c + d)%Z
  | _, _, _, _ => None
  end.

Definition number2 (a b : N) : option Z :=
  match digit a, digit b with
  | Some a, Some b => Some (10 * a + b)%Z
  | _, _ => None
  end.

Definition dateTime (s : string) : option Z :=
  match units s with
  | [y1; y2; y3; y4; 45; m1; m2; 45; d1; d2] =>
      match number4 y1 y2 y3 y4, number2 m1 m2, number2 d1 d2 with
      | Some y, Some m, Some d =>
          if ((1 <=? m) && (m <=? 12) && (1 <=? d) && (d <=? daysInMonth y m))%Z
          then Some (daysFromCivil y m d * msPerDay)%Z
          else None
      | _, _, _ => None
      end
  | _ => None
  end.

Definition localeDateString (s : string) : string :=
  match dateTime s with
  | Some _ => s
  | None => "Invalid Date"
  end.

(** *** Strings *)

(** White space and line terminators below 256. *)
Definition isWhiteSpace (c : N) : bool :=
  (c =? 9) || (c =? 10) || (c =? 11) || (c =? 12) || (c =? 13)
  || (c =? 32) || (c =? 160).

Fixpoint trimStart (s : string) : string :=
  match s with
  | EmptyString => EmptyString
  | String c rest =>
      if isWhiteSpace (Ascii.N_of_ascii c) then trimStart rest else s
  end.

Fixpoint trimEnd (s : string) : string :=
  match s with
  | EmptyString => EmptyString
  | String c rest =>
      match trimEnd rest with
      | EmptyString =>
          if isWhiteSpace (Ascii.N_of_ascii c) then EmptyString
          else String c EmptyString
      | rest' => String c rest'
      end
  end.

Definition trimString (s : string) : string := trimEnd (trimStart s).

(** Lower case of a code unit below 256: A-Z, and the capital letters of
    the Latin-1 supplement (all of 192..222 but the multiplication sign). *)
Definition lowerUnit (c : N) : N :=
  if (65 <=? c) && (c <=? 90) then c + 32
  else if (192 <=? c) && (c <=? 222) && negb (c =? 215) then c + 32
  else c.

Fixpoint lowerString (s : string) : string :=
  match s with
  | EmptyString => EmptyString
  | String c rest =>
      String (Ascii.ascii_of_N (lowerUnit (Ascii.N_of_ascii c)))
             (lowerString rest)
  end.

(** *** JSON text (ECMA-404) *)

Definition isJsonSpace (c : N) : bool :=
  (c =? 32) || (c =? 9) || (c =? 10) || (c =? 13).

Fixpoint skipSpace (l : list N) : list N :=
  match l with
  | c :: rest => if isJsonSpace c then skipSpace rest else l
  | [] => []
  end.

Fixpoint takeDigits (l : list N) : list N * list N :=
  match l with
  | c :: rest =>
      if is_digit c
      then let '(ds, r) := takeDigits rest in (c :: ds, r)
      else ([], l)
  | [] => ([], [])
  end.

Definition hexDigit (c : N) : option N :=
  if is_digit c then Some (c - 48)
  else if (97 <=? c) && (c <=? 102) then Some (c - 87)
  else if (65 <=? c) && (c <=? 70) then Some (c - 55)
  else None.

(** The characters of a string after its opening quote, up to and
    including the closing quote. *)
Fixpoint jsonChars (l : list N) (acc : list N) : option (list N * list N) :=
  match l with
  | [] => None
  | 34 :: rest => Some (rev acc, rest)
  | 92 :: 117 :: h1 :: h2 :: h3 :: h4 :: rest =>
      match hexDigit h1, hexDigit h2, hexDigit h3, hexDigit h4 with
      | Some a, Some b, Some c, Some d =>
          jsonChars rest (4096 * a + 256 * b + 16 * c + d :: acc)
      | _, _, _, _ => None
      end
  | 92 :: e :: rest =>
      if (e =? 34) || (e =? 92) || (e =? 47) then jsonChars rest (e :: acc)
      else if e =? 98 then jsonChars rest (8 :: acc)
      else if e =? 102 then jsonChars rest (12 :: acc)
      else if e =? 110 then jsonChars rest (10 :: acc)
      else if e =? 114 then jsonChars rest (13 :: acc)
      else if e =? 116 then jsonChars rest (9 :: acc)
      else None
  | c :: rest => if c <? 32 then None else jsonChars rest (c :: acc)
  end.

Definition lexemeOf (l : list N) : string :=
  fold_right (fun c s => String (Ascii.ascii_of_N c) s) EmptyString l.

(** A number: an optional minus sign; an integer part that is 0 or
    starts with a non-zero digit; an optional fraction, a point and at
    least one digit; an optional exponent, e or E, an optional sign and at
    least one digit. *)
Definition jsonNumber (l : list N) : option (string * list N) :=
  let '(sign, l1) := match l with 45 :: r => ([45], r) | _ => ([], l) end in
  let '(int, l2) := takeDigits l1 in
  let intOk :=
    match int with
    | [] => false
    | [_] => true
    | 48 :: _ => false
    | _ => true
    end in
  if negb intOk then None
  else
    let frac :=
      match l2 with
      | 46 :: r =>
          match takeDigits r with
          | ([], _) => None
          | (ds, r') => Some (46 :: ds, r')
          end
      | _ => Some ([], l2)
      end in
    match frac with
    | None => None
    | Some (fr, l3) =>
        let expo :=
          match l3 with
          | e :: r =>
              if (e =? 101) || (e =? 69) then
                let '(sg, r1) :=
                  match r with
                  | 43 :: r' => ([43], r')
                  | 45 :: r' => ([45], r')
                  | _ => ([], r)
                  end in
                match takeDigits r1 with
                | ([], _) => None
                | (ds, r') => Some (e :: sg ++ ds, r')
                end
              else Some ([], l3)
          | [] => Some ([], l3)
          end in
        match expo with
        | None => None
        | Some (ex, l4) => Some (lexemeOf (sign ++ int ++ fr ++ ex), l4)
        end
    end.

Fixpoint jsonValue (fuel : nat) (l : list N) : option (json * list N) :=
  match fuel with
  | O => None
  | S f =>
      match skipSpace l with
      | 110 :: 117 :: 108 :: 108 :: r => Some (JNull, r)
      | 116 :: 114 :: 117 :: 101 :: r => Some (JBool true, r)
      | 102 :: 97 :: 108 :: 115 :: 101 :: r => Some (JBool false, r)
      | 34 :: r =>
          match jsonChars r [] with
          | Some (u, r') => Some (JStr u, r')
          | None => None
          end
      | 91 :: r =>
          match skipSpace r with
          | 93 :: r' => Some (JArr [], r')
          | _ => jsonItems f r []
          end
      | 123 :: r =>
          match skipSpace r with
          | 125 :: r' => Some (JObj [], r')
          | _ => jsonMembers f r []
          end
      | r =>
          match jsonNumber r with
          | Some (lexeme, r') => Some (JNum lexeme, r')
          | None => None
          end
      end
  end
with jsonItems (fuel : nat) (l : list N) (acc : list json)
    : option (json * list N) :=
  match fuel with
  | O => None
  | S f =>
      match jsonValue f l with
      | Some (v, r) =>
          match skipSpace r with
          | 44 :: r' => jsonItems f r' (v :: acc)
          | 93 :: r' => Some (JArr (rev (v :: acc)), r')
          | _ => None
          end
      | None => None
      end
  end
with jsonMembers (fuel : nat) (l : list N) (acc : list (list N * json))
    : option (json * list N) :=
  match fuel with
  | O => None
  | S f =>
      match skipSpace l with
      | 34 :: r =>
          match jsonChars r [] with
          | Some (k, r1) =>
              match skipSpace r1 with
              | 58 :: r2 =>
                  match jsonValue f r2 with
                  | Some (v, r3) =>
                      match skipSpace r3 with
                      | 44 :: r4 => jsonMembers f r4 ((k, v) :: acc)
                      | 125 :: r4 => Some (JObj (rev ((k, v) :: acc)), r4)
                      | _ => None
                      end
                  | None => None
                  end
              | _ => None
              end
          | None => None
          end
      | _ => None
      end
  end.

(** A JSON text is one value between optional white space. The fuel
    bounds the depth of the calls: a value opens with a character of its
    own and a further item or member follows a separator, so the depth
    stays below twice the length of the text. *)
Definition jsonParse (s : string) : option json :=
  let l := units s in
  match jsonValue (2 * length l + 4) l with
  | Some (v, rest) =>
      match skipSpace rest with
      | [] => Some v
      | _ => None
      end
  | None => None
  end.

End ES.

#[global] Instance es_host : Host := {|
  JSON_parse := ES.jsonParse;
  Date_time := ES.dateTime;
  trim := ES.trimString;
  toLowerCase := ES.lowerString;
  toLocaleDateString := ES.localeDateString;
|}.

(** ** Rows of the catalog used in the worked examples *)

(** [KICKOFF] of App.tsx. *)
Definition KICKOFF : string := "2025-11-10".

(** The [foundations] entry of [subtaskDefinitions]. *)
Definition foundationsSubtasks : list Subtask :=
  [ {| s_id := "mission"; s_label := "Mission Statement";
       s_weight := 0.25%Q;
       s_description := "Define company purpose and reason for existence" |};
    {| s_id := "vision"; s_label := "Vision Statement";
       s_weight := 0.25%Q;
       s_description := "Articulate long-term aspirations and future state" |};
    {| s_id := "values"; s_label := "Core Values";
       s_weight := 0.2%Q;
       s_description := "Establish fundamental beliefs and operating principles" |};
    {| s_id := "positioning"; s_label := "Brand Positioning";
       s_weight := 0.2%Q;
       s_description :=
         "Define unique market position and competitive differentiation" |};
    {| s_id := "messages"; s_label := "Key Messages";
       s_weight := 0.1%Q;
       s_description := "Craft primary communication themes and talking points" |} ].

(** The first rows of [sharedTracks]. *)
Definition task_foundations : Task :=
  {| t_id := "foundations"; t_label := "Brand Foundations";
     t_start := "2025-11-10"; t_end := "2025-12-22";
     t_owner := "Leadership"; t_category := None |}.

Definition task_verbal : Task :=
  {| t_id := "verbal"; t_label := "Verbal Identity";
     t_start := "2025-11-24"; t_end := "2026-01-09";
     t_owner := "Marketing"; t_category := None |}.

Definition task_visual_guides : Task :=
  {| t_id := "visual_guides"; t_label := "Visual Identity";
     t_start := "2025-12-01"; t_end := "2026-01-23";
     t_owner := "Design"; t_category := Some "visual-assets" |}.

(** ** The views and the other handlers *)

(** A JavaScript number that may be NaN is an [option Z]; arithmetic with
    NaN gives NaN, and [date_lt], [date_le] compare such numbers as they
    compare time values. *)
Definition num_add (a b : option Z) : option Z :=
  match a, b with Some x, Some y => Some (x + y) | _, _ => None end.
Definition num_sub (a b : option Z) : option Z :=
  match a, b with Some x, Some y => Some (x - y) | _, _ => None end.

(** [`${n}`] for such a number. *)
Definition showNum (n : option Z) : string :=
  match n with Some z => pretty z | None => "NaN" end.

(** [array.sort((a, b) => key(a) - key(b))]. The sort of the host is
    stable, and for keys that are all numbers its result is the one stable
    ordering; that is what this insertion sort computes. (With a NaN key
    the comparator is inconsistent and the host may order as it likes; the
    result is a permutation in any case.) *)
Fixpoint insertOn {A : Type} (key : A -> option Z) (x : A) (l : list A)
    : list A :=
  match l with
  | [] => [x]
  | y :: rest =>
      if date_le (key x) (key y) then x :: y :: rest
      else y :: insertOn key x rest
  end.

Definition sortOn {A : Type} (key : A -> option Z) (l : list A) : list A :=
  fold_right (insertOn key) [] l.

(** [array.sort()] on strings that are pairwise different: ascending by
    code units. *)
Fixpoint insertString (x : string) (l : list string) : list string :=
  match l with
  | [] => [x]
  | y :: rest =>
      if String.leb x y then x :: y :: rest else y :: insertString x rest
  end.

Definition sortStrings (l : list string) : list string :=
  fold_right insertString [] l.

(** [Array.from(new Set(values))]: the first occurrence of each value, in
    order. *)
Fixpoint setValues (seen : gset string) (values : list string) : list string :=
  match values with
  | [] => []
  | v :: rest =>
      if bool_decide (v ∈ seen) then setValues seen rest
      else v :: setValues (seen ∪ {[v]}) rest
  end.

Section Views.
Context `{Host}.

(** *** App.tsx: the owner drop-down *)

Definition uniqueOwners (allTasks : list Row) : list string :=
  sortStrings (setValues ∅ (map (fun t => t_owner (r_task t)) allTasks)).

(** *** ProgressManager.tsx *)

(** [toggleSubtask(taskId, subtaskId)]: the new value of the store. *)
Definition toggleSubtask (taskId subtaskId : string)
    (subtaskProgress : gmap string (gmap string bool))
    : gmap string (gmap string bool) :=
  let currentTaskProgress := default ∅ (subtaskProgress !! taskId) in
  <[taskId :=
      <[subtaskId := negb (default false (currentTaskProgress !! subtaskId))]>
        currentTaskProgress]>
    subtaskProgress.

(** [toggleAllSubtasks(taskId, checked)]; [Object.fromEntries] lets a
    later entry replace an earlier one. *)
Definition toggleAllSubtasks
    (subtaskDefinitions : gmap string (list Subtask))
    (taskId : string) (checked : bool)
    (subtaskProgress : gmap string (gmap string bool))
    : gmap string (gmap string bool) :=
  let subtasks := default [] (subtaskDefinitions !! taskId) in
  <[taskId :=
      fold_left (fun entries st => <[s_id st := checked]> entries) subtasks ∅]>
    subtaskProgress.

(** [resetProgress()] *)
Definition resetProgress : gmap string (gmap string bool) := ∅.

(** [setSubtaskProgress] of App.tsx, as ProgressManager calls it. *)
Definition setSubtaskProgress (updated : gmap string (gmap string bool))
    (st : AppState) : AppState :=
  {| taskOverrides := taskOverrides st;
     customTasks := customTasks st;
     deletedTaskIds := deletedTaskIds st;
     subtaskProgress := updated |}.

(** The [filteredTasks] of ProgressManager.tsx: tasks with subtask
    definitions that match the search box. *)
Definition pm_filteredTasks
    (subtaskDefinitions : gmap string (list Subtask))
    (searchTerm : string) (tasks : list Task) : list Task :=
  filter
    (fun task =>
       (bool_decide (is_Some (subtaskDefinitions !! t_id task))
        && (includes (toLowerCase (t_label task)) (toLowerCase searchTerm)
            || includes (toLowerCase (t_owner task)) (toLowerCase searchTerm)))
       = true)
    tasks.

(** *** DashboardView.tsx *)

(** [tasks.reduce((sum, task) => sum + (progress[task.id] || 0), 0)] *)
Definition sumProgress (progress : gmap string Z) (tasks : list Task) : Z :=
  fold_left (fun sum task => sum + taskProgressOf progress task) tasks 0.

(** [Math.round(total / tasks.length)]; for no task at all this is
    [Math.round(0 / 0)], NaN. *)
Definition averageProgress (progress : gmap string Z) (tasks : list Task)
    : option Z :=
  match tasks with
  | [] => None
  | _ =>
      Some (Math_round (inject_Z (sumProgress progress tasks)
                        / inject_Z (Z.of_nat (length tasks))))
  end.

Definition overallProgress (tasks : list Task) (progress : gmap string Z)
    : option Z :=
  averageProgress progress tasks.

Definition isUpcomingMilestone (progress : gmap string Z)
    (currentDate : string) (t : Task) : bool :=
  let daysUntil := daysBetween currentDate (t_end t) in
  date_ge daysUntil (Some 0) && date_le daysUntil (Some 30)
  && (taskProgressOf progress t <? 100).

Definition upcomingMilestones (tasks : list Task) (progress : gmap string Z)
    (currentDate : string) : list Task :=
  take 5
    (sortOn (fun t => toDate (t_end t))
       (filter (fun t => isUpcomingMilestone progress currentDate t = true)
               tasks)).

(** [pieData]: the four counters, those at 0 left out. *)
Definition pieData (st : Stats) : list (string * nat) :=
  filter (fun d => (0 < snd d)%nat)
    [("Completed", completed st); ("In Progress", inProgress st);
     ("Not Started", notStarted st); ("Overdue", overdue st)].

(** *** OwnerView.tsx *)

(** The [groups] object of [groupedByOwner]. *)
Definition ownerGroups (tasks : list Task) : gmap string (list Task) :=
  fold_left
    (fun groups task =>
       <[t_owner task := default [] (groups !! t_owner task) ++ [task]]> groups)
    tasks ∅.

Record OwnerGroup := {
  g_owner : string;
  g_tasks : list Task;
  g_avgProgress : option Z;
  g_completed : nat;
  g_total : nat;
  g_overdue : nat;
}.

(** The record built for one entry of [groups]. *)
Definition ownerGroup (progress : gmap string Z) (currentDate : string)
    (owner : string) (ownerTasks : list Task) : OwnerGroup :=
  let today := toDate currentDate in
  {| g_owner := owner;
     g_tasks := sortOn (fun t => toDate (t_start t)) ownerTasks;
     g_avgProgress := averageProgress progress ownerTasks;
     g_completed :=
       length (filter (fun t => taskProgressOf progress t = 100) ownerTasks);
     g_total := length ownerTasks;
     g_overdue :=
       length
         (filter
            (fun t =>
               (date_gt today (toDate (t_end t))
                && (taskProgressOf progress t <? 100)) = true)
            ownerTasks) |}.

(** [groupedByOwner], as the collection of its cards; the cards are laid
    out by [localeCompare] on the owner, which is left to the host. *)
Definition groupedByOwner (tasks : list Task) (progress : gmap string Z)
    (currentDate : string) : gmap string OwnerGroup :=
  map_imap (fun owner ownerTasks =>
              Some (ownerGroup progress currentDate owner ownerTasks))
           (ownerGroups tasks).

(** *** CountdownTracker.tsx *)

Record CountdownRow := {
  c_task : Task;
  c_daysUntilStart : option Z;
  c_daysUntilEnd : option Z;
  c_duration : option Z;
  c_status : CountdownStatus;
  c_countdown : option Z;
  c_message : string;
  c_taskProgress : Z;
}.

(** [n !== 1 ? 's' : ''] *)
Definition plural (n : option Z) : string :=
  match n with
  | Some 1 => ""
  | _ => "s"
  end.

(** One element of [tasksWithCountdown]; status and countdown are those of
    [countdownStatus]. *)
Definition countdownRow (progress : gmap string Z) (currentDate : string)
    (task : Task) : CountdownRow :=
  let daysUntilStart := daysBetween currentDate (t_start task) in
  let daysUntilEnd := daysBetween currentDate (t_end task) in
  let '(status, countdown) := countdownStatus progress currentDate task in
  {| c_task := task;
     c_daysUntilStart := daysUntilStart;
     c_daysUntilEnd := daysUntilEnd;
     c_duration := daysBetween (t_start task) (t_end task);
     c_status := status;
     c_countdown := countdown;
     c_message :=
       match status with
       | CdCompleted => "Completed"
       | CdUpcoming =>
           "Starts in " +:+ showNum daysUntilStart +:+ " day"
             +:+ plural daysUntilStart
       | CdInProgress =>
           showNum daysUntilEnd +:+ " day" +:+ plural daysUntilEnd
             +:+ " remaining"
       | CdOverdue =>
           showNum (Z.abs <$> daysUntilEnd) +:+ " day"
             +:+ plural (Z.abs <$> daysUntilEnd) +:+ " overdue"
       end;
     c_taskProgress := taskProgressOf progress task |}.

Definition tasksWithCountdown (tasks : list Task) (progress : gmap string Z)
    (currentDate : string) : list CountdownRow :=
  map (countdownRow progress currentDate) tasks.

(** [sortedTasks]: by start date, soonest first. *)
Definition sortedTasks (tasks : list Task) (progress : gmap string Z)
    (currentDate : string) : list CountdownRow :=
  sortOn (fun r => toDate (t_start (c_task r)))
         (tasksWithCountdown tasks progress currentDate).

#[global] Instance CountdownStatus_eq_dec : EqDecision CountdownStatus.
Proof. solve_decision. Defined.

(** [sortedTasks.filter(t => t.status === status)] *)
Definition tasksOfStatus (status : CountdownStatus) (rows : list CountdownRow)
    : list CountdownRow :=
  filter (fun r => c_status r = status) rows.

(** *** GanttView.tsx: editing, deleting, the visible bars *)

Record GanttEditor := {
  editingTask : option Row;
  editStart : string;
  editEnd : string;
  editOwner : string;
  editLabel : string;
  taskToDelete : option Row;
}.

Record EditWorld := {
  e_app : AppState;
  e_editor : GanttEditor;
  e_toasts : list Toast;
}.

Definition openEditDialog (task : Row) (w : EditWorld) : EditWorld :=
  {| e_app := e_app w;
     e_editor :=
       {| editingTask := Some task;
          editStart := t_start (r_task task);
          editEnd := t_end (r_task task);
          editOwner := t_owner (r_task task);
          editLabel := t_label (r_task task);
          taskToDelete := taskToDelete (e_editor w) |};
     e_toasts := e_toasts w |}.

Definition closeEditor (ed : GanttEditor) : GanttEditor :=
  {| editingTask := None;
     editStart := editStart ed; editEnd := editEnd ed;
     editOwner := editOwner ed; editLabel := editLabel ed;
     taskToDelete := taskToDelete ed |}.

(** [saveEdit]; [onUpdateTask] is the optional prop. *)
Definition saveEdit
    (onUpdateTask' : option (string -> TaskOverride -> AppState -> AppState))
    (w : EditWorld) : EditWorld :=
  let ed := e_editor w in
  match editingTask ed, onUpdateTask' with
  | Some task, Some update =>
      {| e_app :=
           update (t_id (r_task task))
             {| o_start := Some (editStart ed); o_end := Some (editEnd ed);
                o_owner := Some (editOwner ed); o_label := Some (editLabel ed) |}
             (e_app w);
         e_editor := closeEditor ed;
         e_toasts :=
           e_toasts w ++
           [ToastSuccess
              ("Updated task " +:+ dquote +:+ editLabel ed +:+ dquote)
              ("Owner: " +:+ editOwner ed +:+ " | Dates: "
                 +:+ toLocaleDateString (editStart ed) +:+ " - "
                 +:+ toLocaleDateString (editEnd ed))] |}
  | _, _ =>
      {| e_app := e_app w; e_editor := closeEditor ed;
         e_toasts := e_toasts w |}
  end.

(** [confirmDelete]; the notice has no description. *)
Definition confirmDelete
    (onDeleteTask' : option (string -> AppState -> AppState))
    (w : EditWorld) : EditWorld :=
  let ed := e_editor w in
  match taskToDelete ed, onDeleteTask' with
  | Some task, Some del =>
      {| e_app := del (t_id (r_task task)) (e_app w);
         e_editor :=
           {| editingTask := editingTask ed;
              editStart := editStart ed; editEnd := editEnd ed;
              editOwner := editOwner ed; editLabel := editLabel ed;
              taskToDelete := None |};
         e_toasts :=
           e_toasts w ++
           [ToastSuccess
              ("Deleted task " +:+ dquote +:+ t_label (r_task task) +:+ dquote)
              ""] |}
  | _, _ => w
  end.

(** [visibleTasks]: the tasks that overlap the visible range. *)
Definition visibleTasks (tasks : list Row) (visibleStart visibleEnd : string)
    : list Row :=
  filter
    (fun task =>
       (date_ge (toDate (t_end (r_task task))) (toDate visibleStart)
        && date_le (toDate (t_start (r_task task))) (toDate visibleEnd))
       = true)
    tasks.

(** The status string of [enrichedTasks]. *)
Definition ganttStatus (progress : gmap string Z) (currentDate : string)
    (task : Task) : string :=
  let taskProgress := taskProgressOf progress task in
  let today := toDate currentDate in
  let start := toDate (t_start task) in
  let end_ := toDate (t_end task) in
  if taskProgress =? 100 then "completed"
  else if date_ge today start && date_le today end_ then "in-progress"
  else if date_gt today end_ then "overdue"
  else "not-started".

(** The clipping of a bar to the visible range: the new [offset] and
    [length]. *)
Definition clipBar (offset length visibleStartOffset visibleEndOffset
                    : option Z) : option Z * option Z :=
  let taskStartOffset := offset in
  let taskEndOffset := num_add offset length in
  let '(clippedOffset, clippedLength) :=
    if date_lt taskStartOffset visibleStartOffset
    then (visibleStartOffset, num_sub taskEndOffset visibleStartOffset)
    else (offset, length) in
  let clippedLength :=
    if date_gt taskEndOffset visibleEndOffset
    then num_sub visibleEndOffset clippedOffset
    else clippedLength in
  (clippedOffset, Z.max 1 <$> clippedLength).

(** The [ownerColors] of GanttView.tsx. *)
Definition ganttOwnerColors : gmap string string :=
  list_to_map [("Leadership", "#7c3aed"); ("Marketing", "#f59e0b");
               ("Design", "#ec4899"); ("Product", "#06b6d4")].

Record GanttBar := {
  b_task : Task;
  b_offset : option Z;
  b_length : option Z;
  b_status : string;
  b_progress : Z;
  b_color : string;
}.

Definition enrichedTasks (kickoff : string) (tasks : list Row)
    (progress : gmap string Z) (currentDate : string)
    (visibleStart visibleEnd : string) : list GanttBar :=
  let visibleStartOffset := daysBetween kickoff visibleStart in
  let visibleEndOffset := daysBetween kickoff visibleEnd in
  map
    (fun task =>
       let '(clippedOffset, clippedLength) :=
         clipBar (r_offset task) (r_length task)
                 visibleStartOffset visibleEndOffset in
       {| b_task := r_task task;
          b_offset := clippedOffset;
          b_length := clippedLength;
          b_status := ganttStatus progress currentDate (r_task task);
          b_progress := taskProgressOf progress (r_task task);
          b_color :=
            default "#94a3b8" (ganttOwnerColors !! t_owner (r_task task)) |})
    (visibleTasks tasks visibleStart visibleEnd).

(** *** ExportDialog.tsx: the table of the PDF *)

(** The calls made on the jsPDF document. *)
Inductive DocOp :=
  | AddPage
  | SetFillColor (r g b : Z)
  | Rect (x y w h : Z) (style : string)
  | SetFontSize (size : Z)
  | DocText (text : string) (x y : Z).

Definition colWidths : list Z := [80; 25; 25; 20; 40; 15].

(** [row.forEach((cell, i) => { doc.text(cell, x + 2, y); x += colWidths[i] })] *)
Fixpoint rowTexts (cells : list string) (widths : list Z) (x y : Z)
    : list DocOp :=
  match cells, widths with
  | cell :: cells', w :: widths' =>
      DocText cell (x + 2) y :: rowTexts cells' widths' (x + w) y
  | _, _ => []
  end.

(** The body of [tasks.forEach((task, idx) => ...)]: the calls it makes and
    the [y] it leaves. *)
Definition pdfRow (progress : gmap string Z) (task : Row) (idx : nat) (y : Z)
    : list DocOp * Z :=
  let '(breakOps, y) := if 190 <? y then ([AddPage], 15) else ([], y) in
  let stripe :=
    if (idx mod 2 =? 0)%nat
    then [SetFillColor 248 250 252; Rect 15 (y - 5) 270 7 "F"]
    else [] in
  let row :=
    [ String.substring 0 50 (t_label (r_task task));
      t_start (r_task task);
      t_end (r_task task);
      pretty (default 0 (r_length task));
      String.substring 0 25 (t_owner (r_task task));
      pretty (taskProgressOf progress (r_task task)) +:+ "%" ] in
  (breakOps ++ stripe ++ [SetFontSize 8] ++ rowTexts row colWidths 15 y, y + 7).

(** The whole loop from row number [idx] on, starting at [y]. *)
Fixpoint pdfRows (progress : gmap string Z) (tasks : list Row) (idx : nat)
    (y : Z) : list DocOp :=
  match tasks with
  | [] => []
  | task :: rest =>
      let '(ops, y') := pdfRow progress task idx y in
      ops ++ pdfRows progress rest (S idx) y'
  end.

(** The table rows of [exportToPDF]: [y] is 40 at the header and 48 at the
    first row. *)
Definition pdfTable (progress : gmap string Z) (tasks : list Row)
    : list DocOp :=
  pdfRows progress tasks 0 48.

(** The numbers of the summary line of the PDF. *)
Definition pdfSummary (progress : gmap string Z) (tasks : list Row)
    : nat * nat * option Z :=
  (length (filter (fun t => taskProgressOf progress (r_task t) = 100) tasks),
   length tasks,
   averageProgress progress (map r_task tasks)).

End Views.

(** ** Sequences of user actions on the stores *)

Inductive Action :=
  | ACreate (newId : string) (taskData : TaskData)
  | ADelete (taskId : string)
  | AUpdate (taskId : string) (updates : TaskOverride)
  | AResetTimelines
  | ASetProgress (updated : gmap string (gmap string bool)).

Definition perform (a : Action) (st : AppState) : AppState :=
  match a with
  | ACreate newId taskData => handleCreateTask newId taskData st
  | ADelete taskId => handleDeleteTask taskId st
  | AUpdate taskId updates => onUpdateTask taskId updates st
  | AResetTimelines => onResetTimelines st
  | ASetProgress updated => setSubtaskProgress updated st
  end.

Definition performAll (actions : list Action) (st : AppState) : AppState :=
  fold_left (fun st a => perform a st) actions st.


(** ** Weighted progress as the engine computes it, in binary64 *)

(** The whole [subtaskDefinitions] table of App.tsx; a weight is the
    decimal fraction as it is written there. *)
Definition subtaskTable : list (string * list Subtask) :=
  [ ("foundations", foundationsSubtasks);
    ("verbal",
     [ {| s_id := "pillars"; s_label := "Brand Pillars";
          s_weight := 0.3%Q;
          s_description :=
            "Define core brand attributes and personality traits" |};
       {| s_id := "tagline"; s_label := "Tagline";
          s_weight := 0.15%Q;
          s_description :=
            "Create memorable brand tagline" |};
       {| s_id := "elevator"; s_label := "Elevator Pitch";
          s_weight := 0.2%Q;
          s_description :=
            "Develop concise 30-second brand pitch" |};
       {| s_id := "boilerplate"; s_label := "Boilerplate Copy";
          s_weight := 0.2%Q;
          s_description :=
            "Write standard company description for PR and media" |};
       {| s_id := "audience"; s_label := "Audience Messaging";
          s_weight := 0.15%Q;
          s_description :=
            "Tailor messaging for key customer segments" |} ]);
    ("visual_guides",
     [ {| s_id := "logo"; s_label := "Logo System";
          s_weight := 0.35%Q;
          s_description :=
            "Design primary and secondary logo variations with usage guidelines" |};
       {| s_id := "color"; s_label := "Color Palette";
          s_weight := 0.25%Q;
          s_description :=
            "Define brand color system with primary, secondary, and accent colors" |};
       {| s_id := "typography"; s_label := "Typography System";
          s_weight := 0.2%Q;
          s_description :=
            "Select and specify brand typefaces and hierarchy rules" |};
       {| s_id := "graphics"; s_label := "Graphic Language";
          s_weight := 0.2%Q;
          s_description :=
            "Establish visual patterns, shapes, and graphic elements" |} ]);
    ("photo_guides",
     [ {| s_id := "standards"; s_label := "Render Animations";
          s_weight := 0.3%Q;
          s_description :=
            "Create 3D product renders and animations showcasing key features and applications" |};
       {| s_id := "shoot_planning"; s_label := "Photography Sourcing";
          s_weight := 0.2%Q;
          s_description :=
            "Select and contract professional photographers for brand imagery" |};
       {| s_id := "execution"; s_label := "Photography Acquisition";
          s_weight := 0.3%Q;
          s_description :=
            "Purchase and license professional photography from selected photographers" |};
       {| s_id := "editing"; s_label := "Image Processing";
          s_weight := 0.2%Q;
          s_description :=
            "Process and optimize acquired images to brand standards" |} ]);
    ("templates",
     [ {| s_id := "decks"; s_label := "Presentation Decks";
          s_weight := 0.25%Q;
          s_description :=
            "Create PowerPoint/Keynote templates with branded layouts" |};
       {| s_id := "data_sheets"; s_label := "Data Sheets";
          s_weight := 0.2%Q;
          s_description :=
            "Design product data sheet templates" |};
       {| s_id := "business_cards"; s_label := "Business Cards";
          s_weight := 0.15%Q;
          s_description :=
            "Design business card layout and produce initial batch" |};
       {| s_id := "install_instr"; s_label := "Installation Instructions";
          s_weight := 0.15%Q;
          s_description :=
            "Create branded installation guide templates" |};
       {| s_id := "letterhead"; s_label := "Letterhead";
          s_weight := 0.1%Q;
          s_description :=
            "Design letterhead and stationery system" |};
       {| s_id := "email_sigs"; s_label := "Email Signatures";
          s_weight := 0.15%Q;
          s_description :=
            "Create email signature templates for all staff" |} ]);
    ("social_templates",
     [ {| s_id := "instagram"; s_label := "Instagram Templates";
          s_weight := 0.35%Q;
          s_description :=
            "Design Instagram post and story templates" |};
       {| s_id := "linkedin"; s_label := "LinkedIn Templates";
          s_weight := 0.35%Q;
          s_description :=
            "Create LinkedIn post and article templates" |};
       {| s_id := "display_ads"; s_label := "Display Ad Suite";
          s_weight := 0.3%Q;
          s_description :=
            "Design digital display ad templates in standard sizes" |} ]);
    ("product_id",
     [ {| s_id := "naming"; s_label := "Naming Rules";
          s_weight := 0.5%Q;
          s_description :=
            "Establish product naming conventions and taxonomy" |};
       {| s_id := "architecture"; s_label := "Line Architecture";
          s_weight := 0.5%Q;
          s_description :=
            "Define product line structure and family relationships" |} ]);
    ("literature",
     [ {| s_id := "spec_sheets"; s_label := "Spec/Tear Sheets";
          s_weight := 0.3%Q;
          s_description :=
            "Design specification sheet templates for product lines" |};
       {| s_id := "tech_docs"; s_label := "Technical Documentation";
          s_weight := 0.25%Q;
          s_description :=
            "Create technical documentation templates and guidelines" |};
       {| s_id := "brochures"; s_label := "Family Brochures";
          s_weight := 0.25%Q;
          s_description :=
            "Design product family brochure templates" |};
       {| s_id := "labels"; s_label := "Product Labels";
          s_weight := 0.2%Q;
          s_description :=
            "Design product label system and packaging inserts" |} ]);
    ("analytics",
     [ {| s_id := "ga_setup"; s_label := "Google Analytics Setup";
          s_weight := 0.35%Q;
          s_description :=
            "Configure GA4 tracking and conversion events" |};
       {| s_id := "clarity_setup"; s_label := "Clarity Setup";
          s_weight := 0.25%Q;
          s_description :=
            "Implement Microsoft Clarity for session recordings" |};
       {| s_id := "kpi_dashboard"; s_label := "KPI Dashboard";
          s_weight := 0.4%Q;
          s_description :=
            "Build executive dashboard for key performance metrics" |} ]);
    ("trade_signage",
     [ {| s_id := "signage_design"; s_label := "Signage Design";
          s_weight := 0.4%Q;
          s_description :=
            "Design booth signage, banners, and dimensional graphics" |};
       {| s_id := "postcards"; s_label := "Postcards";
          s_weight := 0.3%Q;
          s_description :=
            "Create promotional postcards for booth distribution" |};
       {| s_id := "swag"; s_label := "Swag Items";
          s_weight := 0.3%Q;
          s_description :=
            "Source and design branded swag items for giveaways" |} ]);
    ("factory_env",
     [ {| s_id := "site_audit"; s_label := "Site Audit";
          s_weight := 0.2%Q;
          s_description :=
            "Survey factory spaces and identify branding opportunities" |};
       {| s_id := "design_concepts"; s_label := "Design Concepts";
          s_weight := 0.3%Q;
          s_description :=
            "Develop environmental graphics concepts for factory spaces" |};
       {| s_id := "production"; s_label := "Production";
          s_weight := 0.3%Q;
          s_description :=
            "Fabricate and produce environmental graphics elements" |};
       {| s_id := "installation"; s_label := "Installation";
          s_weight := 0.2%Q;
          s_description :=
            "Install graphics in factory locations" |} ]);
    ("soft_launch_prep",
     [ {| s_id := "qa"; s_label := "Quality Assurance";
          s_weight := 0.3%Q;
          s_description :=
            "Final testing and review of all deliverables" |};
       {| s_id := "approvals"; s_label := "Final Approvals";
          s_weight := 0.2%Q;
          s_description :=
            "Secure stakeholder sign-off on launch materials" |};
       {| s_id := "press_list"; s_label := "Press List";
          s_weight := 0.15%Q;
          s_description :=
            "Compile media contacts and PR distribution list" |};
       {| s_id := "email_plan"; s_label := "Email Campaign Plan";
          s_weight := 0.2%Q;
          s_description :=
            "Plan announcement email sequence and content" |};
       {| s_id := "social_plan"; s_label := "Social Media Plan";
          s_weight := 0.15%Q;
          s_description :=
            "Schedule launch social media content calendar" |} ]);
    ("booth_design",
     [ {| s_id := "concept"; s_label := "Booth Concept";
          s_weight := 0.3%Q;
          s_description :=
            "Develop booth design concepts and 3D renderings" |};
       {| s_id := "approval"; s_label := "Design Approval";
          s_weight := 0.2%Q;
          s_description :=
            "Present concepts and secure stakeholder approval" |};
       {| s_id := "specs"; s_label := "Technical Specs";
          s_weight := 0.25%Q;
          s_description :=
            "Create detailed technical drawings and specifications" |};
       {| s_id := "graphics"; s_label := "Graphics Production";
          s_weight := 0.25%Q;
          s_description :=
            "Design and produce all booth graphics and signage" |} ]);
    ("booth_engineer",
     [ {| s_id := "rfp"; s_label := "RFP Development";
          s_weight := 0.25%Q;
          s_description :=
            "Create request for proposal package for vendors" |};
       {| s_id := "vendor_review"; s_label := "Vendor Review";
          s_weight := 0.25%Q;
          s_description :=
            "Evaluate and compare vendor bids" |};
       {| s_id := "selection"; s_label := "Vendor Selection";
          s_weight := 0.2%Q;
          s_description :=
            "Select fabrication vendor and finalize contract" |};
       {| s_id := "engineering"; s_label := "Engineering Review";
          s_weight := 0.3%Q;
          s_description :=
            "Review structural engineering and safety requirements" |} ]);
    ("booth_fab",
     [ {| s_id := "fabrication"; s_label := "Booth Fabrication";
          s_weight := 0.5%Q;
          s_description :=
            "Vendor fabricates booth structure and components" |};
       {| s_id := "graphics_print"; s_label := "Graphics Printing";
          s_weight := 0.25%Q;
          s_description :=
            "Print and mount all booth graphics" |};
       {| s_id := "qa_review"; s_label := "QA Review";
          s_weight := 0.25%Q;
          s_description :=
            "Inspect completed booth before shipping" |} ]);
    ("booth_ship",
     [ {| s_id := "logistics"; s_label := "Logistics Coordination";
          s_weight := 0.3%Q;
          s_description :=
            "Coordinate shipping and drayage to show" |};
       {| s_id := "i_and_d"; s_label := "I&D Scheduling";
          s_weight := 0.2%Q;
          s_description :=
            "Schedule installation and dismantle crews" |};
       {| s_id := "install"; s_label := "Booth Installation";
          s_weight := 0.3%Q;
          s_description :=
            "On-site booth setup and installation" |};
       {| s_id := "final_qa"; s_label := "Final QA";
          s_weight := 0.2%Q;
          s_description :=
            "Final walkthrough and quality check before show opens" |} ]);
    ("web_discovery",
     [ {| s_id := "stakeholder_interviews"; s_label := "Stakeholder Interviews";
          s_weight := 0.25%Q;
          s_description :=
            "Interview key stakeholders to gather requirements" |};
       {| s_id := "competitor_analysis"; s_label := "Competitor Analysis";
          s_weight := 0.2%Q;
          s_description :=
            "Analyze competitor websites and industry best practices" |};
       {| s_id := "user_personas"; s_label := "User Personas";
          s_weight := 0.15%Q;
          s_description :=
            "Define target user personas and user journeys" |};
       {| s_id := "site_architecture"; s_label := "Site Architecture";
          s_weight := 0.25%Q;
          s_description :=
            "Define sitemap and information architecture" |};
       {| s_id := "requirements_doc"; s_label := "Requirements Documentation";
          s_weight := 0.15%Q;
          s_description :=
            "Document functional and technical requirements" |} ]);
    ("web_ui",
     [ {| s_id := "design_system"; s_label := "Design System";
          s_weight := 0.3%Q;
          s_description :=
            "Create UI component library and design tokens" |};
       {| s_id := "page_templates"; s_label := "Page Templates";
          s_weight := 0.35%Q;
          s_description :=
            "Design key page templates (home, product, contact, etc.)" |};
       {| s_id := "responsive_design"; s_label := "Responsive Design";
          s_weight := 0.2%Q;
          s_description :=
            "Ensure mobile and tablet responsive layouts" |};
       {| s_id := "prototype"; s_label := "Interactive Prototype";
          s_weight := 0.15%Q;
          s_description :=
            "Build clickable prototype for stakeholder review" |} ]);
    ("cms_build",
     [ {| s_id := "cms_selection"; s_label := "CMS Selection";
          s_weight := 0.15%Q;
          s_description :=
            "Select and configure content management system" |};
       {| s_id := "product_schema"; s_label := "Product Schema";
          s_weight := 0.25%Q;
          s_description :=
            "Build product data structure and custom fields" |};
       {| s_id := "frontend_dev"; s_label := "Frontend Development";
          s_weight := 0.35%Q;
          s_description :=
            "Code website frontend from approved designs" |};
       {| s_id := "integrations"; s_label := "Third-party Integrations";
          s_weight := 0.25%Q;
          s_description :=
            "Integrate forms, analytics, and other tools" |} ]);
    ("content_load",
     [ {| s_id := "content_audit"; s_label := "Content Audit";
          s_weight := 0.2%Q;
          s_description :=
            "Audit existing content and identify gaps" |};
       {| s_id := "copywriting"; s_label := "Copywriting";
          s_weight := 0.3%Q;
          s_description :=
            "Write new web copy aligned with brand voice" |};
       {| s_id := "product_entry"; s_label := "Product Entry";
          s_weight := 0.3%Q;
          s_description :=
            "Enter all product data into CMS" |};
       {| s_id := "media_optimization"; s_label := "Media Optimization";
          s_weight := 0.2%Q;
          s_description :=
            "Optimize and upload images and videos" |} ]);
    ("qa_launch",
     [ {| s_id := "functional_testing"; s_label := "Functional Testing";
          s_weight := 0.3%Q;
          s_description :=
            "Test all website functionality and forms" |};
       {| s_id := "browser_testing"; s_label := "Cross-browser Testing";
          s_weight := 0.2%Q;
          s_description :=
            "Test across browsers and devices" |};
       {| s_id := "performance"; s_label := "Performance Optimization";
          s_weight := 0.25%Q;
          s_description :=
            "Optimize page speed and Core Web Vitals" |};
       {| s_id := "seo_setup"; s_label := "SEO Setup";
          s_weight := 0.25%Q;
          s_description :=
            "Configure meta tags, schema markup, and redirects" |} ]) ].

Definition subtaskDefinitions : gmap string (list Subtask) :=
  list_to_map subtaskTable.

(** The double a decimal fraction of the program text denotes: the
    nearest one, which the correctly rounded quotient of numerator and
    denominator is when both are integers a double holds exactly (below
    2 ^ 53, as those of the weights are). *)
Definition toDouble (q : Q) : PrimFloat.float :=
  let num := PrimFloat.of_uint63 (Uint63.of_Z (Z.abs (Qnum q))) in
  let den := PrimFloat.of_uint63 (Uint63.of_Z (Zpos (Qden q))) in
  let x := PrimFloat.div num den in
  if Qnum q <? 0 then PrimFloat.opp x else x.

(** A number that [Math.round] returns: an integer, NaN or an infinity. *)
Inductive number :=
  | NInt (z : Z)
  | NNaN
  | NInf (negative : bool).

#[global] Instance number_eq_dec : EqDecision number.
Proof. solve_decision. Defined.

(** [Math.round] of a double: the exact value of a finite double is
    [m * 2 ^ e]; it is rounded to the nearest integer, ties going up. *)
Definition Math_round64 (x : PrimFloat.float) : number :=
  match FloatOps.Prim2SF x with
  | SpecFloat.S754_zero _ => NInt 0
  | SpecFloat.S754_infinity negative => NInf negative
  | SpecFloat.S754_nan => NNaN
  | SpecFloat.S754_finite negative m e =>
      let v := if negative then Zneg m else Zpos m in
      NInt (if 0 <=? e then v * 2 ^ e
            else (2 * v + 2 ^ (- e)) / 2 ^ (1 - e))
  end.

(** The inner loop of [progress], [totalProgress += subtask.weight * 100],
    in double arithmetic. *)
Definition totalProgress64 (subtasks : list Subtask)
    (completed : gmap string bool) : PrimFloat.float :=
  fold_left
    (fun total subtask =>
       if default false (completed !! s_id subtask)
       then PrimFloat.add total
              (PrimFloat.mul (toDouble (s_weight subtask)) (toDouble 100))
       else total)
    subtasks (toDouble 0).

Definition progressOfDefinitions64
    (subtaskDefinitions : gmap string (list Subtask))
    (subtaskProgress : gmap string (gmap string bool)) : gmap string number :=
  map_imap
    (fun taskId subtasks =>
       let completed := default ∅ (subtaskProgress !! taskId) in
       Some (Math_round64 (totalProgress64 subtasks completed)))
    subtaskDefinitions.

(** [!result[task.id]]: a missing entry, 0 and NaN are falsy. *)
Definition falsy_number64 (v : option number) : bool :=
  match v with
  | Some (NInt z) => z =? 0
  | Some NNaN => true
  | Some (NInf _) => false
  | None => true
  end.

Definition fillMissing64 (result : gmap string number) (tasks : list Row)
    : gmap string number :=
  fold_left
    (fun result task =>
       if falsy_number64 (result !! t_id (r_task task))
       then <[t_id (r_task task) := NInt 0]> result
       else result)
    tasks result.

(** [progress] of App.tsx with its numbers as doubles. *)
Definition progress64 (subtaskDefinitions : gmap string (list Subtask))
    (subtaskProgress : gmap string (gmap string bool))
    (allTasks : list Row) : gmap string number :=
  fillMissing64 (progressOfDefinitions64 subtaskDefinitions subtaskProgress)
                allTasks.

(** *** Deciding a task of the table over all its completion flags *)

(** The flags a completion map gives to the subtasks of a task. *)
Definition flagsOf (subtasks : list Subtask) (completed : gmap string bool)
    : list bool :=
  map (fun subtask => default false (completed !! s_id subtask)) subtasks.

(** The double total and the exact weight of the ticked subtasks, from
    the flags. *)
Definition total64By (subtasks : list Subtask) (flags : list bool)
    : PrimFloat.float :=
  fold_left
    (fun total (sf : Subtask * bool) =>
       if snd sf
       then PrimFloat.add total
              (PrimFloat.mul (toDouble (s_weight (fst sf))) (toDouble 100))
       else total)
    (zip subtasks flags) (toDouble 0).

Definition weightBy (subtasks : list Subtask) (flags : list bool) : Q :=
  fold_right Qplus 0%Q
    (map (fun sf : Subtask * bool => s_weight (fst sf))
         (filter (fun sf : Subtask * bool => snd sf = true)
                 (zip subtasks flags))).

Fixpoint allFlags (n : nat) : list (list bool) :=
  match n with
  | O => [[]]
  | S n' => map (cons true) (allFlags n') ++ map (cons false) (allFlags n')
  end.

(** For every choice of flags, the double computation of a task gives
    the integer that exact arithmetic gives. *)
Definition agrees (subtasks : list Subtask) : bool :=
  forallb
    (fun flags =>
       bool_decide
         (Math_round64 (total64By subtasks flags)
          = NInt (Math_round (100 * weightBy subtasks flags))))
    (allFlags (length subtasks)).

(** ** The specification's wording, for comparison with the code *)

(** "The sum of the weights of its subtasks whose completion flag is
    true." *)
Definition completedWeight (subtasks : list Subtask)
    (completed : gmap string bool) : Q :=
  fold_right Qplus 0%Q
    (map s_weight
       (filter (fun subtask => completed !! s_id subtask = Some true)
               subtasks)).

(** The same sum taken as the program's numbers take it: 100 times each
    completed weight, added in the order of the table, in doubles. *)
Definition completedTotal64 (subtasks : list Subtask)
    (completed : gmap string bool) : PrimFloat.float :=
  fold_left
    (fun total weight =>
       PrimFloat.add total (PrimFloat.mul (toDouble weight) (toDouble 100)))
    (map s_weight
       (filter (fun subtask => completed !! s_id subtask = Some true)
               subtasks))
    (toDouble 0).

(** "The override's value when that override field is present and
    non-empty, and the base task's value otherwise." *)
Definition overrideOrBase (field : option string) (base result : string)
    : Prop :=
  (forall v, field = Some v -> v <> "" -> result = v)
  /\ (field = None \/ field = Some "" -> result = base).

(** The number of tasks the dashboard has put in one of its four
    counters. *)
Definition counted (st : Stats) : nat :=
  (completed st + inProgress st + notStarted st + overdue st)%nat.

(** The ids of the tasks of a list of rows. *)
Definition rowIds (rows : list Row) : list string :=
  map (fun row => t_id (r_task row)) rows.

(** The sum of the weights of all subtasks of a task. *)
Definition totalWeight (subtasks : list Subtask) : Q :=
  fold_right Qplus 0%Q (map s_weight subtasks).

(** The flag the progress computation reads for a subtask: a missing
    task entry and a missing flag are falsy. *)
Definition flagOf (subtaskProgress : gmap string (gmap string bool))
    (taskId subtaskId : string) : bool :=
  default false (default ∅ (subtaskProgress !! taskId) !! subtaskId).

(** The key of a status in [statusColors], which is also the value of
    the status filter and the status string of the Gantt bars. *)
Definition statusKey (s : Status) : string :=
  match s with
  | Completed => "completed"
  | NotStarted => "not-started"
  | Overdue => "overdue"
  | InProgress => "in-progress"
  end.

(** The status of the countdown list that stands for a status of the
    owner view. *)
Definition countdownOf (s : Status) : CountdownStatus :=
  match s with
  | Completed => CdCompleted
  | NotStarted => CdUpcoming
  | Overdue => CdOverdue
  | InProgress => CdInProgress
  end.

(** Ascending order of the keys, as numbers. *)
Definition keyLe {A : Type} (key : A -> option Z) (x y : A) : Prop :=
  date_le (key x) (key y) = true.

(** The [y] of the first column's text of every row of a PDF table. *)
Definition firstColumnYs (ops : list DocOp) : list Z :=
  omap (fun op =>
          match op with
          | DocText _ 17 y => Some y
          | _ => None
          end) ops.

(** Where the row number [k] of the PDF table is drawn: 21 rows on the
    first page from [y = 48], 26 rows on every later page from [y = 15],
    7 units apart. *)
Definition rowY (k : nat) : Z :=
  let k := Z.of_nat k in
  if k <? 21 then 48 + 7 * k else 15 + 7 * ((k - 21) mod 26).

(* ===================================================================== *)
(** * Part II: properties                                                 *)
(* ===================================================================== *)

(** ** The embedding on rows of the catalog *)

Example dateTime_epoch : ES.dateTime "1970-01-01" = Some 0.
Proof. reflexivity. Qed.

Example dateTime_empty : ES.dateTime "" = None.
Proof. reflexivity. Qed.

Example daysBetween_foundations :
  daysBetween "2025-11-10" "2025-12-22" = Some 42.
Proof. reflexivity. Qed.

Example buildRow_foundations :
  buildRow KICKOFF task_foundations
  = {| r_task := task_foundations; r_offset := Some 0; r_length := Some 42 |}.
Proof. reflexivity. Qed.

(** An end date before the start date still gives a length of one day. *)
Example buildRow_inverted :
  r_length
    (buildRow KICKOFF
       {| t_id := "x"; t_label := "X"; t_start := "2026-02-01";
          t_end := "2026-01-10"; t_owner := "Design"; t_category := None |})
  = Some 1.
Proof. reflexivity. Qed.

(** The sample data of a first start: Mission ticked, 25 percent. *)
Example progress_first_start :
  progress {[ "foundations" := foundationsSubtasks ]}
           {[ "foundations" :=
                list_to_map [("mission", true); ("vision", false);
                             ("values", false); ("positioning", false);
                             ("messages", false)] ]}
           (allTasks KICKOFF [task_foundations; task_verbal] ∅ [] ∅)
  = {[ "foundations" := 25; "verbal" := 0 ]}.
Proof. vm_compute. reflexivity. Qed.

Example edit_then_list :
  let st :=
    onUpdateTask "verbal"
      {| o_start := Some "2025-12-01"; o_end := Some "2026-01-09";
         o_owner := Some "Design"; o_label := Some "Verbal Identity" |}
      {| taskOverrides := ∅; customTasks := []; deletedTaskIds := ∅;
         subtaskProgress := ∅ |} in
  r_task <$> allTasksOf KICKOFF [task_verbal] st
  = [ {| t_id := "verbal"; t_label := "Verbal Identity";
         t_start := "2025-12-01"; t_end := "2026-01-09";
         t_owner := "Design"; t_category := None |} ].
Proof. vm_compute. reflexivity. Qed.

Example countdown_foundations :
  countdownStatus ∅ "2025-11-01" task_foundations = (CdUpcoming, Some 9)
  /\ countdownStatus ∅ "2025-12-22" task_foundations = (CdInProgress, Some 0)
  /\ countdownStatus ∅ "2025-12-25" task_foundations = (CdOverdue, Some 3).
Proof. repeat split; reflexivity. Qed.

Example search_filter :
  t_id <$> (r_task <$>
    filteredTasks
      (allTasks KICKOFF [task_foundations; task_verbal; task_visual_guides]
                ∅ [] ∅)
      "IDENT" "Design" "all" ∅ "2025-12-25")
  = ["visual_guides"].
Proof. vm_compute. reflexivity. Qed.

(** ** Weighted progress *)

Lemma Math_round_Qeq (x y : Q) : (x == y)%Q -> Math_round x = Math_round y.
Proof. intros E. unfold Math_round. now rewrite E. Qed.

Lemma totalProgress_from (subtasks : list Subtask)
    (completed : gmap string bool) (acc : Q) :
  (fold_left
     (fun total subtask =>
        if default false (completed !! s_id subtask)
        then (total + s_weight subtask * 100)%Q
        else total)
     subtasks acc
   == acc + 100 * completedWeight subtasks completed)%Q.
Proof.
  revert acc. induction subtasks as [|s rest IH]; intros acc.
  - unfold completedWeight. simpl. ring.
  - simpl fold_left. rewrite IH. unfold completedWeight.
    rewrite filter_cons.
    destruct (completed !! s_id s) as [[|]|] eqn:E;
      case_decide; try congruence; simpl; ring.
Qed.

Lemma totalProgress_weight (subtasks : list Subtask)
    (completed : gmap string bool) :
  (totalProgress subtasks completed
   == 100 * completedWeight subtasks completed)%Q.
Proof. unfold totalProgress. rewrite totalProgress_from. ring. Qed.

Lemma progressOfDefinitions_lookup
    (defs : gmap string (list Subtask))
    (done : gmap string (gmap string bool)) (taskId : string) :
  progressOfDefinitions defs done !! taskId
  = (fun subtasks =>
       Math_round (totalProgress subtasks (default ∅ (done !! taskId))))
    <$> defs !! taskId.
Proof.
  unfold progressOfDefinitions. rewrite map_lookup_imap.
  now destruct (defs !! taskId).
Qed.

(** The second loop leaves an entry alone, up to rewriting a 0 by 0. *)
Lemma fillMissing_Some (rows : list Row) (result : gmap string Z)
    (taskId : string) (v : Z) :
  result !! taskId = Some v -> fillMissing result rows !! taskId = Some v.
Proof.
  unfold fillMissing. revert result.
  induction rows as [|row rest IH]; intros result Hv; [exact Hv|].
  simpl. apply IH.
  destruct (falsy_number (result !! t_id (r_task row))) eqn:F; [|exact Hv].
  destruct (decide (t_id (r_task row) = taskId)) as [E|Hne].
  - rewrite E in *. rewrite Hv in F. simpl in F. apply Z.eqb_eq in F.
    subst v. apply lookup_insert_eq.
  - now rewrite lookup_insert_ne.
Qed.

(** It gives 0 to every task that has no entry yet. *)
Lemma fillMissing_None (rows : list Row) (result : gmap string Z)
    (taskId : string) :
  result !! taskId = None -> taskId ∈ rowIds rows ->
  fillMissing result rows !! taskId = Some 0.
Proof.
  unfold fillMissing, rowIds. revert result.
  induction rows as [|row rest IH]; intros result Hn Hin.
  - simpl in Hin. now apply elem_of_nil in Hin.
  - simpl in *. destruct (decide (t_id (r_task row) = taskId)) as [E|Hne].
    + rewrite E, Hn. simpl.
      apply (fillMissing_Some rest). apply lookup_insert_eq.
    + apply elem_of_cons in Hin as [Hin|Hin]; [congruence|].
      apply IH; [|exact Hin].
      destruct (falsy_number _); [now rewrite lookup_insert_ne | exact Hn].
Qed.

(** In exact arithmetic, [progress] maps every task id that has a
    subtask-definition entry to [round (100 * sum of the weights of its
    completed subtasks)], and every other effective task id to 0; a task
    whose subtasks weigh 0.25, 0.25, 0.2, 0.2, 0.1 with exactly the first
    two complete gets 50. *)
Lemma progress_exact_weighted_sum :
  (forall (defs : gmap string (list Subtask))
          (done : gmap string (gmap string bool)) (rows : list Row)
          (taskId : string) (subtasks : list Subtask),
      defs !! taskId = Some subtasks ->
      progress defs done rows !! taskId
      = Some (Math_round
                (100 * completedWeight subtasks (default ∅ (done !! taskId)))))
  /\ (forall (defs : gmap string (list Subtask))
             (done : gmap string (gmap string bool)) (rows : list Row)
             (taskId : string),
         defs !! taskId = None ->
         taskId ∈ rowIds rows ->
         progress defs done rows !! taskId = Some 0)
  /\ (forall (defs : gmap string (list Subtask))
             (done : gmap string (gmap string bool)) (rows : list Row)
             (taskId : string) (subtasks : list Subtask)
             (completed : gmap string bool),
         defs !! taskId = Some subtasks ->
         done !! taskId = Some completed ->
         Forall2 Qeq (s_weight <$> subtasks) [0.25; 0.25; 0.2; 0.2; 0.1]%Q ->
         (fun subtask => default false (completed !! s_id subtask))
           <$> subtasks = [true; true; false; false; false] ->
         progress defs done rows !! taskId = Some 50).
Proof.
  assert (Hdef : forall defs done rows taskId subtasks,
             defs !! taskId = Some subtasks ->
             progress defs done rows !! taskId
             = Some (Math_round
                       (totalProgress subtasks (default ∅ (done !! taskId))))).
  { intros defs done rows taskId subtasks Hd. unfold progress.
    apply fillMissing_Some. rewrite progressOfDefinitions_lookup, Hd.
    reflexivity. }
  split; [|split].
  - intros defs done rows taskId subtasks Hd.
    rewrite (Hdef _ _ _ _ _ Hd). f_equal.
    apply Math_round_Qeq, totalProgress_weight.
  - intros defs done rows taskId Hd Hin. unfold progress.
    apply fillMissing_None; [|exact Hin].
    rewrite progressOfDefinitions_lookup, Hd. reflexivity.
  - intros defs done rows taskId subtasks completed Hd Hc Hw Hf.
    rewrite (Hdef _ _ _ _ _ Hd), Hc. simpl default. f_equal.
    destruct subtasks as [|s1 [|s2 [|s3 [|s4 [|s5 [|s6 rest]]]]]];
      try (apply Forall2_length in Hw; discriminate Hw).
    cbn [fmap list_fmap] in Hw, Hf.
    injection Hf as F1 F2 F3 F4 F5.
    repeat match goal with
           | Hq : Forall2 _ (_ :: _) _ |- _ =>
               apply Forall2_cons_1 in Hq; destruct Hq as [? Hq]
           end.
    unfold totalProgress. cbn [fold_left].
    rewrite F1, F2, F3, F4, F5.
    apply (Math_round_Qeq _ 50%Q).
    match goal with
    | W1 : (s_weight s1 == _)%Q, W2 : (s_weight s2 == _)%Q |- _ =>
        rewrite W1, W2
    end.
    reflexivity.
Qed.

(** The [foundations] task of the catalog with Mission and Vision ticked
    is at 50 percent; [verbal], without definitions in this table, at 0. *)
Lemma progress_exact_weighted_sum_example :
  let defs : gmap string (list Subtask) :=
    {[ "foundations" := foundationsSubtasks ]} in
  let done : gmap string (gmap string bool) :=
    {[ "foundations" :=
         list_to_map [("mission", true); ("vision", true); ("values", false)] ]} in
  let rows := allTasks KICKOFF [task_foundations; task_verbal] ∅ [] ∅ in
  progress defs done rows !! "foundations" = Some 50
  /\ progress defs done rows !! "verbal" = Some 0
  /\ progress defs done rows !! "foundations"
     = Some (Math_round (100 * (0.25 + 0.25))%Q).
Proof.
  intros defs done rows. split; [|split].
  - apply (proj2 (proj2 progress_exact_weighted_sum) defs done rows "foundations"
             foundationsSubtasks
             (list_to_map [("mission", true); ("vision", true);
                           ("values", false)])).
    + reflexivity.
    + reflexivity.
    + repeat constructor.
    + reflexivity.
  - apply (proj1 (proj2 progress_exact_weighted_sum) defs done rows "verbal").
    + reflexivity.
    + apply list_elem_of_In. vm_compute. auto.
  - apply (proj1 progress_exact_weighted_sum defs done rows "foundations"
             foundationsSubtasks).
    reflexivity.
Defined.

(** ** Status derivation *)

Lemma date_lt_irrefl (a : option Z) : date_lt a a = false.
Proof. destruct a as [x|]; simpl; [apply Z.ltb_irrefl | reflexivity]. Qed.

Lemma date_lt_le_false (a b : option Z) :
  date_le a b = true -> date_lt b a = false.
Proof.
  destruct a as [x|], b as [y|]; simpl; try discriminate.
  intros L. apply Z.leb_le in L. apply Z.ltb_ge. exact L.
Qed.

Lemma date_le_refl_valid (a b : option Z) :
  date_le a b = true -> date_le b b = true.
Proof.
  destruct a as [x|], b as [y|]; simpl; try discriminate.
  intros _. apply Z.leb_refl.
Qed.

(** A task with a start date after its end date, looked at on its end
    date with 40 percent done, is "Not Started": C2 as stated fails. *)
Lemma status_at_end_date_counterexample :
  let task :=
    {| t_id := "foundations"; t_label := "Brand Foundations";
       t_start := "2026-02-01"; t_end := "2026-01-10";
       t_owner := "Leadership"; t_category := None |} in
  let progress : gmap string Z := {[ "foundations" := 40 ]} in
  taskProgressOf progress task < 100
  /\ toDate "2026-01-10" = toDate (t_end task)
  /\ getTaskStatus progress "2026-01-10" task = NotStarted
  /\ ~ (forall (progress : gmap string Z) (currentDate : string) (task : Task),
           taskProgressOf progress task < 100 ->
           toDate currentDate = toDate (t_end task) ->
           getTaskStatus progress currentDate task = InProgress).
Proof.
  intros task progress.
  assert (E : getTaskStatus progress "2026-01-10" task = NotStarted)
    by reflexivity.
  repeat split; try reflexivity.
  intros claim.
  specialize (claim progress "2026-01-10" task eq_refl eq_refl).
  rewrite E in claim. discriminate claim.
Qed.

(** C2 (amended). For a task below 100 percent whose start date is on or
    before its end date, the status on the end date itself is "In
    Progress", in [getTaskStatus] and in the dashboard's counters; either
    of them says "Overdue" only when the reference date is strictly after
    the end date. With start 2026-01-01, end 2026-01-10 and 40 percent,
    2026-01-10 is in progress and 2026-01-11 is overdue. *)
Theorem status_at_end_date :
  (forall (H : Host) (progress : gmap string Z) (currentDate : string)
          (task : Task),
      taskProgressOf progress task < 100 ->
      date_le (toDate (t_start task)) (toDate (t_end task)) = true ->
      toDate currentDate = toDate (t_end task) ->
      getTaskStatus progress currentDate task = InProgress
      /\ statsBucket progress currentDate task = Some InProgress)
  /\ (forall (H : Host) (progress : gmap string Z) (currentDate : string)
             (task : Task),
         getTaskStatus progress currentDate task = Overdue
         \/ statsBucket progress currentDate task = Some Overdue ->
         date_gt (toDate currentDate) (toDate (t_end task)) = true)
  /\ (let task :=
        {| t_id := "t"; t_label := "Task"; t_start := "2026-01-01";
           t_end := "2026-01-10"; t_owner := "Design"; t_category := None |} in
      let progress : gmap string Z := {[ "t" := 40 ]} in
      getTaskStatus progress "2026-01-10" task = InProgress
      /\ getTaskStatus progress "2026-01-11" task = Overdue
      /\ statsBucket progress "2026-01-10" task = Some InProgress
      /\ statsBucket progress "2026-01-11" task = Some Overdue).
Proof.
  split; [|split].
  - intros H progress currentDate task Hp Hse Href.
    unfold getTaskStatus, statsBucket.
    assert (Hne : (taskProgressOf progress task =? 100) = false)
      by (apply Z.eqb_neq; lia).
    rewrite Hne, Href.
    rewrite (date_lt_le_false _ _ Hse).
    unfold date_gt, date_ge. rewrite date_lt_irrefl, Hse.
    rewrite (date_le_refl_valid _ _ Hse). split; reflexivity.
  - intros H progress currentDate task.
    unfold getTaskStatus, statsBucket.
    destruct (taskProgressOf progress task =? 100);
      destruct (date_lt (toDate currentDate) (toDate (t_start task)));
      destruct (date_gt (toDate currentDate) (toDate (t_end task)));
      destruct (date_ge (toDate currentDate) (toDate (t_start task))
                && date_le (toDate currentDate) (toDate (t_end task)));
      destruct (taskProgressOf progress task <? 100);
      simpl; intros [E|E]; try reflexivity; discriminate E.
  - repeat split; reflexivity.
Qed.

Lemma status_at_end_date_witness :
  let task :=
    {| t_id := "verbal"; t_label := "Verbal Identity";
       t_start := "2025-11-24"; t_end := "2026-01-09";
       t_owner := "Marketing"; t_category := None |} in
  let progress : gmap string Z := {[ "verbal" := 45 ]} in
  (getTaskStatus progress "2026-01-09" task = InProgress
   /\ statsBucket progress "2026-01-09" task = Some InProgress)
  /\ date_gt (toDate "2026-01-10") (toDate (t_end task)) = true.
Proof.
  intros task progress. split.
  - apply (proj1 status_at_end_date es_host progress "2026-01-09" task).
    + vm_compute. reflexivity.
    + reflexivity.
    + reflexivity.
  - apply (proj1 (proj2 status_at_end_date) es_host progress "2026-01-10" task).
    left. reflexivity.
Defined.

(** C3. At 100 percent the status is "Completed" whatever the reference
    date, also strictly before the start date: in [getTaskStatus], in the
    countdown list and in the dashboard's counters. *)
Theorem completed_at_100 :
  forall (H : Host) (progress : gmap string Z) (currentDate : string)
         (task : Task),
    taskProgressOf progress task = 100 ->
    getTaskStatus progress currentDate task = Completed
    /\ fst (countdownStatus progress currentDate task) = CdCompleted
    /\ statsBucket progress currentDate task = Some Completed.
Proof.
  intros H progress currentDate task Hp.
  unfold getTaskStatus, countdownStatus, statsBucket.
  rewrite Hp. repeat split; reflexivity.
Qed.

(** The reference date 2025-11-01 lies before the start of [foundations]. *)
Lemma completed_at_100_witness :
  let progress : gmap string Z := {[ "foundations" := 100 ]} in
  date_lt (toDate "2025-11-01") (toDate (t_start task_foundations)) = true
  /\ getTaskStatus progress "2025-11-01" task_foundations = Completed
  /\ fst (countdownStatus progress "2025-11-01" task_foundations) = CdCompleted
  /\ statsBucket progress "2025-11-01" task_foundations = Some Completed.
Proof.
  intros progress. split; [reflexivity|].
  apply (completed_at_100 es_host progress "2025-11-01" task_foundations).
  reflexivity.
Defined.

(** ** Effective task list *)

Lemma str_or_overrideOrBase (field : option string) (base : string) :
  overrideOrBase field base (str_or field base).
Proof.
  unfold overrideOrBase, str_or. split.
  - intros v -> Hv. now rewrite decide_False.
  - intros [->| ->]; reflexivity.
Qed.

Lemma allTasks_lookup `{Host} (kickoff : string) (catalog : list Task)
    (overrides : gmap string TaskOverride) (custom : list Task)
    (deleted : gset string) (i : nat) :
  allTasks kickoff catalog overrides custom deleted !! i
  = (fun task => buildRow kickoff (applyOverride overrides task))
    <$> filter (fun task => t_id task ∉ deleted) (catalog ++ custom) !! i.
Proof.
  unfold allTasks, buildRows, tasksWithOverrides.
  change (@map) with (@fmap list _).
  rewrite !list_lookup_fmap.
  now destruct (filter _ _ !! i).
Qed.

Lemma applyOverride_id (overrides : gmap string TaskOverride) (task : Task) :
  t_id (applyOverride overrides task) = t_id task.
Proof. unfold applyOverride. now destruct (overrides !! t_id task). Qed.

(** C4. The effective task of a base task with an override entry takes
    each of start, end, owner and label from the override when the field
    is present and non-empty, and from the base task otherwise; with the
    override [{owner: O2}] only the owner changes. *)
Theorem override_merge :
  (forall (H : Host) (kickoff : string) (catalog : list Task)
          (overrides : gmap string TaskOverride) (custom : list Task)
          (deleted : gset string) (i : nat) (task : Task)
          (override : TaskOverride),
      filter (fun task => t_id task ∉ deleted) (catalog ++ custom) !! i
        = Some task ->
      overrides !! t_id task = Some override ->
      exists row,
        allTasks kickoff catalog overrides custom deleted !! i = Some row
        /\ t_id (r_task row) = t_id task
        /\ t_category (r_task row) = t_category task
        /\ overrideOrBase (o_start override) (t_start task)
                          (t_start (r_task row))
        /\ overrideOrBase (o_end override) (t_end task) (t_end (r_task row))
        /\ overrideOrBase (o_owner override) (t_owner task)
                          (t_owner (r_task row))
        /\ overrideOrBase (o_label override) (t_label task)
                          (t_label (r_task row)))
  /\ (forall (H : Host) (kickoff id A B O L O2 : string)
             (category : option string),
         O2 <> "" ->
         r_task <$>
           allTasks kickoff
             [ {| t_id := id; t_label := L; t_start := A; t_end := B;
                  t_owner := O; t_category := category |} ]
             {[ id := {| o_start := None; o_end := None; o_owner := Some O2;
                         o_label := None |} ]}
             [] ∅
         = [ {| t_id := id; t_label := L; t_start := A; t_end := B;
                t_owner := O2; t_category := category |} ]).
Proof.
  split.
  - intros H kickoff catalog overrides custom deleted i task override Hi Ho.
    eexists. split.
    + rewrite allTasks_lookup, Hi. reflexivity.
    + cbn [buildRow r_task]. unfold applyOverride. rewrite Ho.
      cbn [t_id t_category t_start t_end t_owner t_label].
      split_and!; try reflexivity; apply str_or_overrideOrBase.
  - intros H kickoff id A B O L O2 category HO2.
    unfold allTasks, tasksWithOverrides, buildRows. simpl.
    rewrite filter_cons, decide_True by set_solver.
    rewrite filter_nil. simpl. unfold applyOverride. simpl.
    rewrite lookup_singleton_eq. simpl.
    rewrite decide_False by exact HO2. reflexivity.
Qed.

(** Editing only the owner and the end date of [verbal], with an empty
    label left in the override. *)
Lemma override_merge_witness :
  let override :=
    {| o_start := None; o_end := Some "2026-02-01"; o_owner := Some "Design";
       o_label := Some "" |} in
  let overrides : gmap string TaskOverride := {[ "verbal" := override ]} in
  (exists row,
      allTasks KICKOFF [task_foundations; task_verbal] overrides [] ∅ !! 1%nat
        = Some row
      /\ t_id (r_task row) = "verbal"
      /\ t_category (r_task row) = None
      /\ overrideOrBase None "2025-11-24" (t_start (r_task row))
      /\ overrideOrBase (Some "2026-02-01") "2026-01-09" (t_end (r_task row))
      /\ overrideOrBase (Some "Design") "Marketing" (t_owner (r_task row))
      /\ overrideOrBase (Some "") "Verbal Identity" (t_label (r_task row)))
  /\ r_task <$>
       allTasks KICKOFF [task_verbal]
         {[ "verbal" := {| o_start := None; o_end := None;
                           o_owner := Some "Design"; o_label := None |} ]}
         [] ∅
     = [ {| t_id := "verbal"; t_label := "Verbal Identity";
            t_start := "2025-11-24"; t_end := "2026-01-09";
            t_owner := "Design"; t_category := None |} ].
Proof.
  intros override overrides. split.
  - apply (proj1 override_merge es_host KICKOFF [task_foundations; task_verbal]
             overrides [] ∅ 1%nat task_verbal override).
    + reflexivity.
    + reflexivity.
  - apply (proj2 override_merge es_host KICKOFF "verbal" "2025-11-24"
             "2026-01-09" "Marketing" "Verbal Identity" "Design" None).
    discriminate.
Defined.

(** ** Persisted state *)




(** ** Mutations *)

Section Mutations.
Context `{Host}.

Lemma allTasks_not_deleted (kickoff : string) (catalog : list Task)
    (overrides : gmap string TaskOverride) (custom : list Task)
    (deleted : gset string) (row : Row) :
  row ∈ allTasks kickoff catalog overrides custom deleted ->
  t_id (r_task row) ∉ deleted.
Proof.
  unfold allTasks, buildRows, tasksWithOverrides.
  change (@map) with (@fmap list _).
  intros Hrow.
  apply list_elem_of_fmap in Hrow as (task' & -> & Htask').
  apply list_elem_of_fmap in Htask' as (task & -> & Htask).
  apply list_elem_of_filter in Htask as [Hkeep _].
  simpl. now rewrite applyOverride_id.
Qed.

Lemma onResetTimelines_twice (st : AppState) :
  onResetTimelines (onResetTimelines st) = onResetTimelines st.
Proof. reflexivity. Qed.

End Mutations.

(** C6. [handleDeleteTask] puts the id in the deletion set, removes its
    override entry and its subtask-completion entry, and the effective
    task list of the resulting state has no task with that id. It does
    this and no more: the deletion set is the old one with the id added,
    the override map and the subtask-completion map are the old ones
    with the key of the id deleted, and the custom tasks are as they
    were. *)
Theorem delete_task_cascades :
  forall (H : Host) (kickoff : string) (catalog : list Task)
         (st : AppState) (taskId : string),
    let st' := handleDeleteTask taskId st in
    taskId ∈ deletedTaskIds st'
    /\ taskOverrides st' !! taskId = None
    /\ subtaskProgress st' !! taskId = None
    /\ (forall row, row ∈ allTasksOf kickoff catalog st' ->
                    t_id (r_task row) <> taskId)
    /\ (taskId ∉ rowIds (allTasksOf kickoff catalog st'))
    /\ deletedTaskIds st' = deletedTaskIds st ∪ {[taskId]}
    /\ taskOverrides st' = delete taskId (taskOverrides st)
    /\ subtaskProgress st' = delete taskId (subtaskProgress st)
    /\ customTasks st' = customTasks st
    /\ (forall other,
           other ∈ deletedTaskIds st' <->
           other ∈ deletedTaskIds st \/ other = taskId)
    /\ (forall other,
           other <> taskId ->
           taskOverrides st' !! other = taskOverrides st !! other
           /\ subtaskProgress st' !! other = subtaskProgress st !! other).
Proof.
  intros H kickoff catalog st taskId st'.
  assert (Hin : taskId ∈ deletedTaskIds st')
    by (unfold st', handleDeleteTask; simpl; set_solver).
  assert (Hrows : forall row, row ∈ allTasksOf kickoff catalog st' ->
                              t_id (r_task row) <> taskId).
  { intros row Hrow E. apply allTasks_not_deleted in Hrow.
    rewrite E in Hrow. exact (Hrow Hin). }
  split_and!.
  - exact Hin.
  - apply lookup_delete_eq.
  - apply lookup_delete_eq.
  - exact Hrows.
  - unfold rowIds. change (@map) with (@fmap list _).
    intros Hid. apply list_elem_of_fmap in Hid as (row & E & Hrow).
    exact (Hrows row Hrow (eq_sym E)).
  - reflexivity.
  - reflexivity.
  - reflexivity.
  - reflexivity.
  - intros other. unfold st', handleDeleteTask. cbn [deletedTaskIds].
    rewrite elem_of_union, elem_of_singleton. reflexivity.
  - intros other Hne. unfold st', handleDeleteTask.
    cbn [taskOverrides subtaskProgress].
    split; apply lookup_delete_ne; auto.
Qed.

(** C9. Resetting the overrides twice gives the effective task list that
    resetting once gives; no call changes the custom tasks or the deletion
    set. *)
Theorem reset_overrides_idempotent :
  forall (H : Host) (kickoff : string) (catalog : list Task) (st : AppState),
    allTasksOf kickoff catalog (onResetTimelines (onResetTimelines st))
    = allTasksOf kickoff catalog (onResetTimelines st)
    /\ customTasks (onResetTimelines st) = customTasks st
    /\ deletedTaskIds (onResetTimelines st) = deletedTaskIds st
    /\ customTasks (onResetTimelines (onResetTimelines st)) = customTasks st
    /\ deletedTaskIds (onResetTimelines (onResetTimelines st))
       = deletedTaskIds st
    /\ taskOverrides (onResetTimelines st) = ∅.
Proof.
  intros H kickoff catalog st.
  rewrite onResetTimelines_twice. split_and!; reflexivity.
Qed.

(** C8. With a label that is empty once trimmed, the dialog's
    [handleCreateTask] only raises the notice: the stores of the
    application and the form are as they were, and [onCreateTask] is not
    called. *)
Theorem create_task_rejects_blank_label :
  forall (H : Host) (kickoff : string)
         (onCreateTask : option (TaskData -> AppState -> AppState))
         (w : World),
    trim (newTaskLabel (w_form w)) = "" ->
    gantt_handleCreateTask kickoff onCreateTask w
    = {| w_app := w_app w;
         w_form := w_form w;
         w_toasts := w_toasts w ++ [ToastError "Please enter a task name"] |}.
Proof.
  intros H kickoff onCreateTask w Hblank.
  unfold gantt_handleCreateTask.
  now rewrite bool_decide_eq_true_2 by exact Hblank.
Qed.

Lemma create_task_rejects_blank_label_witness :
  let st :=
    {| taskOverrides := ∅; customTasks := [task_verbal];
       deletedTaskIds := {[ "foundations" ]}; subtaskProgress := ∅ |} in
  let form :=
    {| newTaskLabel := "   "; newTaskStart := "2026-01-05";
       newTaskEnd := "2026-01-09"; newTaskOwner := "Design";
       newTaskCategory := "website"; isCreateDialogOpen := true |} in
  let w := {| w_app := st; w_form := form; w_toasts := [] |} in
  gantt_handleCreateTask KICKOFF (Some (handleCreateTask "custom_1_abc")) w
  = {| w_app := st; w_form := form;
       w_toasts := [ToastError "Please enter a task name"] |}.
Proof.
  intros st form w.
  apply (create_task_rejects_blank_label es_host KICKOFF
           (Some (handleCreateTask "custom_1_abc")) w).
  reflexivity.
Defined.

(** Deleting [verbal], which has an override and ticked subtasks, from
    a state where [naming] is deleted already and [foundations] has an
    override and ticked subtasks of its own. *)
Lemma delete_task_cascades_witness :
  let override :=
    {| o_start := None; o_end := None;
       o_owner := Some "Design"; o_label := None |} in
  let st :=
    {| taskOverrides := {[ "verbal" := override; "foundations" := override ]};
       customTasks := [];
       deletedTaskIds := {[ "naming" ]};
       subtaskProgress :=
         {[ "verbal" := {[ "pillars" := true ]};
            "foundations" := {[ "mission" := true ]} ]} |} in
  let st' := handleDeleteTask "verbal" st in
  rowIds (allTasksOf KICKOFF [task_foundations; task_verbal] st)
    = ["foundations"; "verbal"]
  /\ rowIds (allTasksOf KICKOFF [task_foundations; task_verbal] st')
     = ["foundations"]
  /\ ("verbal" ∉ rowIds (allTasksOf KICKOFF [task_foundations; task_verbal] st'))
  /\ taskOverrides st' !! "verbal" = None
  /\ subtaskProgress st' !! "verbal" = None
  /\ deletedTaskIds st' = {[ "naming" ]} ∪ {[ "verbal" ]}
  /\ ("naming" ∈ deletedTaskIds st')
  /\ taskOverrides st' !! "foundations" = Some override
  /\ subtaskProgress st' !! "foundations" = Some {[ "mission" := true ]}.
Proof.
  intros override st st'.
  pose proof (delete_task_cascades es_host KICKOFF
                [task_foundations; task_verbal] st "verbal")
    as (_ & Ho & Hs & _ & Hids & Hd & _ & _ & _ & Hold & Hother).
  assert (Hne : "foundations" <> "verbal") by discriminate.
  destruct (Hother "foundations" Hne) as [Ho' Hs'].
  split_and!;
    [reflexivity | reflexivity | exact Hids | exact Ho | exact Hs | exact Hd
    | apply Hold; left; vm_compute; reflexivity
    | etrans; [exact Ho' | vm_compute; reflexivity]
    | etrans; [exact Hs' | vm_compute; reflexivity]].
Defined.

(** ** Filter layer *)

(** C7. The "not-started" predicate of the filter is the test
    [today < start] alone; a task at 100 percent that starts after the
    reference date passes both the "completed" and the "not-started"
    filter. *)
Theorem not_started_filter_ignores_progress :
  (forall (H : Host) (progress : gmap string Z) (currentDate : string)
          (task : Task),
      matchesStatus "not-started" progress currentDate task
      = date_lt (toDate currentDate) (toDate (t_start task)))
  /\ (exists (progress : gmap string Z) (currentDate : string) (task : Task),
         taskProgressOf progress task = 100
         /\ date_lt (toDate currentDate) (toDate (t_start task)) = true
         /\ matchesStatus "completed" progress currentDate task = true
         /\ matchesStatus "not-started" progress currentDate task = true
         /\ (r_task <$>
               filteredTasks (allTasks KICKOFF [task] ∅ [] ∅) "" "all"
                 "completed" progress currentDate)
            = [task]
         /\ (r_task <$>
               filteredTasks (allTasks KICKOFF [task] ∅ [] ∅) "" "all"
                 "not-started" progress currentDate)
            = [task]).
Proof.
  split.
  - intros H progress currentDate task. reflexivity.
  - exists {[ "verbal" := 100 ]}, "2025-11-01", task_verbal.
    split_and!; reflexivity.
Qed.

(** ** Dashboard counters *)

(** Run [tac] on every element of an explicit list that [Hin] ranges
    over. *)
Ltac each_member Hin tac :=
  repeat (apply elem_of_cons in Hin as [->|Hin]; [tac|]);
  now apply elem_of_nil in Hin.

Lemma bump_counted (st : Stats) (s : Status) :
  counted (bump st (Some s)) = S (counted st)
  /\ total (bump st (Some s)) = total st.
Proof. destruct s; unfold counted; simpl; split; lia. Qed.

(** With valid dates and at most 100 percent the chain of the dashboard
    ends in one of its four branches, the one [getTaskStatus] takes. *)
Lemma statsBucket_getTaskStatus `{Host} (progress : gmap string Z)
    (currentDate : string) (task : Task) :
  taskProgressOf progress task <= 100 ->
  is_Some (toDate currentDate) ->
  is_Some (toDate (t_start task)) ->
  is_Some (toDate (t_end task)) ->
  statsBucket progress currentDate task
  = Some (getTaskStatus progress currentDate task).
Proof.
  intros Hp [today Ht] [start Hs] [end_ He].
  unfold statsBucket, getTaskStatus, date_gt, date_ge.
  rewrite Ht, Hs, He. simpl.
  destruct (Z.eqb_spec (taskProgressOf progress task) 100) as [|Hne];
    [reflexivity|].
  destruct (Z.ltb_spec today start) as [|Hge]; [reflexivity|].
  rewrite (proj2 (Z.leb_le start today) Hge). simpl.
  destruct (Z.leb_spec today end_) as [Hle|Hgt].
  - rewrite (proj2 (Z.ltb_ge end_ today) Hle). reflexivity.
  - rewrite (proj2 (Z.ltb_lt end_ today) Hgt).
    rewrite (proj2 (Z.ltb_lt _ _)) by lia. reflexivity.
Qed.

Lemma stats_fold `{Host} (progress : gmap string Z) (currentDate : string)
    (tasks : list Task) (st : Stats) :
  (forall task, task ∈ tasks ->
                is_Some (statsBucket progress currentDate task)) ->
  let st' :=
    fold_left (fun st task => bump st (statsBucket progress currentDate task))
              tasks st in
  counted st' = (counted st + length tasks)%nat /\ total st' = total st.
Proof.
  revert st. induction tasks as [|task rest IH]; intros st Hall; simpl.
  - split; [lia | reflexivity].
  - destruct (Hall task (list_elem_of_here _ _)) as [s Hs].
    destruct (IH (bump st (statsBucket progress currentDate task))) as [Hc Ht].
    { intros t Hin. apply Hall. now apply list_elem_of_further. }
    rewrite Hc, Ht, Hs.
    destruct (bump_counted st s) as [-> ->]. split; [lia | reflexivity].
Qed.

(** With the reference date cleared (the empty string, an Invalid Date)
    a task below 100 percent enters no counter: C10 as stated fails. *)
Lemma stats_partition_counterexample :
  let progress : gmap string Z := {[ "foundations" := 25 ]} in
  let st := stats [task_foundations; task_verbal] progress "" in
  (forall task, task ∈ [task_foundations; task_verbal] ->
                taskProgressOf progress task <= 100)
  /\ statsBucket progress "" task_foundations = None
  /\ statsBucket progress "" task_verbal = None
  /\ st = {| notStarted := 0; inProgress := 0; completed := 0; overdue := 0;
             total := 2 |}
  /\ counted st <> total st.
Proof.
  intros progress st. split_and!; try reflexivity.
  - intros task Hin. each_member Hin ltac:(vm_compute; discriminate).
  - vm_compute. discriminate.
Qed.

(** C10 (amended). When every task is at most at 100 percent and the
    reference date and every task's start and end date are valid dates,
    the dashboard puts each task in exactly one of its four counters, so
    the four counts add up to the number of tasks. *)
Theorem stats_partition :
  forall (H : Host) (tasks : list Task) (progress : gmap string Z)
         (currentDate : string),
    (forall task, task ∈ tasks -> taskProgressOf progress task <= 100) ->
    is_Some (toDate currentDate) ->
    (forall task, task ∈ tasks ->
                  is_Some (toDate (t_start task))
                  /\ is_Some (toDate (t_end task))) ->
    let st := stats tasks progress currentDate in
    (forall task, task ∈ tasks ->
                  exists s, statsBucket progress currentDate task = Some s)
    /\ (completed st + inProgress st + notStarted st + overdue st)%nat
       = total st
    /\ total st = length tasks.
Proof.
  intros H tasks progress currentDate Hp Hd Hse st.
  assert (Hb : forall task, task ∈ tasks ->
                 is_Some (statsBucket progress currentDate task)).
  { intros task Hin. destruct (Hse task Hin) as [Hs He].
    rewrite (statsBucket_getTaskStatus progress currentDate task
               (Hp task Hin) Hd Hs He).
    eauto. }
  destruct (stats_fold progress currentDate tasks
              {| notStarted := 0; inProgress := 0; completed := 0;
                 overdue := 0; total := length tasks |} Hb) as [Hc Ht].
  fold (stats tasks progress currentDate) in Hc, Ht. fold st in Hc, Ht.
  unfold counted in Hc. simpl in Hc, Ht.
  split_and!.
  - intros task Hin. destruct (Hb task Hin) as [s Hs]. eauto.
  - lia.
  - exact Ht.
Qed.

(** Three tasks seen on 2025-12-25: one completed, one overdue, one in
    progress. *)
Lemma stats_partition_witness :
  let tasks := [task_foundations; task_verbal; task_visual_guides] in
  let progress : gmap string Z := {[ "foundations" := 50; "verbal" := 100 ]} in
  let st := stats tasks progress "2025-12-25" in
  st = {| notStarted := 0; inProgress := 1; completed := 1; overdue := 1;
          total := 3 |}
  /\ (completed st + inProgress st + notStarted st + overdue st)%nat
     = total st
  /\ total st = 3%nat.
Proof.
  intros tasks progress st. split; [reflexivity|].
  apply (stats_partition es_host tasks progress "2025-12-25").
  - intros task Hin. each_member Hin ltac:(vm_compute; discriminate).
  - vm_compute. eauto.
  - intros task Hin. each_member Hin ltac:(split; vm_compute; eauto).
Defined.

(* ===================================================================== *)
(** * Part III: further properties of the code                            *)
(* ===================================================================== *)

(** ** Day arithmetic and chart rows *)

Lemma Math_round_div (t n : Z) :
  0 < n ->
  Math_round (inject_Z t / inject_Z n) = (2 * t + n) / (2 * n).
Proof.
  intros Hn. destruct n as [|p|p]; try lia.
  unfold Math_round, Qfloor, Qplus, Qdiv, Qmult, Qinv, inject_Z. simpl.
  rewrite Pos.mul_1_l, Pos2Z.inj_mul. f_equal; lia.
Qed.

Lemma Math_round_le (x y : Q) : (x <= y)%Q -> Math_round x <= Math_round y.
Proof.
  intros L. unfold Math_round. apply Qfloor_resp_le.
  now apply Qplus_le_l.
Qed.

Lemma Math_round_inject (z : Z) : Math_round (inject_Z z) = z.
Proof.
  unfold Math_round, Qfloor, Qplus, inject_Z. simpl.
  rewrite Z.mul_1_r.
  assert (E : z * 2 + 1 = 1 + z * 2) by lia. rewrite E.
  rewrite Z.div_add by lia. reflexivity.
Qed.

Section Rows.
Context `{Host}.

(** X1. [daysBetween] is the difference of the two time values in days,
    rounded to the nearest day with half a day going up; when the
    difference is a whole number of days it is that number. *)
Theorem daysBetween_rounding (a b : string) (ta tb : Z) :
  toDate a = Some ta ->
  toDate b = Some tb ->
  exists d,
    daysBetween a b = Some d
    /\ - msPerDay <= 2 * ((tb - ta) - d * msPerDay) < msPerDay
    /\ (forall k, tb - ta = k * msPerDay -> d = k).
Proof.
  intros Ha Hb. unfold daysBetween. rewrite Ha, Hb.
  eexists. split; [reflexivity|].
  rewrite Math_round_div by reflexivity.
  change msPerDay with 86400000. split.
  - pose proof (Z.div_mod (2 * (tb - ta) + 86400000) (2 * 86400000)
                  ltac:(lia)) as D.
    pose proof (Z.mod_pos_bound (2 * (tb - ta) + 86400000) (2 * 86400000)
                  ltac:(lia)) as B.
    lia.
  - intros k Hk. rewrite Hk. symmetry.
    apply Z.div_unique with (r := 86400000); lia.
Qed.

End Rows.

Lemma daysBetween_rounding_witness :
  exists d,
    daysBetween "2025-11-10" "2025-12-22" = Some d
    /\ - msPerDay <= 2 * ((1766361600000 - 1762732800000) - d * msPerDay)
       < msPerDay
    /\ (forall k, 1766361600000 - 1762732800000 = k * msPerDay -> d = k).
Proof.
  apply (daysBetween_rounding "2025-11-10" "2025-12-22"
           1762732800000 1766361600000); reflexivity.
Defined.

(** X2. The effective task list has exactly the ids of the catalog
    followed by the custom tasks, those in the deletion set left out, in
    that order; overrides change neither membership nor order. *)
Theorem allTasks_ids `{Host} (kickoff : string) (catalog : list Task)
    (overrides : gmap string TaskOverride) (custom : list Task)
    (deleted : gset string) :
  rowIds (allTasks kickoff catalog overrides custom deleted)
  = filter (fun id => id ∉ deleted) (map t_id catalog ++ map t_id custom).
Proof.
  unfold rowIds, allTasks, buildRows, tasksWithOverrides.
  rewrite <- map_app.
  induction (catalog ++ custom) as [|task rest IH]; [reflexivity|].
  simpl map at 4. rewrite !filter_cons.
  destruct (decide (t_id task ∉ deleted)) as [Hk|Hk].
  - simpl. rewrite applyOverride_id. f_equal. exact IH.
  - exact IH.
Qed.

(** X3. Every row of the effective list has an offset of at least 0 and
    a length of at least 1 day, also for a task that ends before it
    starts; the length is a number exactly when both dates of the task are
    valid, and the offset when the kickoff and the start date are. *)
Theorem allTasks_row_bounds `{Host} (kickoff : string) (catalog : list Task)
    (overrides : gmap string TaskOverride) (custom : list Task)
    (deleted : gset string) (row : Row) :
  row ∈ allTasks kickoff catalog overrides custom deleted ->
  (forall n, r_offset row = Some n -> 0 <= n)
  /\ (forall n, r_length row = Some n -> 1 <= n)
  /\ (is_Some (r_length row)
      <-> is_Some (toDate (t_start (r_task row)))
          /\ is_Some (toDate (t_end (r_task row))))
  /\ (is_Some (r_offset row)
      <-> is_Some (toDate kickoff)
          /\ is_Some (toDate (t_start (r_task row)))).
Proof.
  unfold allTasks, buildRows. change (@map) with (@fmap list _).
  intros Hrow. apply list_elem_of_fmap in Hrow as (task & -> & _).
  unfold buildRow, daysBetween. simpl.
  destruct (toDate (t_start task)) as [ts|], (toDate (t_end task)) as [te|],
    (toDate kickoff) as [tk|]; simpl;
    (split_and!;
     [ intros n E; try discriminate E; injection E as <-; lia
     | intros n E; try discriminate E; injection E as <-; lia
     | split; [intros [? E]; try discriminate E; eauto
              | intros [[? E1] [? E2]]; try discriminate; eauto]
     | split; [intros [? E]; try discriminate E; eauto
              | intros [[? E1] [? E2]]; try discriminate; eauto] ]).
Qed.

Lemma allTasks_row_bounds_witness :
  let inverted :=
    {| t_id := "x"; t_label := "X"; t_start := "2026-02-01";
       t_end := "2026-01-10"; t_owner := "Design"; t_category := None |} in
  let row := buildRow KICKOFF inverted in
  r_length row = Some 1
  /\ (forall n, r_length row = Some n -> 1 <= n)
  /\ (forall n, r_offset row = Some n -> 0 <= n).
Proof.
  intros inverted row.
  destruct (allTasks_row_bounds KICKOFF [inverted] ∅ [] ∅ row)
    as (Ho & Hl & _).
  - apply list_elem_of_In. vm_compute. auto.
  - split_and!; [reflexivity | exact Hl | exact Ho].
Defined.

(** ** Progress store and weighted progress *)

Lemma fillMissing_absent (rows : list Row) (result : gmap string Z)
    (taskId : string) :
  result !! taskId = None -> taskId ∉ rowIds rows ->
  fillMissing result rows !! taskId = None.
Proof.
  unfold fillMissing, rowIds. revert result.
  induction rows as [|row rest IH]; intros result Hn Hin; [exact Hn|].
  simpl in *. apply not_elem_of_cons in Hin as [Hne Hin].
  apply IH; [|exact Hin].
  destruct (falsy_number _); [now rewrite lookup_insert_ne | exact Hn].
Qed.

(** Every entry of [progress], in one equation. *)
Lemma progress_lookup (defs : gmap string (list Subtask))
    (done : gmap string (gmap string bool)) (rows : list Row)
    (taskId : string) :
  progress defs done rows !! taskId
  = match defs !! taskId with
    | Some subtasks =>
        Some (Math_round (totalProgress subtasks (default ∅ (done !! taskId))))
    | None => if bool_decide (taskId ∈ rowIds rows) then Some 0 else None
    end.
Proof.
  unfold progress. destruct (defs !! taskId) as [subtasks|] eqn:Hd.
  - apply fillMissing_Some. now rewrite progressOfDefinitions_lookup, Hd.
  - case_bool_decide.
    + apply fillMissing_None; [|assumption].
      now rewrite progressOfDefinitions_lookup, Hd.
    + apply fillMissing_absent; [|assumption].
      now rewrite progressOfDefinitions_lookup, Hd.
Qed.

(** The running total reads the completion map through its flags only. *)
Lemma totalProgress_flags (subtasks : list Subtask)
    (c1 c2 : gmap string bool) :
  (forall s, s ∈ subtasks ->
             default false (c1 !! s_id s) = default false (c2 !! s_id s)) ->
  totalProgress subtasks c1 = totalProgress subtasks c2.
Proof.
  unfold totalProgress. generalize 0%Q as acc.
  induction subtasks as [|s rest IH]; intros acc Hf; [reflexivity|].
  simpl. rewrite (Hf s) by apply list_elem_of_here.
  apply IH. intros s' Hs'. apply Hf. now apply list_elem_of_further.
Qed.

Lemma progress_flags (defs : gmap string (list Subtask))
    (sp1 sp2 : gmap string (gmap string bool)) (rows : list Row) :
  (forall taskId subtaskId,
      flagOf sp1 taskId subtaskId = flagOf sp2 taskId subtaskId) ->
  progress defs sp1 rows = progress defs sp2 rows.
Proof.
  intros Hf. apply map_eq. intros taskId. rewrite !progress_lookup.
  destruct (defs !! taskId) as [subtasks|]; [|reflexivity].
  do 2 f_equal. apply totalProgress_flags. intros s _. apply Hf.
Qed.

Lemma completedWeight_bounds (subtasks : list Subtask)
    (completed : gmap string bool) :
  Forall (fun s => (0 <= s_weight s)%Q) subtasks ->
  (0 <= completedWeight subtasks completed
   /\ completedWeight subtasks completed <= totalWeight subtasks)%Q.
Proof.
  unfold completedWeight, totalWeight.
  induction 1 as [|s rest Hs _ [IH0 IH1]]; simpl.
  - split; apply Qle_refl.
  - rewrite filter_cons. case_decide; simpl.
    + split.
      * replace 0%Q with (0 + 0)%Q by reflexivity. now apply Qplus_le_compat.
      * apply Qplus_le_compat; [apply Qle_refl | exact IH1].
    + split; [exact IH0|].
      eapply Qle_trans; [exact IH1|].
      rewrite <- (Qplus_0_l (fold_right Qplus 0%Q (map s_weight rest))) at 1.
      apply Qplus_le_compat; [exact Hs | apply Qle_refl].
Qed.

(** X4. When the weights of every task are non-negative and sum to at
    most 1, every percentage of [progress] lies between 0 and 100. *)
Theorem progress_range (defs : gmap string (list Subtask))
    (done : gmap string (gmap string bool)) (rows : list Row) :
  (forall taskId subtasks,
      defs !! taskId = Some subtasks ->
      Forall (fun s => (0 <= s_weight s)%Q) subtasks
      /\ (totalWeight subtasks <= 1)%Q) ->
  forall taskId percent,
    progress defs done rows !! taskId = Some percent ->
    0 <= percent <= 100.
Proof.
  intros Hw taskId percent. rewrite progress_lookup.
  destruct (defs !! taskId) as [subtasks|] eqn:Hd.
  - intros [= <-]. destruct (Hw _ _ Hd) as [Hpos Hsum].
    destruct (completedWeight_bounds subtasks (default ∅ (done !! taskId)) Hpos)
      as [H0 H1].
    rewrite (Math_round_Qeq _ _ (totalProgress_weight _ _)).
    split.
    + rewrite <- (Math_round_inject 0). apply Math_round_le.
      change (inject_Z 0) with (100 * 0)%Q.
      apply Qmult_le_l; [reflexivity | exact H0].
    + rewrite <- (Math_round_inject 100). apply Math_round_le.
      change (inject_Z 100) with (100 * 1)%Q.
      apply Qmult_le_l; [reflexivity|].
      eapply Qle_trans; eassumption.
  - case_bool_decide; [|discriminate]. intros [= <-]. lia.
Qed.

Lemma progress_range_witness :
  let defs : gmap string (list Subtask) :=
    {[ "foundations" := foundationsSubtasks ]} in
  let done : gmap string (gmap string bool) :=
    {[ "foundations" := {[ "mission" := true; "values" := true ]} ]} in
  let rows := allTasks KICKOFF [task_foundations; task_verbal] ∅ [] ∅ in
  progress defs done rows !! "foundations" = Some 45
  /\ 0 <= 45 <= 100.
Proof.
  intros defs done rows.
  assert (E : progress defs done rows !! "foundations" = Some 45)
    by (vm_compute; reflexivity).
  split; [exact E|].
  apply (progress_range defs done rows) with (taskId := "foundations");
    [|exact E].
  intros taskId subtasks Hd.
  apply lookup_singleton_Some in Hd as [_ <-].
  split.
  - repeat constructor; discriminate.
  - discriminate.
Defined.

Lemma flagOf_toggleSubtask (sp : gmap string (gmap string bool))
    (taskId subtaskId taskId' subtaskId' : string) :
  flagOf (toggleSubtask taskId subtaskId sp) taskId' subtaskId'
  = if bool_decide (taskId' = taskId /\ subtaskId' = subtaskId)
    then negb (flagOf sp taskId subtaskId)
    else flagOf sp taskId' subtaskId'.
Proof.
  unfold flagOf, toggleSubtask.
  destruct (decide (taskId' = taskId)) as [->|Hne].
  - rewrite lookup_insert_eq. simpl.
    destruct (decide (subtaskId' = subtaskId)) as [->|Hne'].
    + rewrite lookup_insert_eq, bool_decide_eq_true_2 by auto. reflexivity.
    + rewrite lookup_insert_ne by auto.
      rewrite bool_decide_eq_false_2 by (intros [_ ?]; auto). reflexivity.
  - rewrite lookup_insert_ne by auto.
    rewrite bool_decide_eq_false_2 by (intros [? _]; auto). reflexivity.
Qed.

Lemma fromEntries_lookup (subtasks : list Subtask) (checked : bool)
    (entries : gmap string bool) (k : string) :
  fold_left (fun entries st => <[s_id st := checked]> entries) subtasks entries
    !! k
  = if bool_decide (k ∈ map s_id subtasks) then Some checked else entries !! k.
Proof.
  revert entries. induction subtasks as [|s rest IH]; intros entries.
  - cbn [fold_left map].
    rewrite bool_decide_eq_false_2 by apply not_elem_of_nil. reflexivity.
  - cbn [fold_left map]. rewrite IH.
    destruct (decide (k ∈ map s_id rest)) as [Hin|Hnin].
    + rewrite !bool_decide_eq_true_2; auto using list_elem_of_further.
    + rewrite (bool_decide_eq_false_2 _ Hnin).
      destruct (decide (k = s_id s)) as [->|Hne].
      * rewrite lookup_insert_eq, bool_decide_eq_true_2
          by apply list_elem_of_here. reflexivity.
      * rewrite lookup_insert_ne by auto.
        rewrite bool_decide_eq_false_2; [reflexivity|].
        intros [?|?]%elem_of_cons; auto.
Qed.

Lemma completedWeight_all (subtasks : list Subtask)
    (completed : gmap string bool) :
  (forall s, s ∈ subtasks -> completed !! s_id s = Some true) ->
  completedWeight subtasks completed = totalWeight subtasks.
Proof.
  intros Hall. unfold completedWeight, totalWeight. f_equal. f_equal.
  induction subtasks as [|s rest IH]; [reflexivity|].
  rewrite filter_cons, decide_True by (apply Hall, list_elem_of_here).
  f_equal. apply IH. intros s' Hs'. apply Hall. now apply list_elem_of_further.
Qed.

Lemma completedWeight_none (subtasks : list Subtask)
    (completed : gmap string bool) :
  (forall s, s ∈ subtasks -> completed !! s_id s <> Some true) ->
  completedWeight subtasks completed = 0%Q.
Proof.
  intros Hnone. unfold completedWeight.
  induction subtasks as [|s rest IH]; [reflexivity|].
  rewrite filter_cons, decide_False by (apply Hnone, list_elem_of_here).
  apply IH. intros s' Hs'. apply Hnone. now apply list_elem_of_further.
Qed.

Lemma progress_defined (defs : gmap string (list Subtask))
    (done : gmap string (gmap string bool)) (rows : list Row)
    (taskId : string) (subtasks : list Subtask) :
  defs !! taskId = Some subtasks ->
  progress defs done rows !! taskId
  = Some (Math_round
            (100 * completedWeight subtasks (default ∅ (done !! taskId)))).
Proof.
  intros Hd. rewrite progress_lookup, Hd. f_equal.
  apply Math_round_Qeq, totalProgress_weight.
Qed.

(** In exact arithmetic, "check all" puts a task at [round (100 * the
    sum of all its weights)], which is 100 when the weights sum to 1;
    "uncheck all" puts it at 0; neither changes the percentage of another
    task. *)
Lemma toggleAllSubtasks_exact (defs : gmap string (list Subtask))
    (sp : gmap string (gmap string bool)) (rows : list Row)
    (taskId : string) (subtasks : list Subtask) :
  defs !! taskId = Some subtasks ->
  progress defs (toggleAllSubtasks defs taskId true sp) rows !! taskId
  = Some (Math_round (100 * totalWeight subtasks))
  /\ ((totalWeight subtasks == 1)%Q ->
      progress defs (toggleAllSubtasks defs taskId true sp) rows !! taskId
      = Some 100)
  /\ progress defs (toggleAllSubtasks defs taskId false sp) rows !! taskId
     = Some 0
  /\ (forall checked other,
         other <> taskId ->
         progress defs (toggleAllSubtasks defs taskId checked sp) rows !! other
         = progress defs sp rows !! other).
Proof.
  intros Hd.
  assert (Hall : progress defs (toggleAllSubtasks defs taskId true sp) rows
                   !! taskId
                 = Some (Math_round (100 * totalWeight subtasks))).
  { rewrite (progress_defined _ _ _ _ _ Hd). unfold toggleAllSubtasks.
    rewrite lookup_insert_eq, Hd. simpl. do 3 f_equal.
    apply completedWeight_all. intros s Hs. rewrite fromEntries_lookup.
    rewrite bool_decide_eq_true_2; [reflexivity|].
    change (@map) with (@fmap list _). apply list_elem_of_fmap. eauto. }
  split_and!.
  - exact Hall.
  - intros Hone. rewrite Hall. f_equal.
    rewrite (Math_round_Qeq _ 100%Q); [reflexivity|]. rewrite Hone. reflexivity.
  - rewrite (progress_defined _ _ _ _ _ Hd). unfold toggleAllSubtasks.
    rewrite lookup_insert_eq, Hd. simpl. f_equal.
    rewrite completedWeight_none; [reflexivity|].
    intros s Hs. rewrite fromEntries_lookup.
    rewrite bool_decide_eq_true_2; [discriminate|].
    change (@map) with (@fmap list _). apply list_elem_of_fmap. eauto.
  - intros checked other Hne. rewrite !progress_lookup.
    unfold toggleAllSubtasks. rewrite lookup_insert_ne by auto. reflexivity.
Qed.

Lemma toggleAllSubtasks_exact_example :
  let defs : gmap string (list Subtask) :=
    {[ "foundations" := foundationsSubtasks ]} in
  let rows := allTasks KICKOFF [task_foundations; task_verbal] ∅ [] ∅ in
  progress defs (toggleAllSubtasks defs "foundations" true ∅) rows
    !! "foundations" = Some 100
  /\ progress defs (toggleAllSubtasks defs "foundations" false ∅) rows
       !! "foundations" = Some 0.
Proof.
  intros defs rows.
  destruct (toggleAllSubtasks_exact defs ∅ rows "foundations"
              foundationsSubtasks eq_refl) as (_ & H100 & H0 & _).
  split; [apply H100; reflexivity | exact H0].
Defined.

(** X6. Clicking a subtask twice gives back the percentages of before,
    for every task, although the store itself may differ (a flag that was
    missing is now [false]). *)
Theorem toggleSubtask_twice (defs : gmap string (list Subtask))
    (sp : gmap string (gmap string bool)) (rows : list Row)
    (taskId subtaskId : string) :
  progress defs (toggleSubtask taskId subtaskId
                   (toggleSubtask taskId subtaskId sp)) rows
  = progress defs sp rows
  /\ (sp !! taskId = None ->
      toggleSubtask taskId subtaskId (toggleSubtask taskId subtaskId sp)
      <> sp).
Proof.
  split.
  - apply progress_flags. intros t k. rewrite !flagOf_toggleSubtask.
    case_bool_decide as E; [|reflexivity].
    destruct E as [-> ->].
    rewrite bool_decide_eq_true_2 by auto. apply negb_involutive.
  - intros Hn E.
    assert (E' : toggleSubtask taskId subtaskId
                   (toggleSubtask taskId subtaskId sp) !! taskId
                 = sp !! taskId) by now rewrite E.
    unfold toggleSubtask at 1 in E'. rewrite lookup_insert_eq, Hn in E'.
    discriminate E'.
Qed.

Lemma toggleSubtask_twice_witness :
  toggleSubtask "foundations" "mission" (toggleSubtask "foundations" "mission" ∅)
  <> ∅.
Proof.
  apply (proj2 (toggleSubtask_twice ∅ ∅ [] "foundations" "mission")).
  reflexivity.
Defined.

Lemma totalProgress_mono (subtasks : list Subtask) (c1 c2 : gmap string bool) :
  Forall (fun s => (0 <= s_weight s)%Q) subtasks ->
  (forall s, s ∈ subtasks ->
             default false (c1 !! s_id s) = true ->
             default false (c2 !! s_id s) = true) ->
  (totalProgress subtasks c1 <= totalProgress subtasks c2)%Q.
Proof.
  unfold totalProgress. intros Hpos.
  assert (G : forall acc1 acc2 : Q,
             (acc1 <= acc2)%Q ->
             (forall s, s ∈ subtasks ->
                        default false (c1 !! s_id s) = true ->
                        default false (c2 !! s_id s) = true) ->
             (fold_left
                (fun total subtask =>
                   if default false (c1 !! s_id subtask)
                   then total + s_weight subtask * 100 else total)
                subtasks acc1
              <= fold_left
                   (fun total subtask =>
                      if default false (c2 !! s_id subtask)
                      then total + s_weight subtask * 100 else total)
                   subtasks acc2)%Q).
  { induction Hpos as [|s rest Hs _ IH]; intros acc1 acc2 Hacc Hf;
      [exact Hacc|].
    simpl. apply IH.
    - assert (Hw : (0 <= s_weight s * 100)%Q).
      { apply Qmult_le_0_compat; [exact Hs | discriminate]. }
      pose proof (Hf s (list_elem_of_here _ _)) as Hfs.
      destruct (default false (c1 !! s_id s)).
      + rewrite Hfs by reflexivity.
        apply Qplus_le_compat; [exact Hacc | apply Qle_refl].
      + destruct (default false (c2 !! s_id s)); [|exact Hacc].
        rewrite <- (Qplus_0_r acc1).
        apply Qplus_le_compat; [exact Hacc | exact Hw].
    - intros s' Hs'. apply Hf. now apply list_elem_of_further. }
  intros Hf. apply G; [apply Qle_refl | exact Hf].
Qed.

(** X7. With non-negative weights, ticking a subtask never lowers the
    percentage of its task and unticking never raises it; the percentages
    of the other tasks stay as they are. *)
Theorem toggleSubtask_monotone (defs : gmap string (list Subtask))
    (sp : gmap string (gmap string bool)) (rows : list Row)
    (taskId subtaskId : string) (subtasks : list Subtask)
    (before after : Z) :
  defs !! taskId = Some subtasks ->
  Forall (fun s => (0 <= s_weight s)%Q) subtasks ->
  progress defs sp rows !! taskId = Some before ->
  progress defs (toggleSubtask taskId subtaskId sp) rows !! taskId
    = Some after ->
  (flagOf sp taskId subtaskId = false -> before <= after)
  /\ (flagOf sp taskId subtaskId = true -> after <= before)
  /\ (forall other,
         other <> taskId ->
         progress defs (toggleSubtask taskId subtaskId sp) rows !! other
         = progress defs sp rows !! other).
Proof.
  intros Hd Hpos. rewrite !progress_lookup, Hd. intros [= <-] [= <-].
  pose proof (flagOf_toggleSubtask sp taskId subtaskId taskId) as Hflag.
  unfold flagOf in Hflag.
  split_and!.
  - intros Hoff. apply Math_round_le, totalProgress_mono; [exact Hpos|].
    intros s _ Hs. rewrite Hflag. case_bool_decide as E; [|exact Hs].
    unfold flagOf in Hoff. now rewrite Hoff.
  - intros Hon. apply Math_round_le, totalProgress_mono; [exact Hpos|].
    intros s _. rewrite Hflag. case_bool_decide as E; [|auto].
    unfold flagOf in Hon. rewrite Hon. discriminate.
  - intros other Hne. rewrite !progress_lookup.
    unfold toggleSubtask. rewrite lookup_insert_ne by auto. reflexivity.
Qed.

Lemma toggleSubtask_monotone_witness :
  let defs : gmap string (list Subtask) :=
    {[ "foundations" := foundationsSubtasks ]} in
  let sp : gmap string (gmap string bool) :=
    {[ "foundations" := {[ "mission" := true ]} ]} in
  progress defs sp [] !! "foundations" = Some 25
  /\ progress defs (toggleSubtask "foundations" "values" sp) []
       !! "foundations" = Some 45
  /\ 25 <= 45
  /\ progress defs (toggleSubtask "foundations" "values" sp) [] !! "verbal"
     = progress defs sp [] !! "verbal".
Proof.
  intros defs sp.
  assert (E1 : progress defs sp [] !! "foundations" = Some 25)
    by (vm_compute; reflexivity).
  assert (E2 : progress defs (toggleSubtask "foundations" "values" sp) []
                 !! "foundations" = Some 45)
    by (vm_compute; reflexivity).
  destruct (toggleSubtask_monotone defs sp [] "foundations" "values"
              foundationsSubtasks 25 45) as (Hup & _ & Hother).
  - reflexivity.
  - repeat constructor; discriminate.
  - exact E1.
  - exact E2.
  - split_and!; [exact E1 | exact E2 | apply Hup; reflexivity
                | apply Hother; discriminate].
Defined.

(** X8. After "Reset All" every percentage is 0. *)
Theorem resetProgress_zero (defs : gmap string (list Subtask))
    (rows : list Row) (taskId : string) (percent : Z) :
  progress defs resetProgress rows !! taskId = Some percent -> percent = 0.
Proof.
  rewrite progress_lookup. unfold resetProgress.
  destruct (defs !! taskId) as [subtasks|].
  - intros [= <-]. rewrite lookup_empty. simpl.
    rewrite (Math_round_Qeq _ _ (totalProgress_weight _ _)).
    rewrite completedWeight_none; [reflexivity|].
    intros s _. rewrite lookup_empty. discriminate.
  - case_bool_decide; [|discriminate]. now intros [= <-].
Qed.

Lemma resetProgress_zero_witness :
  progress {[ "foundations" := foundationsSubtasks ]} resetProgress
           (allTasks KICKOFF [task_foundations; task_verbal] ∅ [] ∅)
    !! "foundations" = Some 0.
Proof.
  assert (E : exists percent,
             progress {[ "foundations" := foundationsSubtasks ]} resetProgress
               (allTasks KICKOFF [task_foundations; task_verbal] ∅ [] ∅)
               !! "foundations" = Some percent) by (vm_compute; eauto).
  destruct E as [percent E]. rewrite E. f_equal.
  exact (resetProgress_zero _ _ _ _ E).
Defined.

(** ** Mutations of the stores, composed *)

Section Store.
Context `{Host}.

Lemma allTasksOf_unfold (kickoff : string) (catalog : list Task)
    (st : AppState) :
  allTasksOf kickoff catalog st
  = (fun task => buildRow kickoff (applyOverride (taskOverrides st) task))
    <$> filter (fun task => t_id task ∉ deletedTaskIds st)
               (catalog ++ customTasks st).
Proof.
  unfold allTasksOf, allTasks, buildRows, tasksWithOverrides.
  change (@map) with (@fmap list _). now rewrite <- list_fmap_compose.
Qed.

(** X9. Deleting a task removes the rows with its id from the effective
    list and leaves every other row as it was, in place. *)
Theorem delete_keeps_other_rows (kickoff : string) (catalog : list Task)
    (st : AppState) (taskId : string) :
  allTasksOf kickoff catalog (handleDeleteTask taskId st)
  = filter (fun row => t_id (r_task row) <> taskId)
           (allTasksOf kickoff catalog st).
Proof.
  rewrite !allTasksOf_unfold. simpl.
  induction (catalog ++ customTasks st) as [|task rest IH]; [reflexivity|].
  rewrite !filter_cons.
  destruct (decide (t_id task ∉ deletedTaskIds st)) as [Hk|Hk].
  - destruct (decide (t_id task = taskId)) as [E|Hne].
    + rewrite decide_False
        by (rewrite not_elem_of_union, not_elem_of_singleton; tauto).
      rewrite fmap_cons, filter_cons, decide_False; [exact IH|].
      simpl. rewrite applyOverride_id. auto.
    + rewrite decide_True
        by (rewrite not_elem_of_union, not_elem_of_singleton; tauto).
      rewrite !fmap_cons, filter_cons, decide_True
        by (simpl; now rewrite applyOverride_id).
      f_equal; [|exact IH].
      unfold applyOverride. now rewrite lookup_delete_ne by auto.
  - rewrite decide_False
      by (rewrite not_elem_of_union, not_elem_of_singleton; tauto).
    exact IH.
Qed.

Lemma perform_keeps_deleted (a : Action) (st : AppState) (taskId : string) :
  taskId ∈ deletedTaskIds st -> taskId ∈ deletedTaskIds (perform a st).
Proof.
  intros Hin. destruct a; simpl; try exact Hin.
  apply elem_of_union. now left.
Qed.

(** X10. Deletion is final: once an id is in the deletion set, no
    sequence of creations (even with the same id), edits, resets of the
    overrides, deletions or progress updates brings a task with that id
    back into the effective list. *)
Theorem deleted_stays_deleted (kickoff : string) (catalog : list Task)
    (actions : list Action) (st : AppState) (taskId : string) :
  taskId ∈ deletedTaskIds st ->
  taskId ∉ rowIds (allTasksOf kickoff catalog (performAll actions st)).
Proof.
  intros Hdel.
  assert (Hstill : taskId ∈ deletedTaskIds (performAll actions st)).
  { unfold performAll. revert st Hdel.
    induction actions as [|a rest IH]; intros st Hdel; [exact Hdel|].
    simpl. apply IH. now apply perform_keeps_deleted. }
  unfold rowIds. change (@map) with (@fmap list _).
  intros Hin. apply list_elem_of_fmap in Hin as (row & -> & Hrow).
  apply allTasks_not_deleted in Hrow. exact (Hrow Hstill).
Qed.

(** X11. Resetting the overrides shows every task that is not deleted
    with its catalog (or creation) values again, and does not bring back a
    deleted one. *)
Theorem reset_restores_catalog (kickoff : string) (catalog : list Task)
    (st : AppState) :
  r_task <$> allTasksOf kickoff catalog (onResetTimelines st)
  = filter (fun task => t_id task ∉ deletedTaskIds st)
           (catalog ++ customTasks st).
Proof.
  rewrite allTasksOf_unfold. simpl.
  generalize (filter (fun task => t_id task ∉ deletedTaskIds st)
                     (catalog ++ customTasks st)).
  intros kept. induction kept as [|task rest IH]; [reflexivity|].
  rewrite !fmap_cons, IH. reflexivity.
Qed.

(** X12. A created task is appended to the effective list with the
    values of the dialog, provided its id is neither deleted nor the key
    of an override. *)
Theorem create_appends (kickoff : string) (catalog : list Task)
    (st : AppState) (newId : string) (taskData : TaskData) :
  newId ∉ deletedTaskIds st ->
  taskOverrides st !! newId = None ->
  allTasksOf kickoff catalog (handleCreateTask newId taskData st)
  = allTasksOf kickoff catalog st
    ++ [ buildRow kickoff
           {| t_id := newId; t_label := d_label taskData;
              t_start := d_start taskData; t_end := d_end taskData;
              t_owner := d_owner taskData;
              t_category := d_category taskData |} ].
Proof.
  intros Hdel Hov. rewrite !allTasksOf_unfold. simpl.
  rewrite app_assoc, filter_app, fmap_app. f_equal.
  rewrite filter_cons, decide_True by exact Hdel.
  rewrite filter_nil. simpl. unfold applyOverride. simpl.
  now rewrite Hov.
Qed.

End Store.

Lemma deleted_stays_deleted_witness :
  let st :=
    {| taskOverrides := ∅; customTasks := []; deletedTaskIds := {[ "verbal" ]};
       subtaskProgress := ∅ |} in
  let again :=
    {| d_label := "Verbal Identity"; d_start := "2025-11-24";
       d_end := "2026-01-09"; d_owner := "Marketing"; d_category := None |} in
  "verbal" ∉ rowIds
    (allTasksOf KICKOFF [task_foundations; task_verbal]
       (performAll [AResetTimelines; ACreate "verbal" again;
                    AUpdate "verbal"
                      {| o_start := None; o_end := None;
                         o_owner := Some "Design"; o_label := None |}]
                   st)).
Proof.
  intros st again.
  apply (deleted_stays_deleted KICKOFF [task_foundations; task_verbal]).
  vm_compute. set_solver.
Defined.

Lemma create_appends_witness :
  let st :=
    {| taskOverrides := ∅; customTasks := []; deletedTaskIds := ∅;
       subtaskProgress := ∅ |} in
  let taskData :=
    {| d_label := "Press kit"; d_start := "2026-02-02"; d_end := "2026-02-06";
       d_owner := "Marketing"; d_category := None |} in
  rowIds (allTasksOf KICKOFF [task_foundations]
            (handleCreateTask "custom_1_abc" taskData st))
  = ["foundations"; "custom_1_abc"].
Proof.
  intros st taskData.
  rewrite (create_appends KICKOFF [task_foundations] st "custom_1_abc" taskData).
  - reflexivity.
  - vm_compute. set_solver.
  - reflexivity.
Defined.

(** ** Editing through the Gantt dialog *)

Section Editing.
Context `{Host}.

Lemma applyOverride_category (overrides : gmap string TaskOverride)
    (task : Task) :
  t_category (applyOverride overrides task) = t_category task.
Proof. unfold applyOverride. now destruct (overrides !! t_id task). Qed.

Lemma str_or_empty (field : option string) (base : string) :
  str_or field base = "" -> base = "".
Proof.
  unfold str_or. destruct field as [v|]; [|auto].
  case_decide; [auto | congruence].
Qed.

(** X13. Saving the edit dialog with four non-empty fields replaces
    start, end, owner and label of the rows with the edited id by the
    dialog's values, keeps their id and category, and leaves the other
    rows untouched. *)
Theorem saveEdit_shows (kickoff : string) (catalog : list Task)
    (w : EditWorld) (row : Row) :
  editingTask (e_editor w) = Some row ->
  editStart (e_editor w) <> "" ->
  editEnd (e_editor w) <> "" ->
  editOwner (e_editor w) <> "" ->
  editLabel (e_editor w) <> "" ->
  allTasksOf kickoff catalog (e_app (saveEdit (Some onUpdateTask) w))
  = (fun r =>
       if decide (t_id (r_task r) = t_id (r_task row))
       then buildRow kickoff
              {| t_id := t_id (r_task r);
                 t_label := editLabel (e_editor w);
                 t_start := editStart (e_editor w);
                 t_end := editEnd (e_editor w);
                 t_owner := editOwner (e_editor w);
                 t_category := t_category (r_task r) |}
       else r)
    <$> allTasksOf kickoff catalog (e_app w).
Proof.
  intros Hed Hs He Ho Hl. unfold saveEdit. rewrite Hed.
  cbn [e_app]. rewrite !allTasksOf_unfold. cbn [onUpdateTask taskOverrides
    customTasks deletedTaskIds].
  rewrite <- list_fmap_compose. apply list_fmap_ext.
  intros _ task _. cbn [compose buildRow r_task].
  rewrite applyOverride_id, applyOverride_category.
  destruct (decide (t_id task = t_id (r_task row))) as [E|Hne].
  - f_equal. unfold applyOverride at 1. rewrite E, lookup_insert_eq.
    unfold mergeOverride. cbn.
    unfold str_or. rewrite !decide_False by assumption.
    reflexivity.
  - f_equal. unfold applyOverride. now rewrite lookup_insert_ne by auto.
Qed.

(** X14. An update merges field by field: a field it does not mention
    keeps the value shown before, a field it sets to the empty string
    falls back to the catalog value (whatever an earlier edit had put), and
    a task with another id is not affected. *)
Theorem onUpdateTask_fields (st : AppState) (taskId : string)
    (updates : TaskOverride) (task : Task) :
  let before := applyOverride (taskOverrides st) task in
  let after := applyOverride (taskOverrides (onUpdateTask taskId updates st))
                             task in
  (t_id task <> taskId -> after = before)
  /\ (t_id task = taskId ->
      (o_label updates = None -> t_label after = t_label before)
      /\ (o_label updates = Some "" -> t_label after = t_label task)
      /\ (o_owner updates = None -> t_owner after = t_owner before)
      /\ (o_owner updates = Some "" -> t_owner after = t_owner task)
      /\ (o_start updates = None -> t_start after = t_start before)
      /\ (o_start updates = Some "" -> t_start after = t_start task)
      /\ (o_end updates = None -> t_end after = t_end before)
      /\ (o_end updates = Some "" -> t_end after = t_end task)).
Proof.
  intros before after. subst before after. split.
  - intros Hne. unfold applyOverride. simpl.
    now rewrite lookup_insert_ne by auto.
  - intros E. unfold applyOverride. simpl.
    rewrite E, lookup_insert_eq. unfold mergeOverride.
    destruct (taskOverrides st !! taskId) as [old|]; simpl;
      split_and!; intros ->; reflexivity.
Qed.

(** X15. When the ids of the catalog and the custom tasks are pairwise
    different, opening the edit dialog on a row and saving it unchanged
    leaves the effective task list as it was. *)
Theorem open_save_unchanged (kickoff : string) (catalog : list Task)
    (w : EditWorld) (row : Row) :
  NoDup (t_id <$> catalog ++ customTasks (e_app w)) ->
  row ∈ allTasksOf kickoff catalog (e_app w) ->
  allTasksOf kickoff catalog
    (e_app (saveEdit (Some onUpdateTask) (openEditDialog row w)))
  = allTasksOf kickoff catalog (e_app w).
Proof.
  intros Hnd Hrow. unfold saveEdit, openEditDialog.
  cbn [e_editor editingTask e_app editStart editEnd editOwner editLabel].
  rewrite !allTasksOf_unfold in *.
  cbn [onUpdateTask taskOverrides customTasks deletedTaskIds].
  apply list_elem_of_fmap in Hrow as (base & -> & Hbase).
  apply list_elem_of_filter in Hbase as [_ Hbase].
  apply list_fmap_ext. intros n task Htask.
  apply list_elem_of_lookup_2, list_elem_of_filter in Htask as [_ Htask].
  f_equal. cbn [buildRow r_task]. rewrite applyOverride_id.
  destruct (decide (t_id task = t_id base)) as [E|Hne].
  - assert (task = base) as ->.
    { apply list_elem_of_lookup in Htask as [i Hi].
      apply list_elem_of_lookup in Hbase as [j Hj].
      assert (i = j) as ->; [|congruence].
      eapply NoDup_lookup; [exact Hnd | |];
        rewrite list_lookup_fmap; [rewrite Hi | rewrite Hj]; simpl;
        [now rewrite E | reflexivity]. }
    unfold applyOverride at 1. rewrite lookup_insert_eq.
    unfold mergeOverride. cbn.
    unfold applyOverride.
    destruct (taskOverrides (e_app w) !! t_id base) as [old|]; cbn.
    + f_equal;
        (case_decide as D;
         [symmetry; rewrite D; now apply str_or_empty in D | reflexivity]).
    + destruct base as [i l s e o c]; cbn.
      f_equal; (case_decide as D; [now rewrite D | reflexivity]).
  - unfold applyOverride. now rewrite lookup_insert_ne by auto.
Qed.

End Editing.

Lemma saveEdit_shows_witness :
  let st :=
    {| taskOverrides := ∅; customTasks := []; deletedTaskIds := ∅;
       subtaskProgress := ∅ |} in
  let w :=
    {| e_app := st;
       e_editor :=
         {| editingTask := Some (buildRow KICKOFF task_verbal);
            editStart := "2025-12-01"; editEnd := "2026-01-16";
            editOwner := "Design"; editLabel := "Verbal Identity v2";
            taskToDelete := None |};
       e_toasts := [] |} in
  r_task <$>
    allTasksOf KICKOFF [task_foundations; task_verbal]
      (e_app (saveEdit (Some onUpdateTask) w))
  = [ task_foundations;
      {| t_id := "verbal"; t_label := "Verbal Identity v2";
         t_start := "2025-12-01"; t_end := "2026-01-16";
         t_owner := "Design"; t_category := None |} ].
Proof.
  intros st w.
  rewrite (saveEdit_shows KICKOFF [task_foundations; task_verbal] w
             (buildRow KICKOFF task_verbal));
    [reflexivity | reflexivity | discriminate..].
Defined.

Lemma onUpdateTask_fields_witness :
  let st :=
    {| taskOverrides :=
         {[ "verbal" := {| o_start := None; o_end := None; o_owner := None;
                           o_label := Some "Voice" |} ]};
       customTasks := []; deletedTaskIds := ∅; subtaskProgress := ∅ |} in
  let updates :=
    {| o_start := None; o_end := None; o_owner := Some "Design";
       o_label := Some "" |} in
  let after :=
    applyOverride (taskOverrides (onUpdateTask "verbal" updates st))
                  task_verbal in
  t_label after = "Verbal Identity"
  /\ t_start after = "2025-11-24".
Proof.
  intros st updates after.
  destruct (proj2 (onUpdateTask_fields st "verbal" updates task_verbal)
              eq_refl) as (_ & Hl & _ & _ & Hs & _).
  split; [exact (Hl eq_refl) | exact (Hs eq_refl)].
Defined.

Lemma open_save_unchanged_witness :
  let st :=
    {| taskOverrides :=
         {[ "verbal" := {| o_start := None; o_end := None;
                           o_owner := Some "Design"; o_label := None |} ]};
       customTasks := []; deletedTaskIds := ∅; subtaskProgress := ∅ |} in
  let w :=
    {| e_app := st;
       e_editor :=
         {| editingTask := None; editStart := ""; editEnd := "";
            editOwner := ""; editLabel := ""; taskToDelete := None |};
       e_toasts := [] |} in
  let row :=
    buildRow KICKOFF
      {| t_id := "verbal"; t_label := "Verbal Identity";
         t_start := "2025-11-24"; t_end := "2026-01-09";
         t_owner := "Design"; t_category := None |} in
  allTasksOf KICKOFF [task_foundations; task_verbal]
    (e_app (saveEdit (Some onUpdateTask) (openEditDialog row w)))
  = allTasksOf KICKOFF [task_foundations; task_verbal] st.
Proof.
  intros st w row.
  apply (open_save_unchanged KICKOFF [task_foundations; task_verbal] w row).
  - apply (bool_decide_unpack _). vm_compute. exact I.
  - apply list_elem_of_In. vm_compute. auto.
Defined.

(** ** Filter layer *)

Lemma prefix_append (p s : string) :
  String.prefix p s = true <-> exists post, s = p +:+ post.
Proof.
  revert s. induction p as [|a p IH]; intros s.
  - destruct s; simpl; split; eauto.
  - destruct s as [|b s]; simpl.
    + split; [discriminate | intros [post E]; discriminate E].
    + destruct (Ascii.ascii_dec a b) as [->|Hne].
      * rewrite IH. split; intros [post E]; exists post.
        -- now rewrite E.
        -- now injection E.
      * split; [discriminate | intros [post E]; injection E; congruence].
Qed.

(** [includes] is the substring test. *)
Lemma includes_substring (hay needle : string) :
  includes hay needle = true
  <-> exists pre post, hay = pre +:+ needle +:+ post.
Proof.
  induction hay as [|c hay IH]; cbn [includes].
  - rewrite orb_false_r, prefix_append. split.
    + intros [post E]. exists "", post. exact E.
    + intros (pre & post & E). destruct pre; [eauto | discriminate E].
  - rewrite orb_true_iff, prefix_append, IH. split.
    + intros [[post E] | (pre & post & E)].
      * exists "", post. exact E.
      * exists (String c pre), post. simpl. now rewrite E.
    + intros (pre & post & E). destruct pre as [|c' pre].
      * left. eauto.
      * right. injection E as _ E. eauto.
Qed.

Section Filter.
Context `{Host}.

(** X16. A row passes the filters exactly when it is a row of the
    effective list, the search term is empty or occurs (case-folded) in
    its label or its owner, the owner filter is "all" or its owner, and
    the status predicate holds. *)
Theorem filteredTasks_member (rows : list Row)
    (searchTerm ownerFilter statusFilter : string)
    (progress : gmap string Z) (currentDate : string) (row : Row) :
  row ∈ filteredTasks rows searchTerm ownerFilter statusFilter progress
          currentDate
  <-> row ∈ rows
      /\ (searchTerm = ""
          \/ (exists pre post,
                 toLowerCase (t_label (r_task row))
                 = pre +:+ toLowerCase searchTerm +:+ post)
          \/ (exists pre post,
                 toLowerCase (t_owner (r_task row))
                 = pre +:+ toLowerCase searchTerm +:+ post))
      /\ (ownerFilter = "all" \/ t_owner (r_task row) = ownerFilter)
      /\ matchesStatus statusFilter progress currentDate (r_task row) = true.
Proof.
  unfold filteredTasks, keepTask, matchesSearch, matchesOwner.
  rewrite list_elem_of_filter, !andb_true_iff, !orb_true_iff,
    !bool_decide_eq_true, !includes_substring.
  tauto.
Qed.

(** X17. The three filters compose: filtering by search, then by owner,
    then by status gives the list that filtering by all three gives; the
    result keeps the order of the effective list, and after
    [resetFilters] it is the whole list. *)
Theorem filteredTasks_compose (rows : list Row)
    (searchTerm ownerFilter statusFilter : string)
    (progress : gmap string Z) (currentDate : string) :
  filteredTasks
    (filteredTasks
       (filteredTasks rows searchTerm "all" "all" progress currentDate)
       "" ownerFilter "all" progress currentDate)
    "" "all" statusFilter progress currentDate
  = filteredTasks rows searchTerm ownerFilter statusFilter progress currentDate
  /\ sublist
       (filteredTasks rows searchTerm ownerFilter statusFilter progress
          currentDate)
       rows
  /\ filteredTasks rows "" "all" "all" progress currentDate = rows.
Proof.
  unfold filteredTasks. split_and!.
  - rewrite !list_filter_filter. apply list_filter_iff. intros row.
    unfold keepTask, matchesSearch, matchesOwner, matchesStatus. simpl.
    rewrite !andb_true_r. simpl. rewrite !andb_true_iff. tauto.
  - apply sublist_filter.
  - induction rows as [|row rest IH]; [reflexivity|].
    rewrite filter_cons, decide_True by reflexivity. now rewrite IH.
Qed.

End Filter.

Lemma filteredTasks_member_witness :
  let rows :=
    allTasks KICKOFF [task_foundations; task_verbal; task_visual_guides]
             ∅ [] ∅ in
  buildRow KICKOFF task_visual_guides
  ∈ filteredTasks rows "IDENT" "Design" "all" ∅ "2025-12-25"
  /\ ~ buildRow KICKOFF task_verbal
       ∈ filteredTasks rows "IDENT" "Design" "all" ∅ "2025-12-25".
Proof.
  intros rows. split.
  - apply (filteredTasks_member rows "IDENT" "Design" "all" ∅ "2025-12-25").
    split_and!.
    + apply list_elem_of_In. vm_compute. auto.
    + right. left. exists "visual ", "ity". reflexivity.
    + right. reflexivity.
    + reflexivity.
  - intros Hin.
    apply (filteredTasks_member rows "IDENT" "Design" "all" ∅ "2025-12-25")
      in Hin as (_ & _ & [E|E] & _); discriminate E.
Defined.

(** ** The status, view by view *)

Section StatusViews.
Context `{Host}.

(** X18. No task passes two of the "completed", "in-progress" and
    "overdue" filters, nor both "in-progress" and "not-started"; with valid
    dates and at most 100 percent every task passes at least one of the
    four. *)
Theorem status_filters_partition (progress : gmap string Z)
    (currentDate : string) (task : Task) :
  let passes f := matchesStatus f progress currentDate task = true in
  ~ (passes "completed" /\ passes "in-progress")
  /\ ~ (passes "completed" /\ passes "overdue")
  /\ ~ (passes "in-progress" /\ passes "overdue")
  /\ ~ (passes "in-progress" /\ passes "not-started")
  /\ (taskProgressOf progress task <= 100 ->
      is_Some (toDate currentDate) ->
      is_Some (toDate (t_start task)) ->
      is_Some (toDate (t_end task)) ->
      passes "completed" \/ passes "in-progress" \/ passes "not-started"
      \/ passes "overdue").
Proof.
  intros passes. subst passes. unfold matchesStatus. simpl.
  unfold date_ge, date_gt.
  destruct (toDate currentDate) as [c|], (toDate (t_start task)) as [s|],
    (toDate (t_end task)) as [e|]; simpl;
    rewrite ?andb_true_iff, ?Z.eqb_eq, ?Z.ltb_lt, ?Z.leb_le;
    (split_and!; [lia || tauto..|]);
    intros Hp [? ?] [? ?] [? ?]; try discriminate; lia.
Qed.

(** X19. For a task whose start is on or before its end, seen on a valid
    date with at most 100 percent, the "completed", "in-progress" and
    "overdue" filters select exactly the tasks whose badge in the owner
    view is Completed, In Progress and Overdue; every task with the badge
    Not Started passes the "not-started" filter. *)
Theorem status_filter_matches_badge (progress : gmap string Z)
    (currentDate : string) (task : Task) (s : Status) :
  taskProgressOf progress task <= 100 ->
  is_Some (toDate currentDate) ->
  date_le (toDate (t_start task)) (toDate (t_end task)) = true ->
  (s <> NotStarted ->
   (matchesStatus (statusKey s) progress currentDate task = true
    <-> getTaskStatus progress currentDate task = s))
  /\ (getTaskStatus progress currentDate task = NotStarted ->
      matchesStatus "not-started" progress currentDate task = true).
Proof.
  intros Hp [c Hc] Hse. unfold getTaskStatus, matchesStatus.
  rewrite Hc. unfold date_ge, date_gt.
  destruct (toDate (t_start task)) as [ts|], (toDate (t_end task)) as [te|];
    try discriminate Hse.
  simpl in Hse. apply Z.leb_le in Hse. simpl.
  destruct (Z.eqb_spec (taskProgressOf progress task) 100) as [E|Hne];
    destruct (Z.ltb_spec c ts), (Z.ltb_spec te c), (Z.leb_spec ts c),
      (Z.leb_spec c te), (Z.ltb_spec (taskProgressOf progress task) 100);
    try lia; (split; [destruct s; simpl; intros Hs; try congruence;
                      split; congruence | simpl; congruence]).
Qed.

(** X20. On a valid reference date, the status string of a Gantt bar is
    the key of the badge that the owner view shows, for every task whose
    start is on or before its end. *)
Theorem ganttStatus_matches_badge (progress : gmap string Z)
    (currentDate : string) (task : Task) :
  is_Some (toDate currentDate) ->
  date_le (toDate (t_start task)) (toDate (t_end task)) = true ->
  ganttStatus progress currentDate task
  = statusKey (getTaskStatus progress currentDate task).
Proof.
  intros [c Hc] Hse. unfold getTaskStatus, ganttStatus.
  rewrite Hc. unfold date_ge, date_gt.
  destruct (toDate (t_start task)) as [ts|], (toDate (t_end task)) as [te|];
    try discriminate Hse.
  simpl in Hse. apply Z.leb_le in Hse. simpl.
  destruct (taskProgressOf progress task =? 100); [reflexivity|].
  destruct (Z.ltb_spec c ts), (Z.ltb_spec te c), (Z.leb_spec ts c),
    (Z.leb_spec c te); try lia; reflexivity.
Qed.

(** X21. When the reference date, the start and the end of a task are
    valid and whole days apart (as dates without a time are), the countdown
    list gives the task the status of its badge in the owner view, with
    "upcoming" for Not Started. *)
Theorem countdown_matches_badge (progress : gmap string Z)
    (currentDate : string) (task : Task) (c s e ks ke : Z) :
  toDate currentDate = Some c ->
  toDate (t_start task) = Some s ->
  toDate (t_end task) = Some e ->
  s - c = ks * msPerDay ->
  e - c = ke * msPerDay ->
  fst (countdownStatus progress currentDate task)
  = countdownOf (getTaskStatus progress currentDate task).
Proof.
  intros Hc Hs He Hks Hke.
  destruct (daysBetween_rounding currentDate (t_start task) c s Hc Hs)
    as (ds & Hds & _ & Eds).
  destruct (daysBetween_rounding currentDate (t_end task) c e Hc He)
    as (de & Hde & _ & Ede).
  rewrite (Eds ks Hks) in Hds. rewrite (Ede ke Hke) in Hde.
  unfold countdownStatus, getTaskStatus. rewrite Hds, Hde, Hc, Hs, He.
  unfold date_gt. simpl.
  destruct (taskProgressOf progress task =? 100); [reflexivity|].
  change msPerDay with 86400000 in *.
  destruct (Z.ltb_spec 0 ks), (Z.leb_spec 0 ke), (Z.ltb_spec c s),
    (Z.ltb_spec e c); try lia; reflexivity.
Qed.

End StatusViews.

Lemma status_filters_partition_witness :
  matchesStatus "overdue" {[ "foundations" := 25 ]} "2025-12-25"
                task_foundations = true
  /\ ~ (matchesStatus "in-progress" {[ "foundations" := 25 ]} "2025-12-25"
          task_foundations = true
        /\ matchesStatus "overdue" {[ "foundations" := 25 ]} "2025-12-25"
             task_foundations = true).
Proof.
  pose proof (status_filters_partition {[ "foundations" := 25 ]} "2025-12-25"
                task_foundations) as (_ & _ & Hio & _ & Hcover).
  split; [reflexivity | exact Hio].
Defined.

Lemma status_filter_matches_badge_witness :
  matchesStatus "overdue" {[ "foundations" := 25 ]} "2025-12-25"
                task_foundations = true
  <-> getTaskStatus {[ "foundations" := 25 ]} "2025-12-25" task_foundations
      = Overdue.
Proof.
  apply (status_filter_matches_badge {[ "foundations" := 25 ]} "2025-12-25"
           task_foundations Overdue).
  - vm_compute. discriminate.
  - vm_compute. eauto.
  - reflexivity.
  - discriminate.
Defined.

Lemma ganttStatus_matches_badge_witness :
  ganttStatus {[ "foundations" := 25 ]} "2025-12-25" task_foundations
  = "overdue".
Proof.
  rewrite (ganttStatus_matches_badge {[ "foundations" := 25 ]} "2025-12-25"
             task_foundations).
  - reflexivity.
  - vm_compute. eauto.
  - reflexivity.
Defined.

Lemma countdown_matches_badge_witness :
  fst (countdownStatus ∅ "2025-11-01" task_foundations) = CdUpcoming.
Proof.
  rewrite (countdown_matches_badge ∅ "2025-11-01" task_foundations
             1761955200000 1762732800000 1766361600000 9 51);
    reflexivity.
Defined.

(** ** Sorting *)

Lemma insertOn_Permutation {A : Type} (key : A -> option Z) (x : A)
    (l : list A) :
  insertOn key x l ≡ₚ x :: l.
Proof.
  induction l as [|y rest IH]; simpl; [reflexivity|].
  destruct (date_le (key x) (key y)); [reflexivity|].
  rewrite IH. apply Permutation_swap.
Qed.

Lemma sortOn_Permutation {A : Type} (key : A -> option Z) (l : list A) :
  sortOn key l ≡ₚ l.
Proof.
  induction l as [|x rest IH]; simpl; [reflexivity|].
  rewrite insertOn_Permutation. now rewrite IH.
Qed.

Lemma insertOn_Sorted {A : Type} (key : A -> option Z) (x : A) (l : list A) :
  is_Some (key x) ->
  Forall (fun y => is_Some (key y)) l ->
  Sorted (keyLe key) l ->
  Sorted (keyLe key) (insertOn key x l).
Proof.
  intros [kx Hx] Hvalid Hsorted.
  induction Hsorted as [|y rest Hrest IH Hhd]; simpl.
  - repeat constructor.
  - apply Forall_cons in Hvalid as [[ky Hy] Hvalid].
    destruct (date_le (key x) (key y)) eqn:Hle.
    + constructor; [now constructor | constructor; exact Hle].
    + constructor; [now apply IH|].
      assert (Hyx : keyLe key y x).
      { unfold keyLe. rewrite Hx, Hy in *. simpl in *.
        apply Z.leb_le. apply Z.leb_gt in Hle. lia. }
      destruct Hhd as [|z rest' Hyz]; simpl.
      * constructor. exact Hyx.
      * destruct (date_le (key x) (key z)); constructor; assumption.
Qed.

Lemma sortOn_Sorted {A : Type} (key : A -> option Z) (l : list A) :
  Forall (fun y => is_Some (key y)) l ->
  Sorted (keyLe key) (sortOn key l).
Proof.
  induction 1 as [|x rest Hx Hrest IH]; simpl; [constructor|].
  apply insertOn_Sorted; [exact Hx | | exact IH].
  now rewrite sortOn_Permutation.
Qed.

(** ** Countdown list *)

Section Countdown.
Context `{Host}.

Lemma tasksOfStatus_partition (rows : list CountdownRow) :
  (length (tasksOfStatus CdUpcoming rows)
   + length (tasksOfStatus CdInProgress rows)
   + length (tasksOfStatus CdOverdue rows)
   + length (tasksOfStatus CdCompleted rows))%nat
  = length rows.
Proof.
  unfold tasksOfStatus.
  induction rows as [|r rest IH]; [reflexivity|].
  rewrite !filter_cons.
  destruct (c_status r); repeat case_decide; try congruence; simpl in *; lia.
Qed.

(** X22. The four groups of the countdown list hold every task exactly
    once, whatever the dates are: their sizes add up to the number of tasks
    (unlike the counters of the dashboard), and a row is in the group of
    its status only. *)
Theorem countdown_groups_partition (tasks : list Task)
    (progress : gmap string Z) (currentDate : string) :
  let sorted := sortedTasks tasks progress currentDate in
  (length (tasksOfStatus CdUpcoming sorted)
   + length (tasksOfStatus CdInProgress sorted)
   + length (tasksOfStatus CdOverdue sorted)
   + length (tasksOfStatus CdCompleted sorted))%nat
  = length tasks
  /\ c_task <$> sorted ≡ₚ tasks
  /\ (forall row status,
         row ∈ tasksOfStatus status sorted <->
         row ∈ sorted /\ c_status row = status).
Proof.
  intros sorted.
  assert (Hperm : sorted ≡ₚ tasksWithCountdown tasks progress currentDate)
    by apply sortOn_Permutation.
  split_and!.
  - rewrite tasksOfStatus_partition, Hperm.
    unfold tasksWithCountdown. apply length_map.
  - rewrite Hperm. unfold tasksWithCountdown.
    clear. induction tasks as [|t rest IH]; [reflexivity|].
    simpl. rewrite IH. unfold countdownRow.
    now destruct (countdownStatus progress currentDate t).
  - intros row status. unfold tasksOfStatus.
    rewrite list_elem_of_filter. tauto.
Qed.

(** X23. The countdown of a row is never negative; it is positive for an
    upcoming and for an overdue task, and it is NaN only for an overdue
    task whose end date or the reference date is invalid. *)
Theorem countdown_not_negative (progress : gmap string Z)
    (currentDate : string) (task : Task) :
  let row := countdownRow progress currentDate task in
  (forall n, c_countdown row = Some n ->
             0 <= n /\ (c_status row = CdUpcoming -> 0 < n)
             /\ (c_status row = CdOverdue -> 0 < n))
  /\ (c_countdown row = None ->
      c_status row = CdOverdue
      /\ (toDate currentDate = None \/ toDate (t_end task) = None)).
Proof.
  unfold countdownRow, countdownStatus.
  destruct (taskProgressOf progress task =? 100); simpl.
  { split; [intros n [= <-]; split_and!; [lia | discriminate..]
           | discriminate]. }
  destruct (daysBetween currentDate (t_start task)) as [ds|] eqn:Hds; simpl.
  - destruct (Z.ltb_spec 0 ds); simpl.
    { split; [intros n [= <-]; split_and!; [lia | lia | discriminate]
             | discriminate]. }
    destruct (daysBetween currentDate (t_end task)) as [de|] eqn:Hde; simpl.
    + destruct (Z.leb_spec 0 de); simpl;
        (split; [intros n [= <-]; split_and!; try lia; discriminate
                | discriminate]).
    + split; [discriminate|]. intros _. split; [reflexivity|].
      unfold daysBetween in Hde.
      destruct (toDate (t_end task)), (toDate currentDate); auto;
        discriminate Hde.
  - destruct (daysBetween currentDate (t_end task)) as [de|] eqn:Hde; simpl.
    + destruct (Z.leb_spec 0 de); simpl;
        (split; [intros n [= <-]; split_and!; try lia; discriminate
                | discriminate]).
    + split; [discriminate|]. intros _. split; [reflexivity|].
      unfold daysBetween in Hde.
      destruct (toDate (t_end task)), (toDate currentDate); auto;
        discriminate Hde.
Qed.

End Countdown.

Lemma countdown_not_negative_witness :
  c_countdown (countdownRow ∅ "2025-12-25" task_foundations) = Some 3
  /\ 0 < 3.
Proof.
  split; [reflexivity|].
  apply (proj1 (countdown_not_negative ∅ "2025-12-25" task_foundations) 3);
    reflexivity.
Defined.

(** ** Dashboard: overall progress and upcoming deadlines *)

Lemma sumProgress_bounds (progress : gmap string Z) (tasks : list Task)
    (lo hi : Z) :
  (forall t, t ∈ tasks -> lo <= taskProgressOf progress t <= hi) ->
  lo * Z.of_nat (length tasks) <= sumProgress progress tasks
  <= hi * Z.of_nat (length tasks).
Proof.
  unfold sumProgress.
  assert (G : forall acc,
             (forall t, t ∈ tasks -> lo <= taskProgressOf progress t <= hi) ->
             acc + lo * Z.of_nat (length tasks)
             <= fold_left (fun sum task => sum + taskProgressOf progress task)
                          tasks acc
             <= acc + hi * Z.of_nat (length tasks)).
  { induction tasks as [|t rest IH]; intros acc Hb; simpl fold_left.
    - simpl. lia.
    - specialize (IH (acc + taskProgressOf progress t)
                     (fun t' Ht' => Hb t' (list_elem_of_further _ _ _ Ht'))).
      pose proof (Hb t (list_elem_of_here _ _)).
      rewrite length_cons, Nat2Z.inj_succ. lia. }
  intros Hb. specialize (G 0 Hb). lia.
Qed.

(** X24. The overall progress of no task at all is NaN; for at least one
    task it is a number that lies between any two bounds that hold for
    every task's percentage, so between 0 and 100 when they all do, and 100
    when every task is at 100. The averages of the owner cards and of the
    PDF summary are computed the same way. *)
Theorem overallProgress_range (tasks : list Task) (progress : gmap string Z)
    (lo hi : Z) :
  overallProgress [] progress = None
  /\ (tasks <> [] ->
      (forall t, t ∈ tasks -> lo <= taskProgressOf progress t <= hi) ->
      exists v, overallProgress tasks progress = Some v /\ lo <= v <= hi).
Proof.
  split; [reflexivity|].
  intros Hne Hb. unfold overallProgress, averageProgress.
  destruct tasks as [|t rest]; [congruence|].
  eexists. split; [reflexivity|].
  pose proof (sumProgress_bounds progress (t :: rest) lo hi Hb) as Hs.
  set (n := Z.of_nat (length (t :: rest))) in *.
  assert (Hn : 0 < n) by (subst n; rewrite length_cons; lia).
  rewrite Math_round_div by exact Hn. split.
  - apply Z.div_le_lower_bound; nia.
  - apply Z.lt_succ_r, Z.div_lt_upper_bound; nia.
Qed.

Lemma overallProgress_range_witness :
  exists v,
    overallProgress [task_foundations; task_verbal; task_visual_guides]
                    {[ "foundations" := 50; "verbal" := 100 ]} = Some v
    /\ 0 <= v <= 100.
Proof.
  apply (overallProgress_range
           [task_foundations; task_verbal; task_visual_guides]
           {[ "foundations" := 50; "verbal" := 100 ]} 0 100).
  - discriminate.
  - intros t Ht. each_member Ht ltac:(vm_compute; split; discriminate).
Defined.

Lemma Sorted_take {A : Type} (R : A -> A -> Prop) (n : nat) (l : list A) :
  Sorted R l -> Sorted R (take n l).
Proof.
  intros Hs. revert n.
  induction Hs as [|x l Hl IH Hhd]; intros [|n]; simpl; try constructor.
  - apply IH.
  - destruct Hhd as [|y l' Hxy]; destruct n; simpl; constructor. exact Hxy.
Qed.

Section Milestones.
Context `{Host}.

(** X25. The dashboard lists at most five upcoming deadlines; each is a
    task below 100 percent whose end date is 0 to 30 days after the
    reference date, and they come by ascending end date. *)
Theorem upcomingMilestones_spec (tasks : list Task)
    (progress : gmap string Z) (currentDate : string) :
  let shown := upcomingMilestones tasks progress currentDate in
  (length shown <= 5)%nat
  /\ (forall t, t ∈ shown ->
                t ∈ tasks
                /\ taskProgressOf progress t < 100
                /\ exists d, daysBetween currentDate (t_end t) = Some d
                             /\ 0 <= d <= 30)
  /\ Sorted (keyLe (fun t => toDate (t_end t))) shown.
Proof.
  intros shown. subst shown. unfold upcomingMilestones.
  set (due := filter _ tasks).
  assert (Hdue : forall t, t ∈ due ->
             t ∈ tasks
             /\ taskProgressOf progress t < 100
             /\ exists d, daysBetween currentDate (t_end t) = Some d
                          /\ 0 <= d <= 30).
  { intros t Ht. apply list_elem_of_filter in Ht as [Hup Ht].
    split; [exact Ht|]. unfold isUpcomingMilestone, date_ge in Hup.
    destruct (daysBetween currentDate (t_end t)) as [d|]; [|discriminate].
    simpl in Hup. apply andb_true_iff in Hup as [Hup Hp].
    apply andb_true_iff in Hup as [H0 H30].
    apply Z.leb_le in H0, H30. apply Z.ltb_lt in Hp. eauto. }
  split_and!.
  - rewrite length_take. lia.
  - intros t Ht. apply Hdue.
    apply (subseteq_take 5) in Ht. now rewrite sortOn_Permutation in Ht.
  - apply Sorted_take, sortOn_Sorted. apply Forall_forall.
    intros t Ht. destruct (Hdue t Ht) as (_ & _ & d & Hd & _).
    unfold daysBetween in Hd.
    destruct (toDate (t_end t)); [eauto | discriminate].
Qed.

End Milestones.

(** ** Owner view and owner drop-down *)

Lemma ownerGroups_from (tasks : list Task) (groups : gmap string (list Task))
    (owner : string) :
  fold_left
    (fun groups task =>
       <[t_owner task := default [] (groups !! t_owner task) ++ [task]]> groups)
    tasks groups !! owner
  = match filter (fun t => t_owner t = owner) tasks with
    | [] => groups !! owner
    | mine => Some (default [] (groups !! owner) ++ mine)
    end.
Proof.
  revert groups. induction tasks as [|t rest IH]; intros groups;
    [reflexivity|].
  cbn [fold_left]. rewrite IH, filter_cons.
  destruct (decide (t_owner t = owner)) as [<-|Hne].
  - rewrite lookup_insert_eq. simpl.
    destruct (filter _ rest); [reflexivity|].
    now rewrite <- app_assoc.
  - now rewrite lookup_insert_ne by auto.
Qed.

Lemma ownerGroups_lookup (tasks : list Task) (owner : string) :
  ownerGroups tasks !! owner
  = match filter (fun t => t_owner t = owner) tasks with
    | [] => None
    | mine => Some mine
    end.
Proof.
  unfold ownerGroups. rewrite ownerGroups_from, lookup_empty.
  now destruct (filter _ tasks).
Qed.

Lemma filter_disjoint_length {A : Type} (P Q : A -> Prop)
    `{forall x, Decision (P x)} `{forall x, Decision (Q x)} (l : list A) :
  (forall x, P x -> Q x -> False) ->
  (length (filter P l) + length (filter Q l) <= length l)%nat.
Proof.
  intros Hd. induction l as [|x l IH]; [reflexivity|].
  rewrite !filter_cons.
  destruct (decide (P x)), (decide (Q x)); simpl; try lia.
  exfalso. eauto.
Qed.

Section Owners.
Context `{Host}.

(** X26. The owner view has a card for exactly the owners that have a
    task; the card of an owner counts that owner's tasks, lists them (in
    some order) and no others, and its completed and overdue counts
    together never exceed its total. *)
Theorem groupedByOwner_card (tasks : list Task) (progress : gmap string Z)
    (currentDate : string) (owner : string) :
  let mine := filter (fun t => t_owner t = owner) tasks in
  (is_Some (groupedByOwner tasks progress currentDate !! owner)
   <-> exists t, t ∈ tasks /\ t_owner t = owner)
  /\ (forall card,
         groupedByOwner tasks progress currentDate !! owner = Some card ->
         g_owner card = owner
         /\ g_total card = length mine
         /\ (0 < g_total card)%nat
         /\ g_tasks card ≡ₚ mine
         /\ (g_completed card + g_overdue card <= g_total card)%nat
         /\ is_Some (g_avgProgress card)).
Proof.
  intros mine. unfold groupedByOwner.
  rewrite map_lookup_imap, ownerGroups_lookup. fold mine.
  split.
  - split.
    + destruct mine as [|t rest] eqn:E; [intros [? ?]; discriminate|].
      intros _. exists t.
      assert (Ht : t ∈ mine) by (rewrite E; apply list_elem_of_here).
      apply list_elem_of_filter in Ht as [? ?]. auto.
    + intros (t & Ht & Ho).
      assert (Hin : t ∈ mine) by (apply list_elem_of_filter; auto).
      destruct mine; [now apply elem_of_nil in Hin | simpl; eauto].
  - intros card. destruct mine as [|t rest] eqn:E; [discriminate|].
    simpl. intros [= <-]. unfold ownerGroup. simpl.
    split_and!; try reflexivity.
    + lia.
    + apply (sortOn_Permutation _ (t :: rest)).
    + apply (filter_disjoint_length _ _ (t :: rest)).
      intros x E100 Hover. apply andb_true_iff in Hover as [_ Hlt].
      apply Z.ltb_lt in Hlt. lia.
    + eauto.
Qed.

End Owners.

Lemma groupedByOwner_card_witness :
  let tasks := [task_foundations; task_verbal; task_visual_guides] in
  let progress : gmap string Z := {[ "verbal" := 100 ]} in
  is_Some (groupedByOwner tasks progress "2026-03-01" !! "Design")
  /\ groupedByOwner tasks progress "2026-03-01" !! "Product" = None.
Proof.
  intros tasks progress. split.
  - apply (proj1 (groupedByOwner_card tasks progress "2026-03-01" "Design")).
    exists task_visual_guides. split; [|reflexivity].
    apply list_elem_of_In. vm_compute. auto.
  - reflexivity.
Defined.

Lemma insertString_elem (x y : string) (l : list string) :
  y ∈ insertString x l <-> y = x \/ y ∈ l.
Proof.
  induction l as [|z rest IH]; simpl.
  - rewrite list_elem_of_singleton, elem_of_nil. tauto.
  - destruct (String.leb x z); [apply elem_of_cons|].
    rewrite !elem_of_cons, IH. tauto.
Qed.

Lemma sortStrings_elem (y : string) (l : list string) :
  y ∈ sortStrings l <-> y ∈ l.
Proof.
  induction l as [|x rest IH]; simpl; [reflexivity|].
  rewrite insertString_elem, elem_of_cons, IH. reflexivity.
Qed.

Lemma insertString_NoDup (x : string) (l : list string) :
  x ∉ l -> NoDup l -> NoDup (insertString x l).
Proof.
  intros Hx Hnd. induction Hnd as [|z rest Hz Hrest IH]; simpl.
  - apply NoDup_singleton.
  - apply not_elem_of_cons in Hx as [Hxz Hx].
    destruct (String.leb x z).
    + apply NoDup_cons. split; [|now apply NoDup_cons].
      apply not_elem_of_cons. auto.
    + apply NoDup_cons. split; [|now apply IH].
      rewrite insertString_elem. intros [?|?]; auto.
Qed.

Lemma sortStrings_NoDup (l : list string) : NoDup l -> NoDup (sortStrings l).
Proof.
  induction 1 as [|x rest Hx Hrest IH]; simpl; [constructor|].
  apply insertString_NoDup; [|exact IH]. now rewrite sortStrings_elem.
Qed.

Lemma insertString_Sorted (x : string) (l : list string) :
  Sorted (fun a b => String.leb a b = true) l ->
  Sorted (fun a b => String.leb a b = true) (insertString x l).
Proof.
  intros Hs. induction Hs as [|z rest Hrest IH Hhd]; simpl.
  - repeat constructor.
  - destruct (String.leb x z) eqn:Hle.
    + constructor; [now constructor | now constructor].
    + constructor; [exact IH|].
      assert (Hzx : String.leb z x = true)
        by (destruct (String.leb_total x z); congruence).
      destruct Hhd as [|w rest' Hzw]; simpl.
      * now constructor.
      * destruct (String.leb x w); now constructor.
Qed.

Lemma sortStrings_Sorted (l : list string) :
  Sorted (fun a b => String.leb a b = true) (sortStrings l).
Proof.
  induction l as [|x rest IH]; simpl; [constructor|].
  now apply insertString_Sorted.
Qed.

Lemma setValues_elem (seen : gset string) (values : list string) (y : string) :
  y ∈ setValues seen values <-> y ∈ values /\ y ∉ seen.
Proof.
  revert seen. induction values as [|v rest IH]; intros seen; simpl.
  - rewrite elem_of_nil. tauto.
  - case_bool_decide as Hv.
    + rewrite IH, elem_of_cons. split; [tauto|].
      intros [[->|?] ?]; tauto.
    + rewrite !elem_of_cons, IH, not_elem_of_union, not_elem_of_singleton.
      split.
      * intros [->|[? [? ?]]]; auto.
      * intros [[->|?] ?]; [auto|].
        destruct (decide (y = v)); auto.
Qed.

Lemma setValues_NoDup (seen : gset string) (values : list string) :
  NoDup (setValues seen values).
Proof.
  revert seen. induction values as [|v rest IH]; intros seen; simpl.
  - constructor.
  - case_bool_decide; [apply IH|].
    apply NoDup_cons. split; [|apply IH].
    rewrite setValues_elem, not_elem_of_union, not_elem_of_singleton. tauto.
Qed.

(** X27. The owner drop-down lists the owners of the effective tasks,
    each once, in ascending order of their code units. *)
Theorem uniqueOwners_spec `{Host} (rows : list Row) :
  (forall owner,
      owner ∈ uniqueOwners rows
      <-> exists row, row ∈ rows /\ t_owner (r_task row) = owner)
  /\ NoDup (uniqueOwners rows)
  /\ Sorted (fun a b => String.leb a b = true) (uniqueOwners rows).
Proof.
  unfold uniqueOwners. split_and!.
  - intros owner. rewrite sortStrings_elem, setValues_elem.
    change (@map) with (@fmap list _). rewrite list_elem_of_fmap.
    split.
    + intros [(row & -> & Hrow) _]. eauto.
    + intros (row & Hrow & <-). split; [eauto | apply not_elem_of_empty].
  - apply sortStrings_NoDup, setValues_NoDup.
  - apply sortStrings_Sorted.
Qed.

(** ** Gantt bars *)

(** X28. Clipping a bar gives its intersection with the visible window,
    stretched to one day when that is shorter: the new offset is the
    larger of the two starts, the new length runs to the smaller of the
    two ends and is at least 1. A bar that lies inside the window is not
    changed. *)
Theorem clipBar_intersection `{Host}
    (offset length visibleStart visibleEnd : Z) :
  clipBar (Some offset) (Some length) (Some visibleStart) (Some visibleEnd)
  = (Some (Z.max offset visibleStart),
     Some (Z.max 1 (Z.min (offset + length) visibleEnd
                    - Z.max offset visibleStart)))
  /\ (visibleStart <= offset -> offset + length <= visibleEnd ->
      1 <= length ->
      clipBar (Some offset) (Some length) (Some visibleStart) (Some visibleEnd)
      = (Some offset, Some length))
  /\ (forall kickoff rows progress currentDate rangeStart rangeEnd bar n,
         bar ∈ enrichedTasks kickoff rows progress currentDate rangeStart
                 rangeEnd ->
         b_length bar = Some n -> 1 <= n).
Proof.
  assert (E : clipBar (Some offset) (Some length) (Some visibleStart)
                      (Some visibleEnd)
              = (Some (Z.max offset visibleStart),
                 Some (Z.max 1 (Z.min (offset + length) visibleEnd
                                - Z.max offset visibleStart)))).
  { unfold clipBar, date_gt. simpl.
    destruct (Z.ltb_spec offset visibleStart),
      (Z.ltb_spec visibleEnd (offset + length)); simpl;
      do 2 f_equal; lia. }
  split_and!; [exact E | |].
  - intros Hs He Hl. rewrite E. do 2 f_equal; lia.
  - intros kickoff rows progress currentDate rangeStart rangeEnd bar n Hbar.
    unfold enrichedTasks in Hbar. change (@map) with (@fmap list _) in Hbar.
    apply list_elem_of_fmap in Hbar as (row & -> & _).
    unfold clipBar.
    destruct (date_lt _ _); destruct (date_gt _ _); simpl;
      match goal with
      | |- Z.max 1 <$> ?v = Some n -> _ =>
          destruct v; simpl; intros [= <-]; lia
      end.
Qed.

Lemma clipBar_intersection_witness :
  clipBar (Some 14) (Some 46) (Some 21) (Some 51) = (Some 21, Some 30)
  /\ clipBar (Some 30) (Some 10) (Some 21) (Some 51) = (Some 30, Some 10).
Proof.
  split.
  - exact (proj1 (clipBar_intersection 14 46 21 51)).
  - apply (proj1 (proj2 (clipBar_intersection 30 10 21 51))); lia.
Defined.

Section ClearedDate.
Context `{Host}.

(** X29. With a reference date that is not a date (the date input
    cleared), a task below 100 percent is shown as In Progress by the
    owner view, as overdue with a NaN countdown by the countdown list, as
    not started by the Gantt chart, is in no counter of the dashboard and
    is hidden by each of the four status filters. *)
Theorem invalid_reference_date (progress : gmap string Z)
    (currentDate : string) (task : Task) :
  toDate currentDate = None ->
  taskProgressOf progress task <> 100 ->
  getTaskStatus progress currentDate task = InProgress
  /\ countdownStatus progress currentDate task = (CdOverdue, None)
  /\ ganttStatus progress currentDate task = "not-started"
  /\ statsBucket progress currentDate task = None
  /\ (forall s, matchesStatus (statusKey s) progress currentDate task = false).
Proof.
  intros Hd Hp.
  unfold getTaskStatus, countdownStatus, ganttStatus, statsBucket,
    matchesStatus, daysBetween, date_gt, date_ge.
  rewrite Hd. apply Z.eqb_neq in Hp. rewrite Hp.
  destruct (toDate (t_start task)), (toDate (t_end task)); simpl;
    (split_and!; try reflexivity; intros []; reflexivity).
Qed.

End ClearedDate.

Lemma invalid_reference_date_witness :
  getTaskStatus ∅ "" task_foundations = InProgress
  /\ countdownStatus ∅ "" task_foundations = (CdOverdue, None)
  /\ ganttStatus ∅ "" task_foundations = "not-started"
  /\ statsBucket ∅ "" task_foundations = None
  /\ (forall s, matchesStatus (statusKey s) ∅ "" task_foundations = false).
Proof.
  apply (invalid_reference_date ∅ "" task_foundations).
  - reflexivity.
  - vm_compute. discriminate.
Defined.

(** ** The table of the PDF export *)

Lemma rowY_zero : rowY 0 = 48.
Proof. reflexivity. Qed.

Lemma rowY_step (k : nat) :
  (if 190 <? rowY k + 7 then 15 else rowY k + 7) = rowY (S k).
Proof.
  unfold rowY. rewrite Nat2Z.inj_succ.
  destruct (Z.ltb_spec (Z.of_nat k) 21) as [Hk|Hk];
    destruct (Z.ltb_spec (Z.succ (Z.of_nat k)) 21) as [Hk'|Hk'];
    try lia.
  - destruct (Z.ltb_spec 190 (48 + 7 * Z.of_nat k + 7)); lia.
  - replace (Z.succ (Z.of_nat k) - 21) with 0 by lia.
    destruct (Z.ltb_spec 190 (48 + 7 * Z.of_nat k + 7)); [reflexivity | lia].
  - pose proof (Z.mod_pos_bound (Z.of_nat k - 21) 26 ltac:(lia)) as B.
    destruct (Z.ltb_spec 190 (15 + 7 * ((Z.of_nat k - 21) mod 26) + 7))
      as [Hbreak|Hstay].
    + assert (Em : (Z.of_nat k - 21) mod 26 = 25) by lia.
      replace (Z.succ (Z.of_nat k) - 21) with (Z.of_nat k - 21 + 1) by lia.
      rewrite Z.add_mod, Em by lia. reflexivity.
    + assert (Em : (Z.of_nat k - 21) mod 26 < 25) by lia.
      replace (Z.succ (Z.of_nat k) - 21) with (Z.of_nat k - 21 + 1) by lia.
      rewrite Z.add_mod by lia.
      rewrite (Z.mod_small 1 26) by lia.
      rewrite (Z.mod_small ((Z.of_nat k - 21) mod 26 + 1) 26) by lia. lia.
Qed.

Lemma rowY_bounds (k : nat) : 15 <= rowY k <= 190.
Proof.
  unfold rowY. destruct (Z.ltb_spec (Z.of_nat k) 21); [lia|].
  pose proof (Z.mod_pos_bound (Z.of_nat k - 21) 26 ltac:(lia)). lia.
Qed.

Lemma pdfRow_draws (progress : gmap string Z) (task : Row) (idx : nat)
    (y : Z) :
  let drawn := if 190 <? y then 15 else y in
  snd (pdfRow progress task idx y) = drawn + 7
  /\ firstColumnYs (fst (pdfRow progress task idx y)) = [drawn]
  /\ (forall text x yy,
         DocText text x yy ∈ fst (pdfRow progress task idx y) -> yy = drawn).
Proof.
  unfold pdfRow. destruct (190 <? y); destruct (idx mod 2 =? 0)%nat; simpl;
    (split_and!; [reflexivity | reflexivity |]);
    intros text x yy Hin;
    repeat (apply elem_of_cons in Hin as [Hin|Hin];
            [try discriminate Hin; injection Hin; congruence|]);
    now apply elem_of_nil in Hin.
Qed.

Lemma pdfRows_layout (progress : gmap string Z) (tasks : list Row)
    (idx : nat) (y : Z) :
  (if 190 <? y then 15 else y) = rowY idx ->
  firstColumnYs (pdfRows progress tasks idx y)
  = rowY <$> seq idx (length tasks)
  /\ (forall text x yy,
         DocText text x yy ∈ pdfRows progress tasks idx y -> 15 <= yy <= 190).
Proof.
  revert idx y. induction tasks as [|task rest IH]; intros idx y Hy.
  - split; [reflexivity|]. intros text x yy Hin. now apply elem_of_nil in Hin.
  - cbn [pdfRows].
    destruct (pdfRow_draws progress task idx y) as (Hnext & Hfirst & Hdrawn).
    destruct (pdfRow progress task idx y) as [ops y'] eqn:Erow.
    cbn [fst snd] in *. rewrite Hy in *.
    destruct (IH (S idx) y') as [IHys IHb].
    { rewrite Hnext. apply rowY_step. }
    split.
    + unfold firstColumnYs in *. rewrite omap_app, Hfirst, IHys. reflexivity.
    + intros text x yy [Hin|Hin]%elem_of_app.
      * rewrite (Hdrawn _ _ _ Hin). apply rowY_bounds.
      * eapply IHb, Hin.
Qed.

(** X30. In the table of the PDF, row number k (from 0) is drawn at
    [rowY k]: 21 rows on the first page, starting at y = 48, then 26 rows
    on every further page, starting at y = 15, 7 units apart. No text of
    the table is placed above y = 15 or below y = 190. *)
Theorem pdfTable_layout (progress : gmap string Z) (tasks : list Row) :
  firstColumnYs (pdfTable progress tasks) = rowY <$> seq 0 (length tasks)
  /\ (forall text x y,
         DocText text x y ∈ pdfTable progress tasks -> 15 <= y <= 190).
Proof. unfold pdfTable. apply pdfRows_layout. reflexivity. Qed.

Lemma pdfTable_layout_witness :
  let rows := replicate 23 (buildRow KICKOFF task_foundations) in
  firstColumnYs (pdfTable ∅ rows)
  = [48; 55; 62; 69; 76; 83; 90; 97; 104; 111; 118; 125; 132; 139; 146; 153;
     160; 167; 174; 181; 188; 15; 22]
  /\ 15 <= 188 <= 190.
Proof.
  intros rows. split.
  - rewrite (proj1 (pdfTable_layout ∅ rows)). reflexivity.
  - apply (proj2 (pdfTable_layout ∅ rows) "Brand Foundations" 17 188).
    apply list_elem_of_In. vm_compute. tauto.
Defined.

Lemma upcomingMilestones_spec_witness :
  let tasks := [task_verbal; task_foundations; task_visual_guides] in
  let progress : gmap string Z := {[ "verbal" := 50 ]} in
  upcomingMilestones tasks progress "2025-12-20"
    = [task_foundations; task_verbal]
  /\ taskProgressOf progress task_verbal < 100.
Proof.
  intros tasks progress. split; [reflexivity|].
  apply (proj1 (proj2 (upcomingMilestones_spec tasks progress "2025-12-20"))
           task_verbal).
  apply list_elem_of_In. vm_compute. auto.
Defined.

Lemma countdown_groups_partition_witness :
  let tasks := [task_verbal; task_foundations; task_visual_guides] in
  let sorted := sortedTasks tasks {[ "verbal" := 100 ]} "" in
  (length (tasksOfStatus CdOverdue sorted) = 2)%nat
  /\ (length (tasksOfStatus CdCompleted sorted) = 1)%nat
  /\ (length (tasksOfStatus CdUpcoming sorted)
      + length (tasksOfStatus CdInProgress sorted)
      + length (tasksOfStatus CdOverdue sorted)
      + length (tasksOfStatus CdCompleted sorted))%nat
     = 3%nat.
Proof.
  intros tasks sorted. split_and!; [reflexivity | reflexivity |].
  exact (proj1 (countdown_groups_partition tasks {[ "verbal" := 100 ]} "")).
Defined.

Lemma uniqueOwners_spec_witness :
  let rows :=
    allTasks KICKOFF
      [task_verbal; task_foundations; task_visual_guides; task_foundations]
      ∅ [] ∅ in
  uniqueOwners rows = ["Design"; "Leadership"; "Marketing"]
  /\ NoDup (uniqueOwners rows).
Proof.
  intros rows. split; [reflexivity|].
  exact (proj1 (proj2 (uniqueOwners_spec rows))).
Defined.

(* ===================================================================== *)
(** * Part IV: weighted progress in binary64                              *)
(* ===================================================================== *)

Lemma total64By_flagsOf (subtasks : list Subtask)
    (completed : gmap string bool) :
  totalProgress64 subtasks completed
  = total64By subtasks (flagsOf subtasks completed).
Proof.
  unfold totalProgress64, total64By, flagsOf. generalize (toDouble 0).
  induction subtasks as [|s rest IH]; intros acc; [reflexivity|].
  cbn [fold_left map zip zip_with fst snd]. apply IH.
Qed.

Lemma weightBy_flagsOf (subtasks : list Subtask)
    (completed : gmap string bool) :
  completedWeight subtasks completed
  = weightBy subtasks (flagsOf subtasks completed).
Proof.
  unfold completedWeight, weightBy, flagsOf.
  induction subtasks as [|s rest IH]; [reflexivity|].
  cbn [map zip zip_with]. rewrite !filter_cons. cbn [snd].
  destruct (completed !! s_id s) as [[|]|]; cbn [default];
    repeat case_decide; try congruence; cbn [map fold_right fst];
    now rewrite IH.
Qed.

Lemma allFlags_complete (flags : list bool) :
  flags ∈ allFlags (length flags).
Proof.
  induction flags as [|b rest IH]; cbn [allFlags length].
  - apply list_elem_of_here.
  - apply elem_of_app. destruct b; [left | right];
      change (@map) with (@fmap list _); apply list_elem_of_fmap; eauto.
Qed.

(** What the check [agrees] establishes for a task. *)
Lemma agrees_spec (subtasks : list Subtask) (completed : gmap string bool) :
  agrees subtasks = true ->
  Math_round64 (totalProgress64 subtasks completed)
  = NInt (Math_round (100 * completedWeight subtasks completed)).
Proof.
  intros Hagree. unfold agrees in Hagree.
  rewrite total64By_flagsOf, weightBy_flagsOf.
  rewrite forallb_forall in Hagree.
  assert (Hin : In (flagsOf subtasks completed) (allFlags (length subtasks))).
  { apply list_elem_of_In.
    replace (length subtasks) with (length (flagsOf subtasks completed))
      by apply length_map.
    apply allFlags_complete. }
  apply Hagree in Hin. now apply bool_decide_eq_true in Hin.
Qed.

(** Every task of the program's table passes the check, over all its
    completion flags. *)
Lemma subtaskTable_agrees (taskId : string) (subtasks : list Subtask) :
  subtaskDefinitions !! taskId = Some subtasks -> agrees subtasks = true.
Proof.
  intros Hd. apply elem_of_list_to_map_2, list_elem_of_In in Hd.
  assert (Hall : forallb (fun entry => agrees (snd entry)) subtaskTable = true)
    by (vm_compute; reflexivity).
  rewrite forallb_forall in Hall. exact (Hall _ Hd).
Qed.

Lemma subtaskTable_weights (taskId : string) (subtasks : list Subtask) :
  subtaskDefinitions !! taskId = Some subtasks ->
  (totalWeight subtasks == 1)%Q.
Proof.
  intros Hd. apply elem_of_list_to_map_2, list_elem_of_In in Hd.
  assert (Hall : forallb (fun entry => Qeq_bool (totalWeight (snd entry)) 1)
                         subtaskTable = true)
    by (vm_compute; reflexivity).
  rewrite forallb_forall in Hall. apply Qeq_bool_eq. exact (Hall _ Hd).
Qed.

Lemma if_same_NInt0 (b : bool) : (if b then NInt 0 else NInt 0) = NInt 0.
Proof. now destruct b. Qed.

Lemma fillMissing64_lookup (rows : list Row) (result : gmap string number)
    (taskId : string) :
  fillMissing64 result rows !! taskId
  = match result !! taskId with
    | Some v =>
        Some (if bool_decide (taskId ∈ rowIds rows)
                 && falsy_number64 (Some v)
              then NInt 0 else v)
    | None => if bool_decide (taskId ∈ rowIds rows) then Some (NInt 0) else None
    end.
Proof.
  unfold fillMissing64, rowIds. revert result.
  induction rows as [|row rest IH]; intros result.
  - cbn [fold_left map].
    rewrite bool_decide_eq_false_2 by apply not_elem_of_nil.
    now destruct (result !! taskId).
  - cbn [fold_left map]. rewrite IH.
    destruct (decide (t_id (r_task row) = taskId)) as [E|Hne].
    + rewrite E. rewrite (bool_decide_eq_true_2 (taskId ∈ taskId :: _))
        by apply list_elem_of_here.
      destruct (result !! taskId) as [v|] eqn:Hv.
      * destruct (falsy_number64 (Some v)) eqn:Hf.
        -- rewrite lookup_insert_eq. cbn. now rewrite andb_true_r, if_same_NInt0.
        -- rewrite Hv, Hf, andb_false_r. reflexivity.
      * cbn [falsy_number64]. rewrite lookup_insert_eq. cbn.
        now rewrite andb_true_r, if_same_NInt0.
    + assert (Hmem : bool_decide (taskId ∈ t_id (r_task row) :: map
                        (fun row => t_id (r_task row)) rest)
                     = bool_decide (taskId ∈ map
                        (fun row => t_id (r_task row)) rest)).
      { apply bool_decide_ext. rewrite elem_of_cons. split; [|auto].
        intros [?|?]; [congruence | assumption]. }
      rewrite Hmem.
      destruct (falsy_number64 (result !! t_id (r_task row)));
        [now rewrite lookup_insert_ne by auto | reflexivity].
Qed.

(** With no subtask ticked the total stays at its initial 0. *)
Lemma totalProgress64_none (subtasks : list Subtask)
    (completed : gmap string bool) :
  (forall s, s ∈ subtasks -> default false (completed !! s_id s) = false) ->
  totalProgress64 subtasks completed = toDouble 0.
Proof.
  unfold totalProgress64. generalize (toDouble 0).
  induction subtasks as [|s rest IH]; intros acc Hall; [reflexivity|].
  cbn [fold_left]. rewrite (Hall s) by apply list_elem_of_here.
  apply IH. intros s' Hs'. apply Hall. now apply list_elem_of_further.
Qed.

(** The loop of the program adds what the filtered sum adds. *)
Lemma totalProgress64_completed (subtasks : list Subtask)
    (completed : gmap string bool) :
  totalProgress64 subtasks completed = completedTotal64 subtasks completed.
Proof.
  unfold totalProgress64, completedTotal64. generalize (toDouble 0).
  induction subtasks as [|s rest IH]; intros acc; [reflexivity|].
  cbn [fold_left]. rewrite filter_cons.
  destruct (completed !! s_id s) as [[|]|] eqn:Hs; cbn [default id];
    case_decide as D; try congruence; cbn [map fold_left]; apply IH.
Qed.

(** Every entry of [progress64], in one equation. *)
Lemma progress64_lookup (defs : gmap string (list Subtask))
    (done : gmap string (gmap string bool)) (rows : list Row)
    (taskId : string) :
  progress64 defs done rows !! taskId
  = match defs !! taskId with
    | Some subtasks =>
        let v := Math_round64
                   (totalProgress64 subtasks (default ∅ (done !! taskId))) in
        Some (if bool_decide (taskId ∈ rowIds rows)
                 && falsy_number64 (Some v)
              then NInt 0 else v)
    | None => if bool_decide (taskId ∈ rowIds rows) then Some (NInt 0) else None
    end.
Proof.
  unfold progress64. rewrite fillMissing64_lookup.
  unfold progressOfDefinitions64. rewrite map_lookup_imap.
  now destruct (defs !! taskId).
Qed.

Lemma progress64_integer (defs : gmap string (list Subtask))
    (done : gmap string (gmap string bool)) (rows : list Row)
    (taskId : string) (subtasks : list Subtask) (z : Z) :
  defs !! taskId = Some subtasks ->
  Math_round64 (totalProgress64 subtasks (default ∅ (done !! taskId)))
    = NInt z ->
  progress64 defs done rows !! taskId = Some (NInt z).
Proof.
  intros Hd Hz. rewrite progress64_lookup, Hd. cbn zeta. rewrite Hz.
  cbn [falsy_number64]. destruct (Z.eqb_spec z 0) as [->|_].
  - now rewrite if_same_NInt0.
  - now rewrite andb_false_r.
Qed.

(** On the table of the program the doubles give, for every completion
    map and every task list, the percentages that exact arithmetic
    gives. *)
Lemma progress64_on_table (done : gmap string (gmap string bool))
    (rows : list Row) :
  progress64 subtaskDefinitions done rows
  = NInt <$> progress subtaskDefinitions done rows.
Proof.
  apply map_eq. intros taskId. rewrite lookup_fmap, progress_lookup.
  destruct (subtaskDefinitions !! taskId) as [subtasks|] eqn:Hd.
  - cbn. apply (progress64_integer _ _ _ _ subtasks); [exact Hd|].
    rewrite (agrees_spec _ _ (subtaskTable_agrees _ _ Hd)). f_equal.
    symmetry. apply Math_round_Qeq, totalProgress_weight.
  - rewrite progress64_lookup, Hd. now case_bool_decide.
Qed.

(** A table with one subtask of weight 0.145, ticked: the doubles give
    14.499999999999998 and so 14, where 100 times the weight is 14.5 and
    rounds to 15. C1 as stated, for every table, fails. *)
Lemma progress64_weighted_sum_counterexample :
  let subtasks :=
    [ {| s_id := "s"; s_label := "S"; s_weight := 0.145%Q;
         s_description := "" |} ] in
  let defs : gmap string (list Subtask) := {[ "t" := subtasks ]} in
  let done : gmap string (gmap string bool) := {[ "t" := {[ "s" := true ]} ]} in
  progress64 defs done [] !! "t" = Some (NInt 14)
  /\ Math_round (100 * completedWeight subtasks {[ "s" := true ]}) = 15
  /\ ~ (forall (defs : gmap string (list Subtask))
               (done : gmap string (gmap string bool)) (rows : list Row)
               (taskId : string) (subtasks : list Subtask),
           defs !! taskId = Some subtasks ->
           progress64 defs done rows !! taskId
           = Some (NInt (Math_round
                           (100 * completedWeight subtasks
                                    (default ∅ (done !! taskId)))))).
Proof.
  intros subtasks defs done.
  assert (E : progress64 defs done [] !! "t" = Some (NInt 14))
    by (vm_compute; reflexivity).
  split_and!; [exact E | reflexivity |].
  intros claim. specialize (claim defs done [] "t" subtasks eq_refl).
  rewrite E in claim. discriminate claim.
Qed.

(** C1 (amended). For every subtask-definition table, completion map and
    effective task list, [progress] maps each task id that has a
    subtask-definition entry to the rounding of the sum the program's
    doubles give: 100 times each completed weight, added in the order of
    the table (a sum that is not a number is stored as 0 for an effective
    task); for the subtask-definition table of the program this is
    [round (100 * the sum of the weights of its completed subtasks)] for
    every completion map; every other effective task id is mapped to 0;
    and a task whose subtasks weigh 0.25, 0.25, 0.2, 0.2, 0.1 with
    exactly the first two complete gets 50. *)
Theorem progress64_weighted_sum :
  (forall (defs : gmap string (list Subtask))
          (done : gmap string (gmap string bool)) (rows : list Row)
          (taskId : string) (subtasks : list Subtask),
      defs !! taskId = Some subtasks ->
      progress64 defs done rows !! taskId
      = Some (match Math_round64
                      (completedTotal64 subtasks (default ∅ (done !! taskId)))
              with
              | NNaN => if bool_decide (taskId ∈ rowIds rows)
                        then NInt 0 else NNaN
              | percent => percent
              end))
  /\ (forall (done : gmap string (gmap string bool)) (rows : list Row)
             (taskId : string) (subtasks : list Subtask),
         subtaskDefinitions !! taskId = Some subtasks ->
         progress64 subtaskDefinitions done rows !! taskId
         = Some (NInt (Math_round
                         (100 * completedWeight subtasks
                                  (default ∅ (done !! taskId))))))
  /\ (forall (defs : gmap string (list Subtask))
             (done : gmap string (gmap string bool)) (rows : list Row)
             (taskId : string),
         defs !! taskId = None ->
         taskId ∈ rowIds rows ->
         progress64 defs done rows !! taskId = Some (NInt 0))
  /\ (forall (defs : gmap string (list Subtask))
             (done : gmap string (gmap string bool)) (rows : list Row)
             (taskId : string) (subtasks : list Subtask)
             (completed : gmap string bool),
         defs !! taskId = Some subtasks ->
         done !! taskId = Some completed ->
         s_weight <$> subtasks = [0.25; 0.25; 0.2; 0.2; 0.1]%Q ->
         (fun subtask => default false (completed !! s_id subtask))
           <$> subtasks = [true; true; false; false; false] ->
         progress64 defs done rows !! taskId = Some (NInt 50)).
Proof.
  split_and!.
  - intros defs done rows taskId subtasks Hd.
    rewrite progress64_lookup, Hd. cbn zeta.
    rewrite totalProgress64_completed.
    destruct (Math_round64 _) as [z| |negative]; cbn [falsy_number64].
    + destruct (Z.eqb_spec z 0) as [->|_].
      * now rewrite if_same_NInt0.
      * now rewrite andb_false_r.
    + rewrite andb_true_r. reflexivity.
    + rewrite andb_false_r. reflexivity.
  - intros done rows taskId subtasks Hd.
    rewrite progress64_on_table, lookup_fmap.
    now rewrite (progress_defined _ _ _ _ _ Hd).
  - intros defs done rows taskId Hd Hin.
    rewrite progress64_lookup, Hd. now rewrite bool_decide_eq_true_2.
  - intros defs done rows taskId subtasks completed Hd Hc Hw Hf.
    apply (progress64_integer _ _ _ _ subtasks); [exact Hd|].
    rewrite Hc. change (default ∅ (Some completed)) with completed.
    rewrite total64By_flagsOf.
    destruct subtasks as [|s1 [|s2 [|s3 [|s4 [|s5 [|s6 rest]]]]]];
      try discriminate Hw.
    injection Hw as W1 W2 W3 W4 W5. injection Hf as F1 F2 F3 F4 F5.
    unfold total64By, flagsOf. cbn [map].
    rewrite F1, F2, F3, F4, F5. cbn [zip zip_with fold_left fst snd].
    rewrite W1, W2. vm_compute. reflexivity.
Qed.

(** The [foundations] task of the program with Mission and Vision ticked
    is at 50 percent, [verbal] with Brand Pillars and Tagline at 45, and
    a task without definitions at 0; a lone subtask of weight 0.145,
    ticked, gives 14. *)
Lemma progress64_weighted_sum_witness :
  let done : gmap string (gmap string bool) :=
    {[ "foundations" :=
         list_to_map [("mission", true); ("vision", true); ("values", false)];
       "verbal" := list_to_map [("pillars", true); ("tagline", true)] ]} in
  let rows :=
    allTasks KICKOFF
      [task_foundations; task_verbal;
       {| t_id := "custom_1_abc"; t_label := "Press kit";
          t_start := "2026-02-02"; t_end := "2026-02-06";
          t_owner := "Marketing"; t_category := None |}]
      ∅ [] ∅ in
  progress64 subtaskDefinitions done rows !! "foundations" = Some (NInt 50)
  /\ progress64 subtaskDefinitions done rows !! "verbal" = Some (NInt 45)
  /\ progress64 subtaskDefinitions done rows !! "custom_1_abc"
     = Some (NInt 0)
  /\ progress64
       {[ "t" := [ {| s_id := "s"; s_label := "S"; s_weight := 0.145%Q;
                      s_description := "" |} ] ]}
       {[ "t" := {[ "s" := true ]} ]} rows !! "t"
     = Some (NInt 14).
Proof.
  intros done rows. split_and!.
  - apply (proj2 (proj2 (proj2 progress64_weighted_sum)) subtaskDefinitions
             done rows "foundations" foundationsSubtasks
             (list_to_map [("mission", true); ("vision", true);
                           ("values", false)]));
      reflexivity.
  - pose proof (proj1 (proj2 progress64_weighted_sum) done rows "verbal" _
                  eq_refl) as E.
    rewrite E. vm_compute. reflexivity.
  - apply (proj1 (proj2 (proj2 progress64_weighted_sum)) subtaskDefinitions
             done rows "custom_1_abc").
    + reflexivity.
    + apply list_elem_of_In. vm_compute. auto.
  - pose proof (proj1 progress64_weighted_sum
                  {[ "t" := [ {| s_id := "s"; s_label := "S";
                                 s_weight := 0.145%Q;
                                 s_description := "" |} ] ]}
                  {[ "t" := {[ "s" := true ]} ]} rows "t" _ eq_refl) as E.
    rewrite E. vm_compute. reflexivity.
Defined.

(** X5. For every task of the program's table, "check all" puts the task
    at 100, its weights summing to 1, as the engine computes it in
    doubles; for every table, "uncheck all" puts a task at 0, and neither
    changes the percentage of another task. *)
Theorem toggleAllSubtasks_progress64 :
  (forall (sp : gmap string (gmap string bool)) (rows : list Row)
          (taskId : string) (subtasks : list Subtask),
      subtaskDefinitions !! taskId = Some subtasks ->
      progress64 subtaskDefinitions
        (toggleAllSubtasks subtaskDefinitions taskId true sp) rows !! taskId
      = Some (NInt 100))
  /\ (forall (defs : gmap string (list Subtask))
             (sp : gmap string (gmap string bool)) (rows : list Row)
             (taskId : string) (subtasks : list Subtask),
         defs !! taskId = Some subtasks ->
         progress64 defs (toggleAllSubtasks defs taskId false sp) rows
           !! taskId
         = Some (NInt 0))
  /\ (forall (defs : gmap string (list Subtask))
             (sp : gmap string (gmap string bool)) (rows : list Row)
             (taskId other : string) (checked : bool),
         other <> taskId ->
         progress64 defs (toggleAllSubtasks defs taskId checked sp) rows
           !! other
         = progress64 defs sp rows !! other).
Proof.
  split_and!.
  - intros sp rows taskId subtasks Hd.
    rewrite progress64_on_table, lookup_fmap.
    destruct (toggleAllSubtasks_exact subtaskDefinitions sp rows taskId
                subtasks Hd) as (_ & H100 & _).
    now rewrite (H100 (subtaskTable_weights _ _ Hd)).
  - intros defs sp rows taskId subtasks Hd.
    apply (progress64_integer _ _ _ _ subtasks); [exact Hd|].
    unfold toggleAllSubtasks. rewrite lookup_insert_eq, Hd.
    change (default ∅ (Some ?m)) with m. change (default [] (Some ?l)) with l.
    rewrite totalProgress64_none; [vm_compute; reflexivity|].
    intros s Hs. rewrite fromEntries_lookup.
    rewrite bool_decide_eq_true_2; [reflexivity|].
    apply list_elem_of_In, in_map, list_elem_of_In, Hs.
  - intros defs sp rows taskId other checked Hne.
    rewrite !progress64_lookup. unfold toggleAllSubtasks.
    now rewrite lookup_insert_ne by auto.
Qed.

Lemma toggleAllSubtasks_progress64_witness :
  let rows := allTasks KICKOFF [task_foundations; task_verbal] ∅ [] ∅ in
  let sp : gmap string (gmap string bool) :=
    {[ "verbal" := {[ "pillars" := true ]} ]} in
  progress64 subtaskDefinitions
    (toggleAllSubtasks subtaskDefinitions "foundations" true sp) rows
    !! "foundations" = Some (NInt 100)
  /\ progress64 subtaskDefinitions
       (toggleAllSubtasks subtaskDefinitions "verbal" false sp) rows
       !! "verbal" = Some (NInt 0)
  /\ progress64 subtaskDefinitions
       (toggleAllSubtasks subtaskDefinitions "foundations" true sp) rows
       !! "verbal" = Some (NInt 30).
Proof.
  intros rows sp. split_and!.
  - apply (proj1 toggleAllSubtasks_progress64 sp rows "foundations"
             foundationsSubtasks).
    reflexivity.
  - eapply (proj1 (proj2 toggleAllSubtasks_progress64) subtaskDefinitions sp
              rows "verbal").
    vm_compute. reflexivity.
  - rewrite (proj2 (proj2 toggleAllSubtasks_progress64) subtaskDefinitions sp
               rows "foundations" "verbal" true); [|discriminate].
    vm_compute. reflexivity.
Defined.
